(** * finbuddy: the token codec, the credential hasher and the record store
    of [server.js], embedded in Rocq.

    The file has two parts.  Part I embeds the program: first the pieces of
    the JavaScript runtime that [server.js] calls (strings, numbers, JSON,
    base64, SHA-256, the coercions of [+], [<], [===] and [!]), then the
    functions of [server.js] themselves, route by route.  Part II states and
    proves the properties. *)

From Stdlib Require Import ZArith NArith List Bool Ascii String Lia.
From Stdlib Require Import Decimal DecimalN DecimalString.
From stdpp Require Import base tactics option list sorting.
Import ListNotations.

Local Open Scope string_scope.
Local Open Scope Z_scope.

(* ===================================================================== *)
(** * Part I.  The embedding                                              *)
(* ===================================================================== *)

(** ** Strings

    A JavaScript string is modelled by the bytes of its UTF-8 encoding, so
    [Buffer.from(s)] is the identity on the model.  Every string the server
    compares, splits or trims on is split or trimmed on ASCII characters, on
    which UTF-8 bytes and UTF-16 code units agree. *)

(** The double quote, character 34. *)
Abbreviation dquote := (Ascii false true false false false true false false)
  (only parsing).

Module Str.

Definition char_eqb (a b : ascii) : bool := Ascii.eqb a b.

Fixpoint contains (c : ascii) (s : string) : bool :=
  match s with
  | EmptyString => false
  | String a r => char_eqb a c || contains c r
  end.

(** [s.split(c)] for a one-character separator [c]. *)
Fixpoint split (c : ascii) (s : string) : list string :=
  match s with
  | EmptyString => [EmptyString]
  | String a r =>
      if char_eqb a c then EmptyString :: split c r
      else match split c r with
           | h :: t => String a h :: t
           | [] => [String a EmptyString]
           end
  end.

Fixpoint drop (n : nat) (s : string) : string :=
  match n, s with
  | O, _ => s
  | S n', String _ r => drop n' r
  | S _, EmptyString => EmptyString
  end.

(** [s.startsWith(p)] *)
Definition startsWith (p s : string) : bool := String.prefix p s.

(** [s.replace(p, r)] for a string pattern [p]: the first occurrence only. *)
Fixpoint replace (p r s : string) : string :=
  if String.prefix p s then r ++ drop (String.length p) s
  else match s with
       | EmptyString => EmptyString
       | String a rest => String a (replace p r rest)
       end.

(** White space of [trim], [parseInt] and [Number]: the ASCII members of the
    ECMAScript WhiteSpace and LineTerminator classes (tab, line feed,
    vertical tab, form feed, carriage return, space). *)
Definition is_space (c : ascii) : bool :=
  let n := N_of_ascii c in
  ((9 <=? n) && (n <=? 13))%N || (n =? 32)%N.

Fixpoint trimStart (s : string) : string :=
  match s with
  | EmptyString => EmptyString
  | String a r => if is_space a then trimStart r else s
  end.

Fixpoint trimEnd (s : string) : string :=
  match s with
  | EmptyString => EmptyString
  | String a r =>
      match trimEnd r with
      | EmptyString => if is_space a then EmptyString else String a EmptyString
      | r' => String a r'
      end
  end.

Definition trim (s : string) : string := trimEnd (trimStart s).

Definition is_digit (c : ascii) : bool :=
  let n := N_of_ascii c in ((48 <=? n) && (n <=? 57))%N.

Fixpoint repeat_char (c : ascii) (n : nat) : string :=
  match n with
  | O => EmptyString
  | S n' => String c (repeat_char c n')
  end.

(** The character at position [i] replaced by [c] (positions from 0). *)
Fixpoint set_char (i : nat) (c : ascii) (s : string) : string :=
  match s, i with
  | EmptyString, _ => EmptyString
  | String _ r, O => String c r
  | String a r, S i' => String a (set_char i' c r)
  end.

End Str.

(** ** SHA-256 and hexadecimal digests

    [crypto.createHash('sha256').update(s).digest('hex')], following
    FIPS 180-4 on 32-bit words carried by [Z]. *)

Module Sha256.

Definition w32 (x : Z) : Z := x mod 4294967296.
Definition add32 (x y : Z) : Z := w32 (x + y).
Definition rotr (n x : Z) : Z :=
  Z.lor (Z.shiftr x n) (w32 (Z.shiftl x (32 - n))).
Definition not32 (x : Z) : Z := Z.lxor x 0xffffffff.

Definition Ch (x y z : Z) : Z := Z.lxor (Z.land x y) (Z.land (not32 x) z).
Definition Maj (x y z : Z) : Z :=
  Z.lxor (Z.lxor (Z.land x y) (Z.land x z)) (Z.land y z).
Definition bsig0 (x : Z) : Z := Z.lxor (Z.lxor (rotr 2 x) (rotr 13 x)) (rotr 22 x).
Definition bsig1 (x : Z) : Z := Z.lxor (Z.lxor (rotr 6 x) (rotr 11 x)) (rotr 25 x).
Definition ssig0 (x : Z) : Z := Z.lxor (Z.lxor (rotr 7 x) (rotr 18 x)) (Z.shiftr x 3).
Definition ssig1 (x : Z) : Z := Z.lxor (Z.lxor (rotr 17 x) (rotr 19 x)) (Z.shiftr x 10).

(** The words that a text of hexadecimal words, separated by spaces, lists. *)
Definition hex_value (c : ascii) : Z :=
  let n := Z.of_N (N_of_ascii c) in if n <? 58 then n - 48 else n - 87.

Fixpoint hex_words (s : string) (acc : Z) : list Z :=
  match s with
  | EmptyString => [acc]
  | String c r =>
      if Ascii.eqb c " " then acc :: hex_words r 0
      else hex_words r (acc * 16 + hex_value c)
  end.

(** The round constants (FIPS 180-4, section 4.2.2). *)
Definition K : list Z :=
  hex_words
    ("428a2f98 71374491 b5c0fbcf e9b5dba5 3956c25b 59f111f1 923f82a4 ab1c5ed5 " ++
     "d807aa98 12835b01 243185be 550c7dc3 72be5d74 80deb1fe 9bdc06a7 c19bf174 " ++
     "e49b69c1 efbe4786 0fc19dc6 240ca1cc 2de92c6f 4a7484aa 5cb0a9dc 76f988da " ++
     "983e5152 a831c66d b00327c8 bf597fc7 c6e00bf3 d5a79147 06ca6351 14292967 " ++
     "27b70a85 2e1b2138 4d2c6dfc 53380d13 650a7354 766a0abb 81c2c92e 92722c85 " ++
     "a2bfe8a1 a81a664b c24b8b70 c76c51a3 d192e819 d6990624 f40e3585 106aa070 " ++
     "19a4c116 1e376c08 2748774c 34b0bcb5 391c0cb3 4ed8aa4a 5b9cca4f 682e6ff3 " ++
     "748f82ee 78a5636f 84c87814 8cc70208 90befffa a4506ceb bef9a3f7 c67178f2") 0.

(** The initial hash value (FIPS 180-4, section 5.3.3). *)
Definition H0 : list Z :=
  hex_words "6a09e667 bb67ae85 3c6ef372 a54ff53a 510e527f 9b05688c 1f83d9ab 5be0cd19" 0.

Definition bytes_of_string (s : string) : list Z :=
  List.map (fun c => Z.of_N (N_of_ascii c)) (list_ascii_of_string s).

(** Big-endian bytes of [x], [n] of them. *)
Fixpoint be_bytes (n : nat) (x : Z) : list Z :=
  match n with
  | O => []
  | S n' => be_bytes n' (Z.shiftr x 8) ++ [x mod 256]
  end.

(** Padding: the bit 1, zeros up to 56 modulo 64, the bit length on 8 bytes. *)
Definition pad (msg : list Z) : list Z :=
  let len := Z.of_nat (List.length msg) in
  let zeros := Z.to_nat ((55 - len) mod 64) in
  msg ++ [128] ++ List.repeat 0 zeros ++ be_bytes 8 (8 * len).

Fixpoint words (fuel : nat) (bs : list Z) : list Z :=
  match fuel, bs with
  | S f, b0 :: b1 :: b2 :: b3 :: r =>
      (b0 * 16777216 + b1 * 65536 + b2 * 256 + b3) :: words f r
  | _, _ => []
  end.

(** The message schedule, most recent word first. *)
Fixpoint schedule (n : nat) (rw : list Z) : list Z :=
  match n with
  | O => rw
  | S n' =>
      let w :=
        add32 (add32 (ssig1 (nth 1 rw 0)) (nth 6 rw 0))
              (add32 (ssig0 (nth 14 rw 0)) (nth 15 rw 0)) in
      schedule n' (w :: rw)
  end.

Record regs := Regs { ra : Z; rb : Z; rc : Z; rd : Z; re : Z; rf : Z; rg : Z; rh : Z }.

Definition round (s : regs) (kw : Z * Z) : regs :=
  let t1 := add32 (add32 (add32 (rh s) (bsig1 (re s)))
                         (add32 (Ch (re s) (rf s) (rg s)) (fst kw))) (snd kw) in
  let t2 := add32 (bsig0 (ra s)) (Maj (ra s) (rb s) (rc s)) in
  Regs (add32 t1 t2) (ra s) (rb s) (rc s) (add32 (rd s) t1) (re s) (rf s) (rg s).

Definition regs_of (h : list Z) : regs :=
  Regs (nth 0 h 0) (nth 1 h 0) (nth 2 h 0) (nth 3 h 0)
       (nth 4 h 0) (nth 5 h 0) (nth 6 h 0) (nth 7 h 0).

Definition compress (h : list Z) (block : list Z) : list Z :=
  let w := List.rev (schedule 48 (List.rev block)) in
  let s0 := regs_of h in
  let s := List.fold_left round (List.combine K w) s0 in
  [ add32 (ra s0) (ra s); add32 (rb s0) (rb s); add32 (rc s0) (rc s);
    add32 (rd s0) (rd s); add32 (re s0) (re s); add32 (rf s0) (rf s);
    add32 (rg s0) (rg s); add32 (rh s0) (rh s) ].

Fixpoint blocks (fuel : nat) (h : list Z) (ws : list Z) : list Z :=
  match fuel, ws with
  | _, [] => h
  | O, _ => h
  | S f, _ => blocks f (compress h (List.firstn 16 ws)) (List.skipn 16 ws)
  end.

Definition digest (msg : list Z) : list Z :=
  let bs := pad msg in
  let ws := words (List.length bs) bs in
  let h := blocks (List.length ws) H0 ws in
  List.concat (List.map (be_bytes 4) h).

End Sha256.

Module Hex.

Definition alphabet : list ascii :=
  list_ascii_of_string "0123456789abcdef".

Definition digit (n : Z) : ascii := nth (Z.to_nat n) alphabet "0"%char.

Fixpoint encode (bs : list Z) : string :=
  match bs with
  | [] => EmptyString
  | b :: r => String (digit (b / 16)) (String (digit (b mod 16)) (encode r))
  end.

End Hex.

Definition sha256_hex (s : string) : string :=
  Hex.encode (Sha256.digest (Sha256.bytes_of_string s)).

(** ** Base64

    [Buffer.from(s).toString('base64')] and
    [Buffer.from(t, 'base64').toString('utf8')].  The decoder is Node's: it
    never fails, skips every character outside the alphabet (the URL-safe
    [-] and [_] are accepted for [+] and [/]) and stops at the first [=].
    The replacement of ill-formed UTF-8 by U+FFFD in [toString('utf8')] is
    not modelled: the decoded bytes are kept as they are. *)

Module Base64.

Definition alphabet : list ascii :=
  list_ascii_of_string
    "ABCDEFGHIJKLMNOPQRSTUVWXYZabcdefghijklmnopqrstuvwxyz0123456789+/".

Definition char (i : N) : ascii := nth (N.to_nat i) alphabet "A"%char.

Definition index (c : ascii) : option N :=
  let n := N_of_ascii c in
  if ((65 <=? n) && (n <=? 90))%N then Some (n - 65)%N
  else if ((97 <=? n) && (n <=? 122))%N then Some (n - 71)%N
  else if ((48 <=? n) && (n <=? 57))%N then Some (n + 4)%N
  else if ((n =? 43) || (n =? 45))%N then Some 62%N
  else if ((n =? 47) || (n =? 95))%N then Some 63%N
  else None.

Definition pad_char : ascii := "="%char.

Fixpoint encode (s : string) : string :=
  match s with
  | EmptyString => EmptyString
  | String a EmptyString =>
      let n := (N_of_ascii a * 65536)%N in
      String (char (n / 262144)) (String (char ((n / 4096) mod 64))
        (String pad_char (String pad_char EmptyString)))
  | String a (String b EmptyString) =>
      let n := (N_of_ascii a * 65536 + N_of_ascii b * 256)%N in
      String (char (n / 262144)) (String (char ((n / 4096) mod 64))
        (String (char ((n / 64) mod 64)) (String pad_char EmptyString)))
  | String a (String b (String c r)) =>
      let n := (N_of_ascii a * 65536 + N_of_ascii b * 256 + N_of_ascii c)%N in
      String (char (n / 262144)) (String (char ((n / 4096) mod 64))
        (String (char ((n / 64) mod 64)) (String (char (n mod 64))
          (encode r))))
  end.

(** The legal characters before the first [=], as 6-bit values. *)
Fixpoint sextets (s : string) : list N :=
  match s with
  | EmptyString => []
  | String c r =>
      if Str.char_eqb c pad_char then []
      else match index c with
           | Some i => i :: sextets r
           | None => sextets r
           end
  end.

Definition byte (n : N) : ascii := ascii_of_N (n mod 256).

Fixpoint bytes (l : list N) : string :=
  match l with
  | s1 :: s2 :: s3 :: s4 :: r =>
      let n := (s1 * 262144 + s2 * 4096 + s3 * 64 + s4)%N in
      String (byte (n / 65536)) (String (byte (n / 256)) (String (byte n) (bytes r)))
  | [s1; s2; s3] =>
      let n := (s1 * 262144 + s2 * 4096 + s3 * 64)%N in
      String (byte (n / 65536)) (String (byte (n / 256)) EmptyString)
  | [s1; s2] =>
      let n := (s1 * 262144 + s2 * 4096)%N in
      String (byte (n / 65536)) EmptyString
  | _ => EmptyString
  end.

Definition decode (s : string) : string := bytes (sextets s).

End Base64.

(** ** Numbers

    A JavaScript number is an IEEE double.  The model carries the finite
    ones as exact decimals [n / 10^k], kept reduced ([k = 0] or [n] not a
    multiple of 10), beside [NaN] and the two infinities; [-0] is [0].
    A sum is rounded to the nearest double, ties to even, as [+] rounds it
    ([round_double]): from 2^53 on, adding 1 may give the number back.  A
    literal is read as the decimal it writes and comparisons are exact; the
    rounding of a literal of more than 15 digits and the exponent notation
    that [toString] uses from 1e21 on and below 1e-6 are outside the model.
    On integers up to 2^53 in magnitude, where the server does its
    arithmetic (identifiers, millisecond instants), the model and the
    doubles agree. *)

Inductive number : Type :=
| NaN
| Inf (negative : bool)
| Fin (n : Z) (k : nat).

Module Num.

Definition int (z : Z) : number := Fin z 0.

Fixpoint reduce (n : Z) (k : nat) : number :=
  match k with
  | O => Fin n O
  | S k' => if n mod 10 =? 0 then reduce (n / 10) k' else Fin n k
  end.

Definition scale (n : Z) (d : nat) : Z := n * 10 ^ Z.of_nat d.

(** The double nearest to [n / 10^k], ties to the even significand: the
    significand [m] has 53 bits at most and the exponent [e] is -1074 at
    least; what reaches 2^1024 is an infinity.  (An integer up to 2^53 in
    magnitude is a double.) *)
Definition round_double (x : number) : number :=
  match x with
  | Fin n k =>
      if Nat.eqb k 0 && (Z.abs n <=? 2 ^ 53) then x
      else
        let a := Z.abs n in
        let d := 10 ^ Z.of_nat k in
        let floor (e : Z) := if 0 <=? e then a / (d * 2 ^ e) else a * 2 ^ (- e) / d in
        let e1 := Z.log2 a - Z.log2 d - 53 in
        let e2 := if floor e1 <? 2 ^ 53 then e1 else e1 + 1 in
        let e := Z.max e2 (- 1074) in
        let num := if 0 <=? e then a else a * 2 ^ (- e) in
        let den := if 0 <=? e then d * 2 ^ e else d in
        let q := num / den in
        let r := num mod den in
        let m := if 2 * r <? den then q
                 else if den <? 2 * r then q + 1
                 else if Z.even q then q else q + 1 in
        let s := if n <? 0 then - m else m in
        if 0 <=? e then
          if 2 ^ 1024 <=? m * 2 ^ e then Inf (n <? 0) else Fin (s * 2 ^ e) O
        else reduce (s * 5 ^ (- e)) (Z.to_nat (- e))
  | _ => x
  end.

(** The sum of two decimals, exactly. *)
Definition exact_sum (n : Z) (j : nat) (m : Z) (k : nat) : number :=
  match j, k with
  | O, O => Fin (n + m) O
  | _, _ =>
      let d := Nat.max j k in
      reduce (scale n (d - j) + scale m (d - k)) d
  end.

(** [a + b] on numbers: the sum of the two doubles, rounded. *)
Definition add (a b : number) : number :=
  match round_double a, round_double b with
  | NaN, _ | _, NaN => NaN
  | Inf s, Inf t => if Bool.eqb s t then Inf s else NaN
  | Inf s, Fin _ _ => Inf s
  | Fin _ _, Inf t => Inf t
  | Fin n j, Fin m k => round_double (exact_sum n j m k)
  end.

(** [a < b]; false as soon as one side is [NaN]. *)
Definition ltb (a b : number) : bool :=
  match a, b with
  | NaN, _ | _, NaN => false
  | Inf s, Inf t => s && negb t
  | Inf s, Fin _ _ => s
  | Fin _ _, Inf t => negb t
  | Fin n O, Fin m O => n <? m
  | Fin n j, Fin m k =>
      let d := Nat.max j k in
      scale n (d - j) <? scale m (d - k)
  end.

(** [a === b] on numbers; representations are reduced, so equal numbers
    have equal representations. *)
Definition eqb (a b : number) : bool :=
  match a, b with
  | Fin n j, Fin m k => (n =? m) && Nat.eqb j k
  | Inf s, Inf t => Bool.eqb s t
  | _, _ => false
  end.

(** [!x] on a number: zero and [NaN] are falsy. *)
Definition falsy (a : number) : bool :=
  match a with
  | NaN => true
  | Inf _ => false
  | Fin n _ => n =? 0
  end.

Definition digits (n : N) : string := NilEmpty.string_of_uint (N.to_uint n).

(** [String(x)] *)
Definition to_string (x : number) : string :=
  match x with
  | NaN => "NaN"
  | Inf false => "Infinity"
  | Inf true => "-Infinity"
  | Fin n k =>
      let sign := if n <? 0 then "-" else "" in
      let ds := digits (Z.abs_N n) in
      match k with
      | O => sign ++ ds
      | _ =>
          let len := String.length ds in
          if (k <? len)%nat
          then sign ++ String.substring 0 (len - k) ds ++ "."
                    ++ String.substring (len - k) k ds
          else sign ++ "0." ++ Str.repeat_char "0" (k - len) ++ ds
      end
  end.

(** *** Reading decimal literals *)

Definition digit_of (c : ascii) (u : uint) : option uint :=
  match c with
  | "0"%char => Some (D0 u) | "1"%char => Some (D1 u) | "2"%char => Some (D2 u)
  | "3"%char => Some (D3 u) | "4"%char => Some (D4 u) | "5"%char => Some (D5 u)
  | "6"%char => Some (D6 u) | "7"%char => Some (D7 u) | "8"%char => Some (D8 u)
  | "9"%char => Some (D9 u)
  | _ => None
  end.

(** The longest prefix of digits, and what follows it. *)
Fixpoint lex_uint (s : string) : uint * string :=
  match s with
  | EmptyString => (Nil, EmptyString)
  | String c r =>
      let (u, rest) := lex_uint r in
      match digit_of c u with
      | Some u' => (u', rest)
      | None => (Nil, s)
      end
  end.

Record literal := Literal {
  l_neg : bool;
  l_int : uint;
  l_frac : option uint;
  l_exp : option (bool * uint) }.

Definition lex_sign (plus_too : bool) (s : string) : bool * string :=
  match s with
  | String "-"%char r => (true, r)
  | String "+"%char r => if plus_too then (false, r) else (false, s)
  | _ => (false, s)
  end.

Definition lex_frac (s : string) : option uint * string :=
  match s with
  | String "."%char r => let (u, rest) := lex_uint r in (Some u, rest)
  | _ => (None, s)
  end.

Definition lex_exp (s : string) : option (bool * uint) * string :=
  match s with
  | String c r =>
      if Str.char_eqb c "e"%char || Str.char_eqb c "E"%char then
        let (neg, r1) := lex_sign true r in
        let (u, rest) := lex_uint r1 in (Some (neg, u), rest)
      else (None, s)
  | _ => (None, s)
  end.

Definition lex_literal (plus_too : bool) (s : string) : literal * string :=
  let (neg, s1) := lex_sign plus_too s in
  let (i, s2) := lex_uint s1 in
  let (f, s3) := lex_frac s2 in
  let (e, s4) := lex_exp s3 in
  (Literal neg i f e, s4).

Definition is_nil (u : uint) : bool :=
  match u with Nil => true | _ => false end.

(** The number a literal denotes: [(i.f) * 10^e], exactly. *)
Definition of_literal (l : literal) : number :=
  let f := match l_frac l with Some u => u | None => Nil end in
  let fk := Decimal.nb_digits f in
  let m := Z.of_N (N.of_uint (l_int l)) * 10 ^ Z.of_nat fk + Z.of_N (N.of_uint f) in
  let m := if l_neg l then - m else m in
  let e := match l_exp l with
           | Some (neg, u) =>
               let x := Z.of_N (N.of_uint u) in if neg then - x else x
           | None => 0
           end in
  let p := e - Z.of_nat fk in
  if 0 <=? p then Fin (m * 10 ^ p) O else reduce m (Z.to_nat (- p)).

(** The JSON grammar of a number: no [+], no leading zero, digits on both
    sides of the point, digits in the exponent. *)
Definition json_literal_ok (l : literal) : bool :=
  negb (is_nil (l_int l))
  && match l_int l with D0 Nil => true | D0 _ => false | _ => true end
  && match l_frac l with Some u => negb (is_nil u) | None => true end
  && match l_exp l with Some (_, u) => negb (is_nil u) | None => true end.

(** The StrDecimalLiteral grammar of [Number(s)]: a digit on one side of
    the point at least. *)
Definition str_literal_ok (l : literal) : bool :=
  (negb (is_nil (l_int l))
   || match l_frac l with Some u => negb (is_nil u) | None => false end)
  && match l_exp l with Some (_, u) => negb (is_nil u) | None => true end.

(** [Number(s)] on a string: white space trimmed, the empty string is 0,
    then a signed decimal literal or a signed [Infinity]; anything else is
    [NaN].  (The [0x], [0o] and [0b] integer literals are not modelled and
    read as [NaN].) *)
Definition of_string (s : string) : number :=
  let t := Str.trim s in
  if String.eqb t "" then Fin 0 O
  else if String.eqb t "Infinity" || String.eqb t "+Infinity" then Inf false
  else if String.eqb t "-Infinity" then Inf true
  else
    let (l, rest) := lex_literal true t in
    if String.eqb rest "" && str_literal_ok l then of_literal l else NaN.

(** [parseInt(s, 10)]: leading white space, a sign, then the longest run
    of digits; [NaN] when there is no digit. *)
Definition parseInt (s : string) : number :=
  let (neg, s1) := lex_sign true (Str.trimStart s) in
  let (u, _) := lex_uint s1 in
  if is_nil u then NaN
  else let z := Z.of_N (N.of_uint u) in Fin (if neg then - z else z) O.

End Num.

(** ** Values

    The values [JSON.parse] builds and the server handles.  An object is the
    list of its own properties in insertion order, with no key twice. *)

#[warnings="-register-all"]
Inductive value : Type :=
| VUndefined
| VNull
| VBool (b : bool)
| VNum (x : number)
| VStr (s : string)
| VArr (items : list value)
| VObj (props : list (string * value)).

Definition vint (z : Z) : value := VNum (Fin z O).

(** What a throwing expression throws. *)
Inductive exn : Type := TypeError | SyntaxError.

(** The outcome of an expression that can throw. *)
Inductive result (A : Type) : Type :=
| Ok (a : A)
| Throw (e : exn).
Arguments Ok {A} a.
Arguments Throw {A} e.

Definition bind {A B : Type} (r : result A) (k : A -> result B) : result B :=
  match r with
  | Ok a => k a
  | Throw e => Throw e
  end.

Notation "'let!' x ':=' e 'in' k" := (bind e (fun x => k))
  (at level 10, x pattern, e at level 100, k at level 200).

Module Js.

(** *** Properties *)

Fixpoint lookup (k : string) (props : list (string * value)) : value :=
  match props with
  | [] => VUndefined
  | (k', v) :: r => if String.eqb k' k then v else lookup k r
  end.

Fixpoint has_key (k : string) (props : list (string * value)) : bool :=
  match props with
  | [] => false
  | (k', _) :: r => String.eqb k' k || has_key k r
  end.

(** [o[k] = v]: the value is replaced where the key stands, a new key goes
    to the end. *)
Fixpoint set (k : string) (v : value) (props : list (string * value))
  : list (string * value) :=
  match props with
  | [] => [(k, v)]
  | (k', v') :: r => if String.eqb k' k then (k', v) :: r else (k', v') :: set k v r
  end.

(** [x.k] for the names the server reads ([id], [userId], [exp],
    [username], ...), none of which is a property of a string, an array, a
    number or a boolean: reading it off [null] or [undefined] throws, off
    any other non-object gives [undefined]. *)
Definition get (x : value) (k : string) : result value :=
  match x with
  | VUndefined | VNull => Throw TypeError
  | VObj props => Ok (lookup k props)
  | _ => Ok VUndefined
  end.

Fixpoint indexed (A : Type) (i : nat) (l : list A) : list (nat * A) :=
  match l with
  | [] => []
  | x :: r => (i, x) :: indexed A (S i) r
  end.
Arguments indexed {A} i l.

Definition index_key (i : nat) : string := Num.digits (N.of_nat i).

(** The own enumerable properties that [{...x}] copies: those of an
    object, the elements of an array and the characters of a string under
    their indices, nothing for the other values ([null] and [undefined]
    included: spreading them does not throw). *)
Definition own_props (x : value) : list (string * value) :=
  match x with
  | VObj props => props
  | VArr items => List.map (fun p => (index_key (fst p), snd p)) (indexed 0 items)
  | VStr s =>
      List.map (fun p => (index_key (fst p), VStr (String (snd p) EmptyString)))
               (indexed 0 (list_ascii_of_string s))
  | _ => []
  end.

(** [{ ...a, ...b }]: the properties of [a], then those of [b] set over
    them one by one. *)
Definition spread (a b : value) : value :=
  VObj (List.fold_left (fun acc p => set (fst p) (snd p) acc)
                       (own_props b) (own_props a)).

(** *** Coercions and operators *)

Fixpoint join (sep : string) (l : list string) : string :=
  match l with
  | [] => EmptyString
  | [x] => x
  | x :: r => x ++ sep ++ join sep r
  end.

(** [String(x)].  An object is coerced through its [toString]: the one
    of [Object.prototype] gives ["[object Object]"], but an own property of
    that name, which in a value read from JSON is never a function, leaves
    no method to call ([valueOf] gives the object back), and the coercion
    throws a TypeError.  An array is coerced through [join], which coerces
    the elements in turn. *)
Fixpoint ToString (x : value) : result string :=
  match x with
  | VUndefined => Ok "undefined"
  | VNull => Ok "null"
  | VBool true => Ok "true"
  | VBool false => Ok "false"
  | VNum n => Ok (Num.to_string n)
  | VStr s => Ok s
  | VArr items =>
      let fix elements (l : list value) : result (list string) :=
        match l with
        | [] => Ok []
        | e :: r =>
            let! s := match e with
                      | VUndefined | VNull => Ok EmptyString
                      | _ => ToString e
                      end in
            let! ss := elements r in
            Ok (s :: ss)
        end in
      let! parts := elements items in
      Ok (join "," parts)
  | VObj props =>
      if has_key "toString" props then Throw TypeError
      else Ok "[object Object]"
  end.

(** [ToPrimitive]: an array or an object becomes its string, or throws. *)
Definition ToPrimitive (x : value) : result value :=
  match x with
  | VArr _ | VObj _ => let! s := ToString x in Ok (VStr s)
  | _ => Ok x
  end.

(** [Number(x)] *)
Definition ToNumber (x : value) : result number :=
  let! p := ToPrimitive x in
  Ok (match p with
      | VUndefined => NaN
      | VNull => Fin 0 O
      | VBool true => Fin 1 O
      | VBool false => Fin 0 O
      | VNum n => n
      | VStr s => Num.of_string s
      | _ => NaN
      end).

(** [!!x] *)
Definition truthy (x : value) : bool :=
  match x with
  | VUndefined | VNull => false
  | VBool b => b
  | VNum n => negb (Num.falsy n)
  | VStr s => negb (String.eqb s "")
  | VArr _ | VObj _ => true
  end.

(** [a === b].  Two objects or arrays are equal only when they are the same
    reference; the server compares a value read from one document with a
    value read from another document or from the request, which never are,
    so the comparison of two of them is false. *)
Definition strict_eq (a b : value) : bool :=
  match a, b with
  | VUndefined, VUndefined => true
  | VNull, VNull => true
  | VBool x, VBool y => Bool.eqb x y
  | VNum x, VNum y => Num.eqb x y
  | VStr x, VStr y => String.eqb x y
  | _, _ => false
  end.

(** [a + b]: both operands are made primitive first. *)
Definition add (a b : value) : result value :=
  let! pa := ToPrimitive a in
  let! pb := ToPrimitive b in
  match pa, pb with
  | VStr _, _ | _, VStr _ =>
      let! sa := ToString pa in
      let! sb := ToString pb in
      Ok (VStr (sa ++ sb))
  | _, _ =>
      let! na := ToNumber pa in
      let! nb := ToNumber pb in
      Ok (VNum (Num.add na nb))
  end.

(** [a < b] *)
Definition lt (a b : value) : result bool :=
  let! pa := ToPrimitive a in
  let! pb := ToPrimitive b in
  match pa, pb with
  | VStr x, VStr y => Ok (String.ltb x y)
  | _, _ =>
      let! na := ToNumber pa in
      let! nb := ToNumber pb in
      Ok (Num.ltb na nb)
  end.

(** [a || b] *)
Definition or (a b : value) : value := if truthy a then a else b.

(** [typeof x === 'string'] *)
Definition is_string (x : value) : bool :=
  match x with VStr _ => true | _ => false end.

End Js.

(** ** JSON *)

Module Json.

(** *** [JSON.stringify] *)

Definition hex4 (n : N) : string :=
  let z := Z.of_N n in
  String (Hex.digit (z / 4096 mod 16)) (String (Hex.digit (z / 256 mod 16))
    (String (Hex.digit (z / 16 mod 16)) (String (Hex.digit (z mod 16)) EmptyString))).

Definition escape_char (c : ascii) : string :=
  let n := N_of_ascii c in
  if (n =? 34)%N then String "\" (String dquote EmptyString)
  else if (n =? 92)%N then "\\"
  else if (n =? 8)%N then "\b"
  else if (n =? 12)%N then "\f"
  else if (n =? 10)%N then "\n"
  else if (n =? 13)%N then "\r"
  else if (n =? 9)%N then "\t"
  else if (n <? 32)%N then "\u" ++ hex4 n
  else String c EmptyString.

Fixpoint escape (s : string) : string :=
  match s with
  | EmptyString => EmptyString
  | String c r => escape_char c ++ escape r
  end.

Definition quote (s : string) : string :=
  String dquote (escape s ++ String dquote EmptyString).

Definition is_undefined (v : value) : bool :=
  match v with VUndefined => true | _ => false end.

(** The text of a value inside a document: [undefined] in an array and the
    numbers that are not finite are written [null]; a property whose value
    is [undefined] is left out. *)
Fixpoint text (v : value) : string :=
  let fix members (props : list (string * value)) : list string :=
    match props with
    | [] => []
    | (k, x) :: r =>
        if is_undefined x then members r
        else (quote k ++ ":" ++ text x) :: members r
    end in
  match v with
  | VUndefined | VNull => "null"
  | VBool true => "true"
  | VBool false => "false"
  | VNum (Fin n k) => Num.to_string (Fin n k)
  | VNum _ => "null"
  | VStr s => quote s
  | VArr items => "[" ++ Js.join "," (List.map text items) ++ "]"
  | VObj props => "{" ++ Js.join "," (members props) ++ "}"
  end.

(** [JSON.stringify(v)] for a [v] that is not [undefined]. *)
Definition stringify (v : value) : string := text v.

(** What [JSON.parse(JSON.stringify(v))] gives back: the document that a
    file written with [v] holds. *)
Fixpoint to_json (v : value) : value :=
  let fix members (props : list (string * value)) : list (string * value) :=
    match props with
    | [] => []
    | (k, x) :: r =>
        if is_undefined x then members r else (k, to_json x) :: members r
    end in
  match v with
  | VUndefined => VNull
  | VNum (Fin n k) => VNum (Fin n k)
  | VNum _ => VNull
  | VArr items => VArr (List.map to_json items)
  | VObj props => VObj (members props)
  | _ => v
  end.

(** *** [JSON.parse] *)

Definition is_ws (c : ascii) : bool :=
  let n := N_of_ascii c in
  (n =? 32)%N || (n =? 9)%N || (n =? 10)%N || (n =? 13)%N.

Fixpoint skip_ws (s : string) : string :=
  match s with
  | String c r => if is_ws c then skip_ws r else s
  | EmptyString => EmptyString
  end.

Definition hex_value (c : ascii) : option N :=
  let n := N_of_ascii c in
  if ((48 <=? n) && (n <=? 57))%N then Some (n - 48)%N
  else if ((97 <=? n) && (n <=? 102))%N then Some (n - 87)%N
  else if ((65 <=? n) && (n <=? 70))%N then Some (n - 55)%N
  else None.

(** The UTF-8 bytes of a code unit written [\uXXXX]; a surrogate is
    encoded on its own, like any other unit. *)
Definition utf8 (u : N) : string :=
  if (u <? 128)%N then String (ascii_of_N u) EmptyString
  else if (u <? 2048)%N then
    String (ascii_of_N (192 + u / 64)) (String (ascii_of_N (128 + u mod 64)) EmptyString)
  else
    String (ascii_of_N (224 + u / 4096))
      (String (ascii_of_N (128 + (u / 64) mod 64))
         (String (ascii_of_N (128 + u mod 64)) EmptyString)).

Definition unescape (c : ascii) : option ascii :=
  match c with
  | dquote => Some dquote
  | "\"%char => Some "\"%char
  | "/"%char => Some "/"%char
  | "b"%char => Some (ascii_of_N 8)
  | "f"%char => Some (ascii_of_N 12)
  | "n"%char => Some (ascii_of_N 10)
  | "r"%char => Some (ascii_of_N 13)
  | "t"%char => Some (ascii_of_N 9)
  | _ => None
  end.

(** The characters of a string literal after its opening quote, up to the
    closing one. *)
Fixpoint parse_chars (s : string) : option (string * string) :=
  match s with
  | EmptyString => None
  | String c r =>
      if Str.char_eqb c dquote then Some (EmptyString, r)
      else if Str.char_eqb c "\"%char then
        match r with
        | String "u"%char (String h1 (String h2 (String h3 (String h4 r')))) =>
            match hex_value h1, hex_value h2, hex_value h3, hex_value h4 with
            | Some a, Some b, Some c', Some d =>
                match parse_chars r' with
                | Some (t, rest) =>
                    Some (utf8 (a * 4096 + b * 256 + c' * 16 + d)%N ++ t, rest)
                | None => None
                end
            | _, _, _, _ => None
            end
        | String e r' =>
            match unescape e, parse_chars r' with
            | Some x, Some (t, rest) => Some (String x t, rest)
            | _, _ => None
            end
        | EmptyString => None
        end
      else if (N_of_ascii c <? 32)%N then None
      else match parse_chars r with
           | Some (t, rest) => Some (String c t, rest)
           | None => None
           end
  end.

Definition parse_number (s : string) : option (value * string) :=
  let (l, rest) := Num.lex_literal false s in
  if Num.json_literal_ok l then Some (VNum (Num.of_literal l), rest) else None.

Definition parse_word (w : string) (v : value) (s : string)
  : option (value * string) :=
  if String.prefix w s then Some (v, Str.drop (String.length w) s) else None.

(** One value, then the members of an object after its first key's quote
    or the elements of an array; [None] is the SyntaxError. *)
Fixpoint parse_value (fuel : nat) (s : string) : option (value * string) :=
  match fuel with
  | O => None
  | S f =>
      match skip_ws s with
      | String "{"%char r =>
          match skip_ws r with
          | String "}"%char r' => Some (VObj [], r')
          | r1 =>
              match parse_members f r1 [] with
              | Some (props, rest) => Some (VObj props, rest)
              | None => None
              end
          end
      | String "["%char r =>
          match skip_ws r with
          | String "]"%char r' => Some (VArr [], r')
          | r1 =>
              match parse_elements f r1 with
              | Some (items, rest) => Some (VArr items, rest)
              | None => None
              end
          end
      | String dquote r =>
          match parse_chars r with
          | Some (t, rest) => Some (VStr t, rest)
          | None => None
          end
      | String "t"%char _ as w => parse_word "true" (VBool true) w
      | String "f"%char _ as w => parse_word "false" (VBool false) w
      | String "n"%char _ as w => parse_word "null" VNull w
      | w => parse_number w
      end
  end
with parse_members (fuel : nat) (s : string) (acc : list (string * value))
  : option (list (string * value) * string) :=
  match fuel with
  | O => None
  | S f =>
      match skip_ws s with
      | String dquote r =>
          match parse_chars r with
          | Some (k, r1) =>
              match skip_ws r1 with
              | String ":"%char r2 =>
                  match parse_value f r2 with
                  | Some (v, r3) =>
                      let acc' := Js.set k v acc in
                      match skip_ws r3 with
                      | String ","%char r4 => parse_members f r4 acc'
                      | String "}"%char r4 => Some (acc', r4)
                      | _ => None
                      end
                  | None => None
                  end
              | _ => None
              end
          | None => None
          end
      | _ => None
      end
  end
with parse_elements (fuel : nat) (s : string)
  : option (list value * string) :=
  match fuel with
  | O => None
  | S f =>
      match parse_value f s with
      | Some (v, r1) =>
          match skip_ws r1 with
          | String ","%char r2 =>
              match parse_elements f r2 with
              | Some (items, rest) => Some (v :: items, rest)
              | None => None
              end
          | String "]"%char r2 => Some ([v], r2)
          | _ => None
          end
      | None => None
      end
  end.

(** [JSON.parse(s)]; [None] when it throws.  Each call of the three
    functions above either consumes a character or is followed by one that
    does, so twice the length of the text is fuel enough. *)
Definition parse (s : string) : option value :=
  match parse_value (2 * String.length s + 2) s with
  | Some (v, rest) =>
      if String.eqb (skip_ws rest) "" then Some v else None
  | None => None
  end.

End Json.

(** ** [server.js]

    What the server reads from outside itself is made explicit: the clock,
    the random salt and the three files. *)

Record env : Type := Env {
  now : Z;                 (** [Date.now()], in milliseconds *)
  iso_now : string;        (** [new Date().toISOString()] *)
  random_salt : string     (** [crypto.randomBytes(16).toString('hex')] *)
}.

(** A file of the data directory: [None] when it is missing, unreadable or
    not JSON, else the document it holds. *)
Definition file : Type := option value.

Record store : Type := Store {
  usersFile : file;
  expensesFile : file;
  goalsFile : file
}.

Record request : Type := Request {
  method : string;
  pathname : string;               (** [url.parse(req.url, true).pathname] *)
  authorization : option string;   (** [req.headers['authorization']] *)
  body : string                    (** the chunks of the request, concatenated *)
}.

(** What the server answers: [res.writeHead(status, ...)] followed by
    [res.end(JSON.stringify(v))], by a bare [res.end()], or one of the three
    advisory routes (summary, advice, AI proxy), whose replies are outside
    this model. *)
Inductive reply : Type :=
| Json (status : Z) (v : value)
| Empty (status : Z)
| Advisory (route : string).

Definition SECRET : string := "change_this_secret_in_production".

Definition readJson (f : file) : list value :=
  match f with
  | Some (VArr items) => items
  | _ => []
  end.

(** The file after [writeJson(filePath, data)] has resolved. *)
Definition writeJson (data : list value) : file :=
  Some (Json.to_json (VArr data)).

(** [password + salt] can throw, and [hash.update(x)] throws unless [x] is
    a string. *)
Definition hashPassword (password salt : value) : result string :=
  let! sum := Js.add password salt in
  match sum with
  | VStr s => Ok (sha256_hex s)
  | _ => Throw TypeError
  end.

Definition token_payload (t : Z) (userId : value) : value :=
  VObj [("userId", userId); ("exp", vint (t + 24 * 60 * 60 * 1000))].

Definition generateToken (t : Z) (userId : value) : string :=
  let payloadString := Json.stringify (token_payload t userId) in
  let base64Payload := Base64.encode payloadString in
  let signature := sha256_hex (base64Payload ++ SECRET) in
  base64Payload ++ "." ++ signature.

(** [null] is the rejection. *)
Definition verifyToken (t : Z) (token : string) : value :=
  if String.eqb token "" then VNull
  else match Str.split "." token with
       | [base64Payload; signature] =>
           let expectedSig := sha256_hex (base64Payload ++ SECRET) in
           if negb (String.eqb signature expectedSig) then VNull
           else
             let payloadString := Base64.decode base64Payload in
             match Json.parse payloadString with
             | None => VNull
             | Some payload =>
                 match Js.get payload "exp" with
                 | Throw _ => VNull
                 | Ok exp =>
                     match Js.lt exp (vint t) with
                     | Ok false => payload
                     | _ => VNull
                     end
                 end
             end
       | _ => VNull
       end.

Definition parseBody (b : string) : value :=
  match Json.parse (if String.eqb b "" then "{}" else b) with
  | Some parsed => parsed
  | None => VObj []
  end.

(** *** Array methods with a callback that can throw *)

Fixpoint some (p : value -> result bool) (l : list value) : result bool :=
  match l with
  | [] => Ok false
  | x :: r => let! b := p x in if b : bool then Ok true else some p r
  end.

(** [l.find(p)]; [undefined] when nothing is found. *)
Fixpoint find (p : value -> result bool) (l : list value) : result value :=
  match l with
  | [] => Ok VUndefined
  | x :: r => let! b := p x in if b : bool then Ok x else find p r
  end.

(** [l.findIndex(p)]; [None] is -1. *)
Fixpoint findIndex (p : value -> result bool) (l : list value)
  : result (option nat) :=
  match l with
  | [] => Ok None
  | x :: r =>
      let! b := p x in
      if b : bool then Ok (Some O)
      else let! i := findIndex p r in Ok (option_map S i)
  end.

Fixpoint filter (p : value -> result bool) (l : list value)
  : result (list value) :=
  match l with
  | [] => Ok []
  | x :: r =>
      let! b := p x in
      let! r' := filter p r in
      Ok (if b : bool then x :: r' else r')
  end.

(** [(u) => u.username === username] *)
Definition has_username (username : value) (u : value) : result bool :=
  let! n := Js.get u "username" in Ok (Js.strict_eq n username).

(** [(e) => e.id === id && e.userId === userId] *)
Definition is_record (id userId : value) (e : value) : result bool :=
  let! i := Js.get e "id" in
  if Js.strict_eq i id
  then let! o := Js.get e "userId" in Ok (Js.strict_eq o userId)
  else Ok false.

(** [(e) => e.userId === userId] *)
Definition owned_by (userId : value) (e : value) : result bool :=
  let! o := Js.get e "userId" in Ok (Js.strict_eq o userId).

(** [(u) => u.id === userId] *)
Definition has_id (userId : value) (u : value) : result bool :=
  let! i := Js.get u "id" in Ok (Js.strict_eq i userId).

(** [records.length ? records[records.length - 1].id + 1 : 1], the
    identifier of a new record; the three inserting routes spell it out
    with their own array. *)
Definition next_id (records : list value) : result value :=
  match last records with
  | None => Ok (vint 1)
  | Some r => let! i := Js.get r "id" in Js.add i (vint 1)
  end.

(** [parseInt(pathname.split('/').pop(), 10)] *)
Definition path_id (path : string) : value :=
  VNum (Num.parseInt (List.last (Str.split "/" path) EmptyString)).

Definition error (msg : string) : value := VObj [("error", VStr msg)].
Definition message (msg : string) : value := VObj [("message", VStr msg)].

(** *** The public routes *)

Definition register (e : env) (st : store) (req : request)
  : result (reply * store) :=
  let b := parseBody (body req) in
  let! username := Js.get b "username" in
  let! password := Js.get b "password" in
  if negb (Js.truthy username) || negb (Js.truthy password) then
    Ok (Json 400 (error "Username and password are required"), st)
  else
    let users := readJson (usersFile st) in
    let! taken := some (has_username username) users in
    if taken : bool then Ok (Json 409 (error "Username already exists"), st)
    else
      let salt := VStr (random_salt e) in
      let! hashed := hashPassword password salt in
      let! id := next_id users in
      let user := VObj [("id", id); ("username", username);
                        ("salt", salt); ("hashed", VStr hashed)] in
      let users' := (users ++ [user])%list in
      Ok (Json 201 (message "User registered successfully"),
          Store (writeJson users') (expensesFile st) (goalsFile st)).

Definition login (e : env) (st : store) (req : request)
  : result (reply * store) :=
  let b := parseBody (body req) in
  let! username := Js.get b "username" in
  let! password := Js.get b "password" in
  let users := readJson (usersFile st) in
  let! user := find (has_username username) users in
  if negb (Js.truthy user) then
    Ok (Json 401 (error "Invalid username or password"), st)
  else
    let! salt := Js.get user "salt" in
    let! hashed := hashPassword password salt in
    let! stored := Js.get user "hashed" in
    if negb (Js.strict_eq (VStr hashed) stored) then
      Ok (Json 401 (error "Invalid username or password"), st)
    else
      let! id := Js.get user "id" in
      Ok (Json 200 (VObj [("token", VStr (generateToken (now e) id))]), st).

(** *** The session gate *)

Definition unauthorized : reply := Json 401 (error "Unauthorized").

(** [authHeader.replace('Bearer ', '').trim()] *)
Definition bearer_token (req : request) : string :=
  let authHeader := match authorization req with Some h => h | None => "" end in
  Str.trim (Str.replace "Bearer " "" authHeader).

(** The payload of the request's token, or the 401 reply. *)
Definition session_gate (e : env) (req : request) : reply + value :=
  let payload := verifyToken (now e) (bearer_token req) in
  if negb (Js.truthy payload) then inl unauthorized else inr payload.

(** *** Expenses and goals

    The listing, updating and deleting routes of the two collections are the
    same code up to the file and the name in the message. *)

Inductive collection : Type := Expenses | Goals.

Definition file_of (c : collection) (st : store) : file :=
  match c with Expenses => expensesFile st | Goals => goalsFile st end.

Definition with_file (c : collection) (f : file) (st : store) : store :=
  match c with
  | Expenses => Store (usersFile st) f (goalsFile st)
  | Goals => Store (usersFile st) (expensesFile st) f
  end.

Definition not_found (c : collection) : reply :=
  Json 404 (error (match c with
                   | Expenses => "Expense not found"
                   | Goals => "Goal not found"
                   end)).

(** [GET /api/expenses], [GET /api/goals] *)
Definition list_records (c : collection) (userId : value) (st : store)
  : result (reply * store) :=
  let records := readJson (file_of c st) in
  let! mine := filter (owned_by userId) records in
  Ok (Json 200 (VArr mine), st).

(** [POST /api/expenses] *)
Definition create_expense (e : env) (userId : value) (st : store) (req : request)
  : result (reply * store) :=
  let b := parseBody (body req) in
  let! category := Js.get b "category" in
  let! amount := Js.get b "amount" in
  let! date := Js.get b "date" in
  if negb (Js.truthy category) || negb (Js.truthy amount) then
    Ok (Json 400 (error "Category and amount are required"), st)
  else
    let expenses := readJson (expensesFile st) in
    let! id := next_id expenses in
    let! number := Js.ToNumber amount in
    let expense := VObj [("id", id); ("userId", userId); ("category", category);
                         ("amount", VNum number);
                         ("date", Js.or date (VStr (iso_now e)))] in
    let expenses' := (expenses ++ [expense])%list in
    Ok (Json 201 expense, with_file Expenses (writeJson expenses') st).

(** [POST /api/goals] *)
Definition create_goal (userId : value) (st : store) (req : request)
  : result (reply * store) :=
  let b := parseBody (body req) in
  let! title := Js.get b "title" in
  let! target := Js.get b "target" in
  let! frequency := Js.get b "frequency" in
  if negb (Js.truthy title) || negb (Js.truthy target) then
    Ok (Json 400 (error "Title and target are required"), st)
  else
    let goals := readJson (goalsFile st) in
    let! id := next_id goals in
    let! number := Js.ToNumber target in
    let goal := VObj [("id", id); ("userId", userId); ("title", title);
                      ("target", VNum number);
                      ("frequency", Js.or frequency (VStr "monthly"))] in
    let goals' := (goals ++ [goal])%list in
    Ok (Json 201 goal, with_file Goals (writeJson goals') st).

(** [PUT /api/expenses/:id], [PUT /api/goals/:id] *)
Definition update_record (c : collection) (userId : value) (st : store)
  (req : request) : result (reply * store) :=
  let id := path_id (pathname req) in
  let updates := parseBody (body req) in
  let records := readJson (file_of c st) in
  let! index := findIndex (is_record id userId) records in
  match index with
  | None => Ok (not_found c, st)
  | Some i =>
      match records !! i with
      | Some old =>
          let merged := Js.spread old updates in
          let records' := <[ i := merged ]> records in
          Ok (Json 200 merged, with_file c (writeJson records') st)
      | None => Ok (not_found c, st)
      end
  end.

(** [DELETE /api/expenses/:id], [DELETE /api/goals/:id] *)
Definition delete_record (c : collection) (userId : value) (st : store)
  (req : request) : result (reply * store) :=
  let id := path_id (pathname req) in
  let records := readJson (file_of c st) in
  let! index := findIndex (is_record id userId) records in
  match index with
  | None => Ok (not_found c, st)
  | Some i =>
      match records !! i with
      | Some removed =>
          Ok (Json 200 removed, with_file c (writeJson (delete i records)) st)
      | None => Ok (not_found c, st)
      end
  end.

(** *** The profile *)

(** [x.k = v] outside strict mode: an assignment to a property of a
    primitive is dropped. *)
Definition assign (x : value) (k : string) (v : value) : value :=
  match x with
  | VObj props => VObj (Js.set k v props)
  | _ => x
  end.

(** [const { k = d } = x], once [x.k] is read *)
Definition default (v d : value) : value :=
  match v with VUndefined => d | _ => v end.

(** [GET /api/profile] *)
Definition get_profile (userId : value) (st : store) : result (reply * store) :=
  let users := readJson (usersFile st) in
  let! user := find (has_id userId) users in
  if negb (Js.truthy user) then Ok (Json 404 (error "User not found"), st)
  else
    let! username := Js.get user "username" in
    let! fullName := Js.get user "fullName" in
    let! email := Js.get user "email" in
    Ok (Json 200 (VObj [("username", username);
                        ("fullName", default fullName (VStr ""));
                        ("email", default email (VStr ""))]), st).

(** [PUT /api/profile] *)
Definition put_profile (e : env) (userId : value) (st : store) (req : request)
  : result (reply * store) :=
  let b := parseBody (body req) in
  let! fullName := Js.get b "fullName" in
  let! email := Js.get b "email" in
  let! password := Js.get b "password" in
  let users := readJson (usersFile st) in
  let! index := findIndex (has_id userId) users in
  match index with
  | None => Ok (Json 404 (error "User not found"), st)
  | Some i =>
      match users !! i with
      | None => Ok (Json 404 (error "User not found"), st)
      | Some u =>
          let u1 := if Js.is_string fullName then assign u "fullName" fullName else u in
          let u2 := if Js.is_string email then assign u1 "email" email else u1 in
          let! u3 :=
            match password with
            | VStr p =>
                if negb (String.eqb (Str.trim p) "") then
                  let newSalt := VStr (random_salt e) in
                  let! newHashed := hashPassword (VStr (Str.trim p)) newSalt in
                  Ok (assign (assign u2 "salt" newSalt) "hashed" (VStr newHashed))
                else Ok u2
            | _ => Ok u2
            end in
          Ok (Json 200 (message "Profile updated"),
              Store (writeJson (<[ i := u3 ]> users)) (expensesFile st) (goalsFile st))
      end
  end.

(** *** The routes behind the gate, in the order the server tries them *)

Definition authenticated (e : env) (userId : value) (st : store) (req : request)
  : result (reply * store) :=
  let m := method req in
  let p := pathname req in
  if String.eqb m "GET" && String.eqb p "/api/expenses" then
    list_records Expenses userId st
  else if String.eqb m "POST" && String.eqb p "/api/expenses" then
    create_expense e userId st req
  else if String.eqb m "PUT" && Str.startsWith "/api/expenses/" p then
    update_record Expenses userId st req
  else if String.eqb m "DELETE" && Str.startsWith "/api/expenses/" p then
    delete_record Expenses userId st req
  else if String.eqb m "GET" && String.eqb p "/api/summary" then
    Ok (Advisory "/api/summary", st)
  else if String.eqb m "GET" && String.eqb p "/api/advice" then
    Ok (Advisory "/api/advice", st)
  else if String.eqb m "POST" && String.eqb p "/api/ai-advice" then
    Ok (Advisory "/api/ai-advice", st)
  else if String.eqb m "GET" && String.eqb p "/api/goals" then
    list_records Goals userId st
  else if String.eqb m "POST" && String.eqb p "/api/goals" then
    create_goal userId st req
  else if String.eqb m "PUT" && Str.startsWith "/api/goals/" p then
    update_record Goals userId st req
  else if String.eqb m "DELETE" && Str.startsWith "/api/goals/" p then
    delete_record Goals userId st req
  else if String.eqb m "GET" && String.eqb p "/api/profile" then
    get_profile userId st
  else if String.eqb m "PUT" && String.eqb p "/api/profile" then
    put_profile e userId st req
  else Ok (Json 404 (error "API route not found"), st).

(** [handleApi(req, res)]: the reply ([None] when the request is left to
    the static files) and the files afterwards, or what the promise rejects
    with. *)
Definition handleApi (e : env) (st : store) (req : request)
  : result (option reply * store) :=
  if negb (Str.startsWith "/api" (pathname req)) then Ok (None, st)
  else if String.eqb (method req) "OPTIONS" then Ok (Some (Empty 204), st)
  else
    let! (r, st') :=
      if String.eqb (method req) "POST" && String.eqb (pathname req) "/api/register"
      then register e st req
      else if String.eqb (method req) "POST" && String.eqb (pathname req) "/api/login"
      then login e st req
      else match session_gate e req with
           | inl r => Ok (r, st)
           | inr payload =>
               let! userId := Js.get payload "userId" in
               authenticated e userId st req
           end in
    Ok (Some r, st').

(** ** Definitions used by the statements of Part II *)

(** The 6-bit values. *)
Definition sextet_values : list N := List.map N.of_nat (List.seq 0 64).

(** The text after a number in a document: a comma or a closing brace. *)
Definition delimited (rest : string) : bool :=
  match rest with
  | String c _ => Str.char_eqb c "," || Str.char_eqb c "}"
  | EmptyString => false
  end.

(** The text of a token's payload, given the texts of its two numbers. *)
Definition payload_text (n1 n2 : string) : string :=
  "{" ++ Json.quote "userId" ++ ":" ++ n1 ++ ","
      ++ Json.quote "exp" ++ ":" ++ n2 ++ "}".

(** The token that carries the payload text [s] under the server's
    signature; [generateToken] issues [signed] of its payload's text. *)
Definition signed (s : string) : string :=
  Base64.encode s ++ "." ++ sha256_hex (Base64.encode s ++ SECRET).

(** The two segments of the token issued at [t] for [userId]. *)
Definition issued_segment (t : Z) (userId : value) : string :=
  Base64.encode (Json.stringify (token_payload t userId)).

Definition issued_signature (t : Z) (userId : value) : string :=
  sha256_hex (issued_segment t userId ++ SECRET).

(** What [verifyToken] makes of a payload once the signature is checked. *)
Definition check_payload (t : Z) (parsed : option value) : value :=
  match parsed with
  | None => VNull
  | Some payload =>
      match Js.get payload "exp" with
      | Throw _ => VNull
      | Ok exp =>
          match Js.lt exp (vint t) with
          | Ok false => payload
          | _ => VNull
          end
      end
  end.

(** The properties that [JSON.stringify] keeps of an object, as they are
    read back. *)
Fixpoint json_props (props : list (string * value)) : list (string * value) :=
  match props with
  | [] => []
  | (k, x) :: r =>
      if Json.is_undefined x then json_props r
      else (k, Json.to_json x) :: json_props r
  end.

(** The identifier and the owner of a record. *)
Definition prop_of (k : string) (r : value) : value :=
  match r with
  | VObj props => Js.lookup k props
  | _ => VUndefined
  end.

Definition id_of (r : value) : value := prop_of "id" r.
Definition owner_of (r : value) : value := prop_of "userId" r.
Definition ids (l : list value) : list value := List.map id_of l.

(** A value off which a property can be read without a TypeError. *)
Definition readable (r : value) : bool :=
  match r with
  | VUndefined | VNull => false
  | _ => true
  end.

(** A request that reaches the session gate: under [/api], not the
    preflight, not one of the two public routes. *)
Definition gated (req : request) : bool :=
  Str.startsWith "/api" (pathname req)
  && negb (String.eqb (method req) "OPTIONS")
  && negb (String.eqb (method req) "POST" && String.eqb (pathname req) "/api/register")
  && negb (String.eqb (method req) "POST" && String.eqb (pathname req) "/api/login").

(** A stored user that carries a username. *)
Definition named_user (u : value) : bool :=
  match u with
  | VObj props => negb (Json.is_undefined (Js.lookup "username" props))
  | _ => false
  end.

(** [handleApi]'s reply and files when it does not throw. *)
Definition replied (r : result (option reply * store)) : option (reply * store) :=
  match r with
  | Ok (Some x, st) => Some (x, st)
  | _ => None
  end.

(** The requests of a client served one after the other, on the files the
    one before left; the replies, last first, and the files at the end. *)
Fixpoint serve (st : store) (reqs : list (env * request))
  : result (list (option reply) * store) :=
  match reqs with
  | [] => Ok ([], st)
  | (e, req) :: more =>
      let! (r, st1) := handleApi e st req in
      let! (rs, st2) := serve st1 more in
      Ok ((rs ++ [r])%list, st2)
  end.

(** The header of a client that holds the token issued at [t] for user [u]. *)
Definition bearer (t u : Z) : option string :=
  Some ("Bearer " ++ generateToken t (vint u)).

(** The body that carries the object [props]. *)
Definition body_of (props : list (string * value)) : string :=
  Json.stringify (VObj props).





(** Integers in strictly ascending order, and the greatest of a list. *)
Definition ascending (zs : list Z) : Prop := StronglySorted Z.lt zs.



(** The last reply of a run of [serve], with the identifiers and the owners
    of the expenses at the end. *)
Definition last_reply_ids_owners (out : result (list (option reply) * store))
  : option (option reply * list value * list value) :=
  match out with
  | Ok (r :: _, st) =>
      Some (r, ids (readJson (expensesFile st)),
            List.map owner_of (readJson (expensesFile st)))
  | _ => None
  end.

(** The records of a user, as the listing route filters them. *)
Definition records_of (userId : value) (records : list value) : list value :=
  List.filter (fun r => Js.strict_eq (owner_of r) userId) records.

(** The record that the updating and deleting routes look for. *)
Definition targets (id userId : value) (r : value) : bool :=
  Js.strict_eq (id_of r) id && Js.strict_eq (owner_of r) userId.

(** The last reply of a run of [serve]. *)
Definition last_reply (out : result (list (option reply) * store))
  : option reply :=
  match out with
  | Ok (r :: _, _) => r
  | _ => None
  end.

(** The paths of the routes that write the users file, and of those that
    write the file of a collection. *)
Definition users_route (p : string) : bool :=
  String.eqb p "/api/register" || String.eqb p "/api/profile".

Definition collection_route (c : collection) (p : string) : bool :=
  match c with
  | Expenses => String.eqb p "/api/expenses" || Str.startsWith "/api/expenses/" p
  | Goals => String.eqb p "/api/goals" || Str.startsWith "/api/goals/" p
  end.

(** The stored users that carry the username [n]. *)
Definition named (n : value) (u : value) : bool :=
  Js.strict_eq (prop_of "username" u) n.

(** The record of a user after [PUT /api/profile] with the body [b], the
    salt drawn being [salt]. *)
Definition updated_profile (salt : string) (b u : value) : value :=
  let u1 := if Js.is_string (prop_of "fullName" b)
            then assign u "fullName" (prop_of "fullName" b) else u in
  let u2 := if Js.is_string (prop_of "email" b)
            then assign u1 "email" (prop_of "email" b) else u1 in
  match prop_of "password" b with
  | VStr p =>
      if negb (String.eqb (Str.trim p) "")
      then assign (assign u2 "salt" (VStr salt)) "hashed"
             (VStr (sha256_hex (Str.trim p ++ salt)))
      else u2
  | _ => u2
  end.

(** The properties that a profile update may write. *)
Definition profile_key (k : string) : bool :=
  String.eqb k "fullName" || String.eqb k "email"
  || String.eqb k "salt" || String.eqb k "hashed".

(** A text without white space. *)
Fixpoint spaceless (s : string) : bool :=
  match s with
  | EmptyString => true
  | String a r => negb (Str.is_space a) && spaceless r
  end.

(** The creating route of a collection. *)
Definition create (c : collection) (e : env) (userId : value) (st : store)
  (req : request) : result (reply * store) :=
  match c with
  | Expenses => create_expense e userId st req
  | Goals => create_goal userId st req
  end.

(** The path of the record [z] of a collection. *)
Definition record_path (c : collection) (z : Z) : string :=
  match c with Expenses => "/api/expenses" | Goals => "/api/goals" end
  ++ "/" ++ Num.to_string (Fin z 0).

(** The goal that [POST /api/goals] stores for the body [b], its target
    converted to [target]. *)
Definition new_goal (id userId b : value) (target : number) : value :=
  VObj [("id", id); ("userId", userId); ("title", prop_of "title" b);
        ("target", VNum target);
        ("frequency", if Js.truthy (prop_of "frequency" b)
                      then prop_of "frequency" b else VStr "monthly")].

(** A request with an empty body in the place of its own. *)
Definition without_body (req : request) : request :=
  Request (method req) (pathname req) (authorization req) "".

(** The integers that a JavaScript number holds exactly, up to
    [Number.MAX_SAFE_INTEGER]: their decimal text is read back as they
    are. *)
Definition safe_integer (z : Z) : Prop := Z.abs z <= 9007199254740991.

(** A text that does not start with a digit. *)
Definition digitless_start (s : string) : bool :=
  match s with
  | String c _ => negb (Str.is_digit c)
  | EmptyString => true
  end.

(** Induction on a value, through the items of an array and the
    properties of an object. *)
Section Documents.

Variable P : value -> Prop.
Hypothesis P_undefined : P VUndefined.
Hypothesis P_null : P VNull.
Hypothesis P_bool : forall b, P (VBool b).
Hypothesis P_num : forall x, P (VNum x).
Hypothesis P_str : forall s, P (VStr s).
Hypothesis P_arr : forall items, Forall P items -> P (VArr items).
Hypothesis P_obj : forall props, Forall (fun p => P (snd p)) props -> P (VObj props).

Fixpoint value_nested_ind (v : value) : P v :=
  match v with
  | VUndefined => P_undefined
  | VNull => P_null
  | VBool b => P_bool b
  | VNum x => P_num x
  | VStr s => P_str s
  | VArr items =>
      P_arr items
        ((fix go (l : list value) : Forall P l :=
            match l with
            | [] => @List.Forall_nil _ _
            | x :: r => @List.Forall_cons _ _ x r (value_nested_ind x) (go r)
            end) items)
  | VObj props =>
      P_obj props
        ((fix go (l : list (string * value)) : Forall (fun p => P (snd p)) l :=
            match l with
            | [] => @List.Forall_nil _ _
            | p :: r => @List.Forall_cons _ _ p r (value_nested_ind (snd p)) (go r)
            end) props)
  end.

End Documents.

(* ===================================================================== *)
(** * Part II.  Properties                                                *)
(* ===================================================================== *)

(** ** Strings *)

Section StrFacts.

Lemma append_nil_r (s : string) : s ++ "" = s.
Proof. induction s as [|a s IH]; simpl; [reflexivity | now rewrite IH]. Qed.

Lemma append_assoc (a b c : string) : (a ++ b) ++ c = a ++ (b ++ c).
Proof. induction a as [|x a IH]; simpl; [reflexivity | now rewrite IH]. Qed.

Lemma length_append (a b : string) :
  String.length (a ++ b) = (String.length a + String.length b)%nat.
Proof. induction a as [|x a IH]; simpl; [reflexivity | now rewrite IH]. Qed.

Lemma contains_append (c : ascii) (a b : string) :
  Str.contains c (a ++ b) = Str.contains c a || Str.contains c b.
Proof.
  induction a as [|x a IH]; simpl; [reflexivity|].
  rewrite IH. now rewrite orb_assoc.
Qed.

Lemma split_not_nil (c : ascii) (s : string) : Str.split c s <> [].
Proof.
  induction s as [|a s IH]; simpl; [discriminate|].
  destruct (Str.char_eqb a c); [discriminate|].
  destruct (Str.split c s); [contradiction | discriminate].
Qed.

(** A string without the separator is a single part. *)
Lemma split_without (c : ascii) (s : string) :
  Str.contains c s = false -> Str.split c s = [s].
Proof.
  induction s as [|a s IH]; simpl; [reflexivity|].
  intros H. apply orb_false_iff in H as [Ha Hs].
  rewrite Ha, (IH Hs). reflexivity.
Qed.

(** A string with the separator has two parts at least. *)
Lemma split_with (c : ascii) (s : string) :
  Str.contains c s = true -> (2 <= List.length (Str.split c s))%nat.
Proof.
  induction s as [|a s IH]; simpl; [discriminate|].
  destruct (Str.char_eqb a c) eqn:Ha; simpl.
  - intros _. pose proof (split_not_nil c s).
    destruct (Str.split c s); [contradiction | simpl; lia].
  - intros H. specialize (IH H).
    destruct (Str.split c s); simpl in *; lia.
Qed.

(** Splitting at the first separator. *)
Lemma split_append (c : ascii) (a b : string) :
  Str.contains c a = false ->
  Str.split c (a ++ String c b) = a :: Str.split c b.
Proof.
  induction a as [|x a IH]; simpl; intros H.
  - unfold Str.char_eqb. now rewrite Ascii.eqb_refl.
  - apply orb_false_iff in H as [Hx Ha].
    rewrite Hx, (IH Ha). reflexivity.
Qed.

Lemma set_char_length (i : nat) (c : ascii) (s : string) :
  String.length (Str.set_char i c s) = String.length s.
Proof.
  revert i; induction s as [|a s IH]; intros [|i]; simpl; auto.
Qed.

(** Writing another character at a position of the string changes it. *)
Lemma set_char_neq (i : nat) (c : ascii) (s : string) :
  String.get i s <> None -> String.get i s <> Some c -> Str.set_char i c s <> s.
Proof.
  revert i; induction s as [|a s IH]; intros [|i]; simpl; try congruence.
  intros H1 H2 E. injection E as E. now apply (IH i).
Qed.

End StrFacts.

(** ** Hexadecimal digests and base64 texts hold no dot *)

Section Alphabets.

Lemma nth_alphabet (P : ascii -> Prop) (l : list ascii) (d : ascii) (i : nat) :
  Forall P l -> P d -> P (nth i l d).
Proof.
  intros Hl Hd. destruct (nth_in_or_default i l d) as [Hin | ->]; [|exact Hd].
  rewrite Forall_forall in Hl. apply Hl. now apply list_elem_of_In.
Qed.

Lemma hex_digit_not_dot (n : Z) : Str.char_eqb (Hex.digit n) "." = false.
Proof.
  unfold Hex.digit. apply nth_alphabet; [|reflexivity].
  unfold Hex.alphabet; simpl. repeat constructor.
Qed.

Lemma hex_encode_no_dot (bs : list Z) : Str.contains "." (Hex.encode bs) = false.
Proof.
  induction bs as [|b bs IH]; simpl; [reflexivity|].
  now rewrite !hex_digit_not_dot, IH.
Qed.

Lemma sha256_hex_no_dot (s : string) : Str.contains "." (sha256_hex s) = false.
Proof. apply hex_encode_no_dot. Qed.

Lemma base64_char_not_dot (i : N) : Str.char_eqb (Base64.char i) "." = false.
Proof.
  unfold Base64.char. apply nth_alphabet; [|reflexivity].
  unfold Base64.alphabet; simpl. repeat constructor.
Qed.

Lemma base64_encode_no_dot (s : string) :
  Str.contains "." (Base64.encode s) = false.
Proof.
  assert (H : forall n s, (String.length s <= n)%nat ->
                     Str.contains "." (Base64.encode s) = false).
  { clear s. induction n as [|n IH]; intros s Hs.
    - destruct s; [reflexivity | simpl in Hs; lia].
    - destruct s as [|a [|b [|c r]]]; simpl; rewrite ?base64_char_not_dot;
        try reflexivity.
      simpl. apply IH. simpl in Hs. lia. }
  now apply (H (String.length s)).
Qed.

End Alphabets.

(** ** Base64: decoding an encoded text gives the text back *)

Section Base64Facts.

Lemma sextet_values_all (P : N -> bool) :
  forallb P sextet_values = true -> forall i, (i < 64)%N -> P i = true.
Proof.
  intros H i Hi. rewrite forallb_forall in H. apply H.
  unfold sextet_values. apply in_map_iff. exists (N.to_nat i). split.
  - apply N2Nat.id.
  - apply in_seq. lia.
Qed.

Lemma index_char (i : N) : (i < 64)%N -> Base64.index (Base64.char i) = Some i.
Proof.
  intros Hi.
  pose proof (sextet_values_all
    (fun j => match Base64.index (Base64.char j) with
              | Some k => N.eqb k j
              | None => false
              end) eq_refl i Hi) as H.
  simpl in H. destruct (Base64.index (Base64.char i)); [|discriminate].
  apply N.eqb_eq in H. now subst.
Qed.

Lemma char_not_pad (i : N) : Str.char_eqb (Base64.char i) Base64.pad_char = false.
Proof.
  unfold Base64.char. apply nth_alphabet; [|reflexivity].
  unfold Base64.alphabet; simpl. repeat constructor.
Qed.

Lemma sextets_char (i : N) (r : string) :
  (i < 64)%N ->
  Base64.sextets (String (Base64.char i) r) = i :: Base64.sextets r.
Proof.
  intros Hi. simpl. now rewrite char_not_pad, index_char.
Qed.

Lemma byte_of (a : ascii) (n : N) : (n mod 256 = N_of_ascii a)%N -> Base64.byte n = a.
Proof. intros H. unfold Base64.byte. rewrite H. apply ascii_N_embedding. Qed.

Ltac euclid := zify; Z.to_euclidean_division_equations; lia.

Lemma decode_encode_chunks :
  forall n s, (String.length s <= n)%nat -> Base64.decode (Base64.encode s) = s.
Proof.
  unfold Base64.decode.
  induction n as [|n IH]; intros s Hs.
  - destruct s; [reflexivity | simpl in Hs; lia].
  - destruct s as [|a [|b [|c r]]]; [reflexivity| | |].
    + pose proof (N_ascii_bounded a) as Ha.
      cbn [Base64.encode].
      rewrite !sextets_char by euclid.
      cbn [Base64.sextets]. rewrite (eq_refl : Str.char_eqb Base64.pad_char Base64.pad_char = true).
      cbn [Base64.bytes]. f_equal. apply byte_of. euclid.
    + pose proof (N_ascii_bounded a) as Ha. pose proof (N_ascii_bounded b) as Hb.
      cbn [Base64.encode].
      rewrite !sextets_char by euclid.
      cbn [Base64.sextets]. rewrite (eq_refl : Str.char_eqb Base64.pad_char Base64.pad_char = true).
      cbn [Base64.bytes]. f_equal; [|f_equal]; apply byte_of; euclid.
    + pose proof (N_ascii_bounded a) as Ha. pose proof (N_ascii_bounded b) as Hb.
      pose proof (N_ascii_bounded c) as Hc.
      cbn [Base64.encode].
      rewrite !sextets_char by euclid.
      cbn [Base64.bytes]. rewrite IH by (simpl in Hs; lia).
      f_equal; [|f_equal; [|f_equal]]; apply byte_of; euclid.
Qed.

Lemma decode_encode (s : string) : Base64.decode (Base64.encode s) = s.
Proof. now apply (decode_encode_chunks (String.length s)). Qed.

End Base64Facts.

(** ** Numbers: reading back a printed integer *)

Section NumFacts.

Import DecimalFacts.

Lemma lex_uint_printed (u : uint) (rest : string) :
  delimited rest = true ->
  Num.lex_uint (NilEmpty.string_of_uint u ++ rest) = (u, rest).
Proof.
  intros Hr. induction u; simpl; rewrite ?IHu; try reflexivity.
  destruct rest as [|c r]; [discriminate|]. simpl in Hr.
  simpl. destruct (Num.lex_uint r) as [u' r'].
  apply orb_true_iff in Hr as [Hc | Hc];
    apply Ascii.eqb_eq in Hc; subst c; reflexivity.
Qed.

Lemma to_uint_not_nil (n : N) : N.to_uint n <> Nil.
Proof.
  destruct n; simpl; [discriminate | apply DecimalPos.Unsigned.to_uint_nonnil].
Qed.

Lemma to_uint_normal (n : N) : unorm (N.to_uint n) = N.to_uint n.
Proof.
  rewrite <- DecimalN.Unsigned.to_of. now rewrite DecimalN.Unsigned.of_to.
Qed.

(** The digits of a number start with 0 only when the number is 0. *)
Lemma to_uint_no_leading_zero (n : N) :
  match N.to_uint n with D0 Nil => true | D0 _ => false | _ => true end = true.
Proof.
  pose proof (to_uint_normal n) as H.
  destruct (N.to_uint n) as [|u| | | | | | | | |]; try reflexivity.
  destruct u eqn:E; try reflexivity; exfalso; rewrite <- E in *;
    rewrite unorm_D0 in H;
    (assert (Hn : u <> Nil) by (subst u; discriminate));
    pose proof (nb_digits_unorm u Hn) as Hd; rewrite H in Hd; simpl in Hd; lia.
Qed.

Lemma abs_N_signed (z : Z) :
  (if z <? 0 then - Z.of_N (Z.abs_N z) else Z.of_N (Z.abs_N z)) = z.
Proof. destruct (Z.ltb_spec z 0); rewrite N2Z.inj_abs_N; lia. Qed.

Lemma lex_sign_digits (n : N) (rest : string) :
  Num.lex_sign false (Num.digits n ++ rest) = (false, Num.digits n ++ rest).
Proof.
  unfold Num.digits. pose proof (to_uint_not_nil n).
  destruct (N.to_uint n); try reflexivity. contradiction.
Qed.

Lemma lex_literal_printed (z : Z) (rest : string) :
  delimited rest = true ->
  Num.lex_literal false (Num.to_string (Fin z 0) ++ rest)
  = (Num.Literal (z <? 0) (N.to_uint (Z.abs_N z)) None None, rest).
Proof.
  intros Hr. unfold Num.lex_literal, Num.to_string.
  assert (Htail : Num.lex_frac rest = (None, rest) /\ Num.lex_exp rest = (None, rest)).
  { destruct rest as [|c r]; [discriminate|]. simpl in Hr.
    apply orb_true_iff in Hr as [Hc | Hc];
      apply Ascii.eqb_eq in Hc; subst c; split; reflexivity. }
  destruct Htail as [Hf He].
  destruct (z <? 0).
  - change (Num.lex_sign false (("-" ++ Num.digits (Z.abs_N z)) ++ rest))
      with (true, Num.digits (Z.abs_N z) ++ rest).
    unfold Num.digits at 1. rewrite lex_uint_printed by assumption.
    now rewrite Hf, He.
  - change ("" ++ Num.digits (Z.abs_N z)) with (Num.digits (Z.abs_N z)).
    rewrite lex_sign_digits.
    unfold Num.digits at 1. rewrite lex_uint_printed by assumption.
    now rewrite Hf, He.
Qed.

Lemma of_literal_integer (z : Z) :
  Num.of_literal (Num.Literal (z <? 0) (N.to_uint (Z.abs_N z)) None None) = Fin z 0.
Proof.
  unfold Num.of_literal. cbn [Num.l_frac Num.l_int Num.l_neg Num.l_exp].
  rewrite DecimalN.Unsigned.of_to.
  change (Decimal.nb_digits Nil) with O.
  change (N.of_uint Nil) with 0%N.
  change (0 - Z.of_nat 0) with 0. change (0 <=? 0) with true. cbv iota.
  change (10 ^ Z.of_nat 0) with 1. change (10 ^ 0) with 1. change (Z.of_N 0) with 0.
  f_equal. pose proof (abs_N_signed z) as Hz.
  destruct (z <? 0); lia.
Qed.

Lemma parse_number_printed (z : Z) (rest : string) :
  delimited rest = true ->
  Json.parse_number (Num.to_string (Fin z 0) ++ rest) = Some (vint z, rest).
Proof.
  intros Hr. unfold Json.parse_number.
  rewrite lex_literal_printed by assumption.
  unfold Num.json_literal_ok. cbn [Num.l_frac Num.l_int Num.l_neg Num.l_exp].
  rewrite to_uint_no_leading_zero.
  pose proof (to_uint_not_nil (Z.abs_N z)) as Hn.
  destruct (N.to_uint (Z.abs_N z)) eqn:E; try contradiction;
    cbn [Num.is_nil negb andb]; rewrite <- E, of_literal_integer; reflexivity.
Qed.

(** A printed integer is read by [parse_value] as the number it is. *)
Lemma parse_value_printed (f : nat) (z : Z) (rest : string) :
  delimited rest = true ->
  Json.parse_value (S f) (Num.to_string (Fin z 0) ++ rest) = Some (vint z, rest).
Proof.
  intros Hr. rewrite <- parse_number_printed by assumption.
  unfold Num.to_string. destruct (z <? 0).
  - reflexivity.
  - change ("" ++ Num.digits (Z.abs_N z)) with (Num.digits (Z.abs_N z)).
    unfold Num.digits. pose proof (to_uint_not_nil (Z.abs_N z)) as Hn.
    destruct (N.to_uint (Z.abs_N z)); try contradiction; reflexivity.
Qed.

End NumFacts.

(** ** The payload of a token is read back from its text *)

Section PayloadFacts.

Lemma stringify_payload (t z : Z) :
  Json.stringify (token_payload t (vint z))
  = payload_text (Num.to_string (Fin z 0))
                 (Num.to_string (Fin (t + 24 * 60 * 60 * 1000) 0)).
Proof.
  unfold Json.stringify, token_payload, payload_text, vint.
  cbn [Json.text Json.is_undefined Js.join].
  generalize (Num.to_string (Fin z 0)) (Num.to_string (Fin (t + 24 * 60 * 60 * 1000) 0)).
  intros n1 n2. cbn. rewrite !append_assoc. reflexivity.
Qed.

Lemma parse_value_payload (k : nat) (n1 n2 : string) (v1 v2 : value) :
  (forall f rest, delimited rest = true ->
     Json.parse_value (S f) (n1 ++ rest) = Some (v1, rest)) ->
  (forall f rest, delimited rest = true ->
     Json.parse_value (S f) (n2 ++ rest) = Some (v2, rest)) ->
  Json.parse_value (S (S (S (S k)))) (payload_text n1 n2)
  = Some (VObj [("userId", v1); ("exp", v2)], EmptyString).
Proof.
  intros H1 H2. unfold payload_text.
  remember (S k) as c eqn:Ec. remember (S c) as b eqn:Eb.
  simpl. subst b. rewrite H1 by reflexivity.
  simpl. subst c. rewrite H2 by reflexivity.
  reflexivity.
Qed.

Lemma parse_payload (t z : Z) :
  Json.parse (Json.stringify (token_payload t (vint z)))
  = Some (token_payload t (vint z)).
Proof.
  rewrite stringify_payload. unfold Json.parse.
  set (s := payload_text _ _).
  assert (Hlen : exists k, (2 * String.length s + 2 = S (S (S (S k))))%nat).
  { exists (2 * String.length s - 2)%nat.
    assert (1 <= String.length s)%nat by (subst s; unfold payload_text; simpl; lia).
    lia. }
  destruct Hlen as [k ->]. subst s.
  rewrite (parse_value_payload k _ _ (vint z) (vint (t + 24 * 60 * 60 * 1000))).
  - reflexivity.
  - intros; now apply parse_value_printed.
  - intros; now apply parse_value_printed.
Qed.

End PayloadFacts.

(** ** The token codec *)

Section TokenFacts.

Lemma eqb_append_sep (a b : string) (c : ascii) :
  String.eqb (a ++ String c b) "" = false.
Proof. destruct a; reflexivity. Qed.

(** A token of exactly two parts whose signature is the expected one is
    judged on its payload alone. *)
Lemma verifyToken_parts (t : Z) (p sig : string) :
  Str.contains "." p = false ->
  Str.contains "." sig = false ->
  verifyToken t (p ++ "." ++ sig)
  = if String.eqb sig (sha256_hex (p ++ SECRET))
    then check_payload t (Json.parse (Base64.decode p))
    else VNull.
Proof.
  intros Hp Hs. unfold verifyToken.
  change ("." ++ sig) with (String "." sig).
  rewrite eqb_append_sep, split_append, split_without by assumption.
  destruct (String.eqb sig (sha256_hex (p ++ SECRET))); reflexivity.
Qed.

Lemma verifyToken_signed (t : Z) (s : string) :
  verifyToken t (signed s) = check_payload t (Json.parse s).
Proof.
  unfold signed.
  rewrite verifyToken_parts
    by (apply base64_encode_no_dot || apply sha256_hex_no_dot).
  now rewrite String.eqb_refl, decode_encode.
Qed.

Lemma generateToken_signed (t : Z) (userId : value) :
  generateToken t userId = signed (Json.stringify (token_payload t userId)).
Proof. reflexivity. Qed.

Lemma generateToken_segments (t : Z) (userId : value) :
  generateToken t userId = issued_segment t userId ++ "." ++ issued_signature t userId.
Proof. reflexivity. Qed.

(** The token issued at [t0] is accepted at [t] exactly when [t] has not
    passed [t0] + 24 hours. *)
Lemma verifyToken_generateToken (t t0 z : Z) :
  verifyToken t (generateToken t0 (vint z))
  = if t0 + 24 * 60 * 60 * 1000 <? t then VNull else token_payload t0 (vint z).
Proof.
  rewrite generateToken_signed, verifyToken_signed, parse_payload.
  reflexivity.
Qed.

(** Whatever is put for the signature that is not the expected digest is
    rejected. *)
Lemma verifyToken_wrong_signature (t : Z) (p sig : string) :
  Str.contains "." p = false ->
  sig <> sha256_hex (p ++ SECRET) ->
  verifyToken t (p ++ "." ++ sig) = VNull.
Proof.
  intros Hp Hsig.
  destruct (Str.contains "." sig) eqn:Hdot.
  - unfold verifyToken. change ("." ++ sig) with (String "." sig).
    rewrite eqb_append_sep, split_append by assumption.
    pose proof (split_with "." sig Hdot) as Hlen.
    destruct (Str.split "." sig) as [|x [|y l]]; simpl in Hlen; try lia.
    reflexivity.
  - rewrite verifyToken_parts by assumption.
    apply String.eqb_neq in Hsig. now rewrite Hsig.
Qed.

(** A token that does not split into exactly two parts is rejected. *)
Lemma verifyToken_not_two_parts (t : Z) (token : string) :
  List.length (Str.split "." token) <> 2%nat -> verifyToken t token = VNull.
Proof.
  intros H. unfold verifyToken.
  destruct (String.eqb token ""); [reflexivity|].
  destruct (Str.split "." token) as [|x [|y [|w l]]]; try reflexivity.
  now contradiction H.
Qed.

End TokenFacts.

(** C1 (as the code has it).  A token issued at instant [T] is rejected at
    every instant after [T] + 24 hours and accepted, with its payload, at
    every instant before it and at [T] + 24 hours itself: the server rejects
    when the expiry instant is before the current time, so at the expiry
    instant the token is still valid.  In all, the token is accepted exactly
    at the instants [t <= T + 24h]. *)
Theorem token_expiry_boundary (userId T eps : Z) :
  0 < eps ->
  let token := generateToken T (vint userId) in
  let expiry := T + 24 * 60 * 60 * 1000 in
  verifyToken (expiry + eps) token = VNull
  /\ verifyToken (expiry - eps) token = token_payload T (vint userId)
  /\ verifyToken expiry token = token_payload T (vint userId)
  /\ (forall t, verifyToken t token <> VNull <-> t <= expiry).
Proof.
  intros Heps token expiry. subst token expiry.
  split; [|split; [|split]].
  - rewrite verifyToken_generateToken.
    destruct (Z.ltb_spec (T + 24 * 60 * 60 * 1000) (T + 24 * 60 * 60 * 1000 + eps));
      [reflexivity | lia].
  - rewrite verifyToken_generateToken.
    destruct (Z.ltb_spec (T + 24 * 60 * 60 * 1000) (T + 24 * 60 * 60 * 1000 - eps));
      [lia | reflexivity].
  - rewrite verifyToken_generateToken. now rewrite Z.ltb_irrefl.
  - intros t. rewrite verifyToken_generateToken.
    destruct (Z.ltb_spec (T + 24 * 60 * 60 * 1000) t); split;
      intros; try lia; try congruence; discriminate.
Qed.

Lemma token_expiry_boundary_witness :
  0 < 1
  /\ verifyToken (1700000000000 + 24 * 60 * 60 * 1000 + 1)
       (generateToken 1700000000000 (vint 1)) = VNull
  /\ verifyToken (1700000000000 + 24 * 60 * 60 * 1000 - 1)
       (generateToken 1700000000000 (vint 1)) = token_payload 1700000000000 (vint 1).
Proof.
  split; [lia|].
  pose proof (token_expiry_boundary 1 1700000000000 1 ltac:(lia)) as H.
  cbv zeta in H. destruct H as (H1 & H2 & _). split; assumption.
Defined.

(** C1 as stated fails: verified at exactly [T] + 24 hours, the token
    issued at [T] = 1700000000000 for user 1 is not rejected. *)
Lemma token_accepted_at_expiry_instant :
  verifyToken (1700000000000 + 24 * 60 * 60 * 1000)
    (generateToken 1700000000000 (vint 1))
  = VObj [("userId", vint 1); ("exp", vint 1700086400000)]
  /\ verifyToken (1700000000000 + 24 * 60 * 60 * 1000)
       (generateToken 1700000000000 (vint 1)) <> VNull.
Proof. split; [vm_compute; reflexivity | vm_compute; discriminate]. Qed.

(** C6.  Round trip: the token issued for a user identifier at [T], verified
    before its expiry, gives back the payload with that identifier.  Tamper
    detection: the issued token is its payload segment, a dot and its
    signature segment, and with any one character of the signature segment
    replaced by another character it is rejected, whenever it is verified. *)
Theorem token_round_trip_and_tamper (userId T t : Z) :
  t < T + 24 * 60 * 60 * 1000 ->
  let token := generateToken T (vint userId) in
  let segment := issued_segment T (vint userId) in
  let signature := issued_signature T (vint userId) in
  (verifyToken t token = token_payload T (vint userId)
   /\ Js.get (verifyToken t token) "userId" = Ok (vint userId))
  /\ token = segment ++ "." ++ signature
  /\ (forall (t' : Z) (i : nat) (c : ascii),
        String.get i signature <> None ->
        String.get i signature <> Some c ->
        verifyToken t' (segment ++ "." ++ Str.set_char i c signature) = VNull).
Proof.
  intros Ht token segment signature. subst token segment signature.
  assert (Hv : verifyToken t (generateToken T (vint userId))
               = token_payload T (vint userId)).
  { rewrite verifyToken_generateToken.
    destruct (Z.ltb_spec (T + 24 * 60 * 60 * 1000) t); [lia | reflexivity]. }
  split; [|split].
  - split; [exact Hv | rewrite Hv; reflexivity].
  - reflexivity.
  - intros t' i c Hi Hc. apply verifyToken_wrong_signature.
    + apply base64_encode_no_dot.
    + now apply set_char_neq.
Qed.

Lemma token_round_trip_and_tamper_witness :
  1700000000000 < 1700000000000 + 24 * 60 * 60 * 1000
  /\ Js.get (verifyToken 1700000000000 (generateToken 1700000000000 (vint 7)))
       "userId" = Ok (vint 7)
  /\ verifyToken 1700000000000
       (issued_segment 1700000000000 (vint 7) ++ "." ++
        Str.set_char 0 "z" (issued_signature 1700000000000 (vint 7))) = VNull.
Proof.
  split; [lia|].
  pose proof (token_round_trip_and_tamper 7 1700000000000 1700000000000
                ltac:(lia)) as H.
  cbv zeta in H. destruct H as ((_ & H1) & _ & H2). split; [exact H1|].
  apply H2; vm_compute; discriminate.
Defined.

(** C5 (as the code has it).  [verifyToken] rejects every token that does
    not split into exactly two parts.  For a token of two parts whose
    signature matches, it rejects the token when the decoded payload is not
    JSON or is [null], and otherwise judges it on its [exp] alone: whatever
    else the payload is (an object with no user identifier, with no expiry,
    a number, a string), the token is rejected only if the comparison of
    [exp] with the current time throws (which the [catch] turns into a
    rejection) or finds [exp] smaller, and otherwise the payload is
    returned as it is. *)
Theorem verifyToken_structure (t : Z) :
  (forall token, List.length (Str.split "." token) <> 2%nat ->
     verifyToken t token = VNull)
  /\ (forall p, Str.contains "." p = false ->
        let token := p ++ "." ++ sha256_hex (p ++ SECRET) in
        match Json.parse (Base64.decode p) with
        | None => verifyToken t token = VNull
        | Some VNull | Some VUndefined => verifyToken t token = VNull
        | Some payload =>
            exists exp, Js.get payload "exp" = Ok exp
              /\ verifyToken t token
                 = match Js.lt exp (vint t) with
                   | Ok false => payload
                   | _ => VNull
                   end
        end).
Proof.
  split.
  - intros token. apply verifyToken_not_two_parts.
  - intros p Hp token. subst token.
    rewrite verifyToken_parts
      by (assumption || apply sha256_hex_no_dot).
    rewrite String.eqb_refl.
    destruct (Json.parse (Base64.decode p)) as [payload|]; [|reflexivity].
    destruct payload; try reflexivity;
      unfold check_payload; simpl; eexists; split; reflexivity.
Qed.

Lemma verifyToken_structure_witness :
  verifyToken 1700000000000 "not-a-token" = VNull
  /\ verifyToken 1700000000000 ("e30x" ++ "." ++ sha256_hex ("e30x" ++ SECRET)) = VNull.
Proof.
  pose proof (verifyToken_structure 1700000000000) as [H1 H2]. split.
  - apply H1. vm_compute. discriminate.
  - specialize (H2 "e30x" eq_refl). exact H2.
Defined.

(** C5 as stated fails: the payload [{}], an object with neither a user
    identifier nor an expiry instant, under a matching signature, is not
    rejected: [verifyToken] returns it, and the session gate lets the
    request through. *)
Lemma malformed_payload_accepted :
  verifyToken 1700000000000 (signed "{}") = VObj []
  /\ session_gate (Env 1700000000000 "" "")
       (Request "GET" "/api/expenses" (Some ("Bearer " ++ signed "{}")) "")
     = inr (VObj []).
Proof. split; vm_compute; reflexivity. Qed.

(** ** Objects, documents and the array methods *)

Section ValueFacts.

Lemma to_json_obj (props : list (string * value)) :
  Json.to_json (VObj props) = VObj (json_props props).
Proof.
  reflexivity.
Qed.

Lemma to_json_defined (x : value) :
  Json.is_undefined x = false -> Json.is_undefined (Json.to_json x) = false.
Proof. destruct x as [| | | [| |] | | |]; simpl; congruence. Qed.

(** A property that is defined is kept by the document, as a document. *)
Lemma lookup_json_props (k : string) (props : list (string * value)) :
  Json.is_undefined (Js.lookup k props) = false ->
  Js.lookup k (json_props props) = Json.to_json (Js.lookup k props).
Proof.
  induction props as [|[k' x] r IH]; simpl; [discriminate|].
  destruct (String.eqb k' k) eqn:Hk.
  - intros Hx. rewrite Hx. simpl. now rewrite Hk.
  - intros Hx. destruct (Json.is_undefined x); [now apply IH|].
    simpl. rewrite Hk. now apply IH.
Qed.

Lemma prop_of_to_json (k : string) (r : value) :
  Json.is_undefined (prop_of k r) = false ->
  prop_of k (Json.to_json r) = Json.to_json (prop_of k r).
Proof.
  destruct r as [| | | [| |] | | |]; try discriminate.
  intros H. rewrite to_json_obj. now apply lookup_json_props.
Qed.

Lemma get_prop_of (r : value) (k : string) :
  readable r = true -> Js.get r k = Ok (prop_of k r).
Proof. destruct r; try discriminate; reflexivity. Qed.

Lemma get_unreadable (r : value) (k : string) :
  readable r = false -> Js.get r k = Throw TypeError.
Proof. destruct r; try discriminate; reflexivity. Qed.


Lemma lookup_set (k k' : string) (v : value) (props : list (string * value)) :
  Js.lookup k (Js.set k' v props)
  = if String.eqb k' k then v else Js.lookup k props.
Proof.
  induction props as [|[k0 x] r IH]; simpl.
  - destruct (String.eqb k' k); reflexivity.
  - destruct (String.eqb k0 k') eqn:E0; simpl.
    + apply String.eqb_eq in E0. subst k0.
      destruct (String.eqb k' k); reflexivity.
    + destruct (String.eqb k0 k) eqn:E1; [|exact IH].
      apply String.eqb_eq in E1. subst k0.
      now rewrite String.eqb_sym, E0.
Qed.

(** A property the second operand does not have is the first operand's. *)
Lemma lookup_spread (k : string) (a b : value) :
  Js.has_key k (Js.own_props b) = false ->
  prop_of k (Js.spread a b) = Js.lookup k (Js.own_props a).
Proof.
  unfold Js.spread, prop_of.
  generalize (Js.own_props a) as acc. generalize (Js.own_props b) as l.
  induction l as [|[k' x] l IH]; simpl; intros acc H; [reflexivity|].
  apply orb_false_iff in H as [Hk Hl].
  rewrite IH by assumption. rewrite lookup_set. now rewrite Hk.
Qed.

(** *** Strict equality *)

Lemma num_eqb_eq (x y : number) : Num.eqb x y = true -> x = y.
Proof.
  destruct x, y; simpl; try discriminate.
  - intros H. apply Bool.eqb_prop in H. now subst.
  - intros H. apply andb_true_iff in H as [H1 H2].
    apply Z.eqb_eq in H1. apply Nat.eqb_eq in H2. now subst.
Qed.

Lemma strict_eq_eq (a b : value) : Js.strict_eq a b = true -> a = b.
Proof.
  destruct a, b; simpl; try discriminate; intros H; try reflexivity.
  - apply Bool.eqb_prop in H. now subst.
  - apply num_eqb_eq in H. now subst.
  - apply String.eqb_eq in H. now subst.
Qed.

Lemma strict_eq_vint (a b : Z) : Js.strict_eq (vint a) (vint b) = (a =? b).
Proof. simpl. now rewrite andb_true_r. Qed.

(** *** The array methods on arrays of readable values *)

Lemma filter_readable (p : value -> result bool) (q : value -> bool)
  (l : list value) :
  (forall x, readable x = true -> p x = Ok (q x)) ->
  forallb readable l = true ->
  filter p l = Ok (List.filter q l).
Proof.
  intros Hp. induction l as [|x l IH]; simpl; [reflexivity|].
  intros H. apply andb_true_iff in H as [Hx Hl].
  rewrite (Hp x Hx), (IH Hl). simpl. destruct (q x); reflexivity.
Qed.

Lemma findIndex_none (p : value -> result bool) (q : value -> bool)
  (l : list value) :
  (forall x, readable x = true -> p x = Ok (q x)) ->
  forallb readable l = true ->
  forallb (fun x => negb (q x)) l = true ->
  findIndex p l = Ok None.
Proof.
  intros Hp. induction l as [|x l IH]; simpl; [reflexivity|].
  intros H Hq. apply andb_true_iff in H as [Hx Hl].
  apply andb_true_iff in Hq as [Hqx Hql].
  rewrite (Hp x Hx). apply negb_true_iff in Hqx. rewrite Hqx. simpl.
  now rewrite (IH Hl Hql).
Qed.

(** What [findIndex] finds satisfies the callback. *)
Lemma findIndex_some (p : value -> result bool) (l : list value) (i : nat) :
  findIndex p l = Ok (Some i) ->
  exists x, l !! i = Some x /\ p x = Ok true.
Proof.
  revert i. induction l as [|x l IH]; simpl; intros i; [discriminate|].
  destruct (p x) as [[|]|] eqn:Hx; simpl; try discriminate.
  - intros [= <-]. exists x. split; [reflexivity | assumption].
  - destruct (findIndex p l) as [[j|]|]; simpl; try discriminate.
    intros [= <-]. destruct (IH j eq_refl) as (y & Hy & Hp).
    exists y. split; assumption.
Qed.

Lemma find_none (p : value -> result bool) (q : value -> bool)
  (l : list value) :
  (forall x, readable x = true -> p x = Ok (q x)) ->
  forallb readable l = true ->
  forallb (fun x => negb (q x)) l = true ->
  find p l = Ok VUndefined.
Proof.
  intros Hp. induction l as [|x l IH]; simpl; [reflexivity|].
  intros H Hq. apply andb_true_iff in H as [Hx Hl].
  apply andb_true_iff in Hq as [Hqx Hql].
  rewrite (Hp x Hx). apply negb_true_iff in Hqx. rewrite Hqx. simpl.
  now apply IH.
Qed.

Lemma is_record_readable (id userId x : value) :
  readable x = true ->
  is_record id userId x
  = Ok (Js.strict_eq (id_of x) id && Js.strict_eq (owner_of x) userId).
Proof.
  intros Hx. unfold is_record, id_of, owner_of.
  rewrite !get_prop_of by assumption. simpl.
  destruct (Js.strict_eq (prop_of "id" x) id); reflexivity.
Qed.

Lemma owned_by_readable (userId x : value) :
  readable x = true ->
  owned_by userId x = Ok (Js.strict_eq (owner_of x) userId).
Proof.
  intros Hx. unfold owned_by, owner_of. now rewrite get_prop_of by assumption.
Qed.

Lemma is_record_true (id userId x : value) :
  is_record id userId x = Ok true ->
  readable x = true /\ id_of x = id /\ owner_of x = userId.
Proof.
  intros H. destruct (readable x) eqn:Hx.
  - rewrite is_record_readable in H by assumption. injection H as H.
    apply andb_true_iff in H as [H1 H2].
    apply strict_eq_eq in H1, H2. auto.
  - unfold is_record in H. rewrite get_unreadable in H by assumption.
    discriminate.
Qed.

End ValueFacts.

(** ** The session gate *)

Section GateFacts.

Lemma handleApi_gated (e : env) (st : store) (req : request) :
  gated req = true ->
  handleApi e st req
  = (let! (r, st') :=
       match session_gate e req with
       | inl r => Ok (r, st)
       | inr payload =>
           let! userId := Js.get payload "userId" in
           authenticated e userId st req
       end in
     Ok (Some r, st')).
Proof.
  unfold gated, handleApi. intros H.
  apply andb_true_iff in H as [H H4]. apply andb_true_iff in H as [H H3].
  apply andb_true_iff in H as [H1 H2].
  apply negb_true_iff in H2, H3, H4.
  now rewrite H1, H2, H3, H4.
Qed.

Lemma handleApi_rejected (e : env) (st : store) (req : request) :
  gated req = true ->
  Js.truthy (verifyToken (now e) (bearer_token req)) = false ->
  handleApi e st req = Ok (Some unauthorized, st).
Proof.
  intros Hg Hp. rewrite handleApi_gated by assumption.
  unfold session_gate. now rewrite Hp.
Qed.

Lemma handleApi_passed (e : env) (st : store) (req : request) :
  gated req = true ->
  Js.truthy (verifyToken (now e) (bearer_token req)) = true ->
  handleApi e st req
  = (let! (r, st') :=
       (let! userId := Js.get (verifyToken (now e) (bearer_token req)) "userId" in
        authenticated e userId st req) in
     Ok (Some r, st')).
Proof.
  intros Hg Hp. rewrite handleApi_gated by assumption.
  unfold session_gate. now rewrite Hp.
Qed.

End GateFacts.

(** C9.  A request for a route behind the gate either carries a token that
    [verifyToken] accepts, and the route runs with the payload's user
    identifier (the one the token was issued for), or is answered by the one
    reply [401 {error: 'Unauthorized'}], the files untouched: a missing
    token, a token that is not two parts, a signature that does not match and
    an expired token all get this same reply. *)
Theorem unauthorized_is_uniform (e : env) (st : store) (req : request) :
  gated req = true ->
  let payload := verifyToken (now e) (bearer_token req) in
  (if Js.truthy payload
   then handleApi e st req
        = (let! (r, st') :=
             (let! userId := Js.get payload "userId" in
              authenticated e userId st req) in
           Ok (Some r, st'))
   else handleApi e st req = Ok (Some unauthorized, st))
  /\ (authorization req = None ->
      handleApi e st req = Ok (Some unauthorized, st))
  /\ (List.length (Str.split "." (bearer_token req)) <> 2%nat ->
      handleApi e st req = Ok (Some unauthorized, st))
  /\ (forall p sig,
        bearer_token req = p ++ "." ++ sig ->
        Str.contains "." p = false ->
        sig <> sha256_hex (p ++ SECRET) ->
        handleApi e st req = Ok (Some unauthorized, st))
  /\ (forall T userId,
        bearer_token req = generateToken T (vint userId) ->
        T + 24 * 60 * 60 * 1000 < now e ->
        handleApi e st req = Ok (Some unauthorized, st))
  /\ (forall T userId,
        bearer_token req = generateToken T (vint userId) ->
        now e <= T + 24 * 60 * 60 * 1000 ->
        handleApi e st req
        = (let! (r, st') := authenticated e (vint userId) st req in
           Ok (Some r, st'))).
Proof.
  intros Hg payload. subst payload.
  split; [|split; [|split; [|split; [|split]]]].
  - destruct (Js.truthy _) eqn:Hp.
    + now apply handleApi_passed.
    + now apply handleApi_rejected.
  - intros Hnone. apply handleApi_rejected; [assumption|].
    unfold bearer_token. now rewrite Hnone.
  - intros Hparts. apply handleApi_rejected; [assumption|].
    now rewrite verifyToken_not_two_parts.
  - intros p sig Htok Hp Hsig. apply handleApi_rejected; [assumption|].
    rewrite Htok. now rewrite verifyToken_wrong_signature.
  - intros T userId Htok Hexp. apply handleApi_rejected; [assumption|].
    rewrite Htok, verifyToken_generateToken.
    destruct (Z.ltb_spec (T + 24 * 60 * 60 * 1000) (now e)); [reflexivity | lia].
  - intros T userId Htok Hexp.
    assert (Hv : verifyToken (now e) (bearer_token req)
                 = token_payload T (vint userId)).
    { rewrite Htok, verifyToken_generateToken.
      destruct (Z.ltb_spec (T + 24 * 60 * 60 * 1000) (now e)); [lia | reflexivity]. }
    rewrite handleApi_passed by (assumption || now rewrite Hv).
    rewrite Hv. reflexivity.
Qed.

Lemma unauthorized_is_uniform_witness :
  gated (Request "DELETE" "/api/expenses/1" None "") = true
  /\ handleApi (Env 1700000000000 "" "") (Store None None None)
       (Request "DELETE" "/api/expenses/1" None "")
     = Ok (Some unauthorized, Store None None None).
Proof.
  split; [reflexivity|].
  pose proof (unauthorized_is_uniform (Env 1700000000000 "" "")
                (Store None None None)
                (Request "DELETE" "/api/expenses/1" None "") eq_refl) as H.
  cbv zeta in H. destruct H as (_ & H & _). apply H. reflexivity.
Defined.

(** ** Request bodies *)

Section BodyFacts.

Lemma parseBody_empty_object (b : string) :
  b = "" \/ Json.parse b = None -> parseBody b = VObj [].
Proof.
  unfold parseBody. intros [-> | H]; [reflexivity|].
  destruct (String.eqb b ""); [reflexivity | now rewrite H].
Qed.

Lemma has_username_readable (username u : value) :
  readable u = true ->
  has_username username u = Ok (Js.strict_eq (prop_of "username" u) username).
Proof.
  intros Hu. unfold has_username. now rewrite get_prop_of by assumption.
Qed.

Lemma named_users_readable (users : list value) :
  forallb named_user users = true -> forallb readable users = true.
Proof.
  induction users as [|u l IH]; simpl; [reflexivity|].
  intros H. apply andb_true_iff in H as [Hu Hl].
  rewrite (IH Hl). destruct u; try discriminate; reflexivity.
Qed.

Lemma named_users_not_undefined (users : list value) :
  forallb named_user users = true ->
  forallb (fun u => negb (Js.strict_eq (prop_of "username" u) VUndefined)) users
  = true.
Proof.
  induction users as [|u l IH]; simpl; [reflexivity|].
  intros H. apply andb_true_iff in H as [Hu Hl].
  rewrite (IH Hl), andb_true_r.
  destruct u; try discriminate. simpl in *.
  destruct (Js.lookup "username" props); try discriminate; reflexivity.
Qed.

End BodyFacts.

(** C10.  A body that is empty or is not JSON is parsed as the empty object.
    [parseBody] has no other outcome than a value, so with such a body
    registration answers its 400 for the missing fields, the creation of an
    expense or a goal answers its 400 too, and login, over users that carry
    a username, answers its 401 for invalid credentials; the files are left
    as they were. *)
Theorem parseBody_total (b : string) :
  b = "" \/ Json.parse b = None ->
  parseBody b = VObj []
  /\ (forall e st auth,
        handleApi e st (Request "POST" "/api/register" auth b)
        = Ok (Some (Json 400 (error "Username and password are required")), st))
  /\ (forall e st auth,
        forallb named_user (readJson (usersFile st)) = true ->
        handleApi e st (Request "POST" "/api/login" auth b)
        = Ok (Some (Json 401 (error "Invalid username or password")), st))
  /\ (forall e userId st req,
        body req = b ->
        create_expense e userId st req
        = Ok (Json 400 (error "Category and amount are required"), st))
  /\ (forall userId st req,
        body req = b ->
        create_goal userId st req
        = Ok (Json 400 (error "Title and target are required"), st)).
Proof.
  intros Hb. pose proof (parseBody_empty_object b Hb) as Hp.
  split; [exact Hp|]. split; [|split; [|split]].
  - intros e st auth. unfold handleApi, register. simpl. now rewrite Hp.
  - intros e st auth Hu. unfold handleApi, login. simpl. rewrite Hp. simpl.
    rewrite (find_none _ (fun u => Js.strict_eq (prop_of "username" u) VUndefined)).
    + reflexivity.
    + intros x Hx. now apply has_username_readable.
    + now apply named_users_readable.
    + now apply named_users_not_undefined.
  - intros e userId st req Hreq. unfold create_expense. now rewrite Hreq, Hp.
  - intros userId st req Hreq. unfold create_goal. now rewrite Hreq, Hp.
Qed.

Lemma parseBody_total_witness :
  Json.parse "{oops" = None
  /\ parseBody "{oops" = VObj []
  /\ handleApi (Env 1700000000000 "" "") (Store None None None)
       (Request "POST" "/api/register" None "{oops")
     = Ok (Some (Json 400 (error "Username and password are required")),
           Store None None None).
Proof.
  assert (H0 : Json.parse "{oops" = None) by (vm_compute; reflexivity).
  split; [exact H0|].
  pose proof (parseBody_total "{oops" (or_intror H0)) as (H1 & H2 & _).
  split; [exact H1 | apply H2].
Defined.

(** ** Creating an expense *)

Section CreateFacts.

Lemma readJson_writeJson (data : list value) :
  readJson (writeJson data) = List.map Json.to_json data.
Proof. reflexivity. Qed.

Lemma file_of_with_file (c : collection) (f : file) (st : store) :
  file_of c (with_file c f st) = f.
Proof. destruct c; reflexivity. Qed.

End CreateFacts.

(** C7 (as the code has it).  For a body that is not [null], the creation
    of an expense answers the validation error, and stores nothing, exactly
    when the category or the amount is falsy (missing, [null], [false], 0,
    the empty string).  Otherwise it throws, and stores nothing, when the
    last stored record gives no identifier to add 1 to, or when
    [Number(amount)] throws (an amount that is an object with a [toString]
    property of its own); and otherwise it appends one record whose
    category is the one given and whose amount is [Number(amount)], written
    to the file as JSON writes it ([null] when it is not finite).  Nothing
    makes that number positive. *)
Theorem create_expense_validation
  (e : env) (userId : value) (st : store) (req : request) :
  readable (parseBody (body req)) = true ->
  let b := parseBody (body req) in
  let category := prop_of "category" b in
  let amount := prop_of "amount" b in
  let expenses := readJson (expensesFile st) in
  if Js.truthy category && Js.truthy amount then
    match next_id expenses, Js.ToNumber amount with
    | Ok id, Ok number =>
        let expense :=
          VObj [("id", id); ("userId", userId); ("category", category);
                ("amount", VNum number);
                ("date", Js.or (prop_of "date" b) (VStr (iso_now e)))] in
        let st' := with_file Expenses (writeJson (expenses ++ [expense])) st in
        create_expense e userId st req = Ok (Json 201 expense, st')
        /\ readJson (expensesFile st')
           = (List.map Json.to_json expenses ++ [Json.to_json expense])%list
        /\ prop_of "category" (Json.to_json expense) = Json.to_json category
        /\ prop_of "amount" (Json.to_json expense) = Json.to_json (VNum number)
    | Throw x, _ | Ok _, Throw x => create_expense e userId st req = Throw x
    end
  else
    create_expense e userId st req
    = Ok (Json 400 (error "Category and amount are required"), st).
Proof.
  intros Hb b category amount expenses. subst b category amount expenses.
  unfold create_expense. rewrite !get_prop_of by assumption. cbn [bind].
  destruct (Js.truthy (prop_of "category" _)) eqn:Hc; cbn [negb orb andb];
    [|reflexivity].
  destruct (Js.truthy (prop_of "amount" _)) eqn:Ha; cbn [negb orb andb];
    [|reflexivity].
  destruct (next_id _) as [id|x]; cbn [bind]; [|reflexivity].
  destruct (Js.ToNumber _) as [number|x]; cbn [bind]; [|reflexivity].
  split; [reflexivity|]. split; [|split].
  - cbn [with_file expensesFile]. rewrite readJson_writeJson.
    now rewrite List.map_app.
  - rewrite prop_of_to_json; [reflexivity|].
    change (prop_of "category" (VObj _)) with (prop_of "category" (parseBody (body req))).
    destruct (prop_of "category" _); try discriminate; reflexivity.
  - rewrite prop_of_to_json; reflexivity.
Qed.

Lemma create_expense_validation_witness :
  readable (parseBody (body_of [("category", VStr "food")])) = true
  /\ create_expense (Env 1700000000000 "" "") (vint 1) (Store None None None)
       (Request "POST" "/api/expenses" None (body_of [("category", VStr "food")]))
     = Ok (Json 400 (error "Category and amount are required"),
           Store None None None).
Proof.
  split; [vm_compute; reflexivity|].
  pose proof (create_expense_validation (Env 1700000000000 "" "") (vint 1)
                (Store None None None)
                (Request "POST" "/api/expenses" None
                   (body_of [("category", VStr "food")]))) as H.
  cbv zeta in H. specialize (H ltac:(vm_compute; reflexivity)).
  vm_compute in H. vm_compute. exact H.
Defined.

(** C7 as stated fails: the creation request of user 1 with the amount -5
    is answered 201 and the expense is stored with the amount -5; with the
    amount ["abc"] it is answered 201 too, and the expense is stored with
    the amount [null]. *)
Lemma negative_amount_is_stored :
  handleApi (Env 1700000000000 "2023-11-14T22:13:20.000Z" "") (Store None None None)
    (Request "POST" "/api/expenses" (bearer 1700000000000 1)
       (body_of [("category", VStr "food"); ("amount", vint (-5))]))
  = Ok (Some (Json 201
                (VObj [("id", vint 1); ("userId", vint 1);
                       ("category", VStr "food"); ("amount", vint (-5));
                       ("date", VStr "2023-11-14T22:13:20.000Z")])),
        Store None
          (Some (VArr [VObj [("id", vint 1); ("userId", vint 1);
                             ("category", VStr "food"); ("amount", vint (-5));
                             ("date", VStr "2023-11-14T22:13:20.000Z")]]))
          None)
  /\ handleApi (Env 1700000000000 "2023-11-14T22:13:20.000Z" "") (Store None None None)
       (Request "POST" "/api/expenses" (bearer 1700000000000 1)
          (body_of [("category", VStr "food"); ("amount", VStr "abc")]))
     = Ok (Some (Json 201
                   (VObj [("id", vint 1); ("userId", vint 1);
                          ("category", VStr "food"); ("amount", VNum NaN);
                          ("date", VStr "2023-11-14T22:13:20.000Z")])),
           Store None
             (Some (VArr [VObj [("id", vint 1); ("userId", vint 1);
                                ("category", VStr "food"); ("amount", VNull);
                                ("date", VStr "2023-11-14T22:13:20.000Z")]]))
             None).
Proof. split; vm_compute; reflexivity. Qed.

(** ** Identifiers *)

(** One step through a route: the next [let!] or test of [H]. *)
Ltac route_step H :=
  match type of H with
  | bind ?x _ = _ =>
      let E := fresh "E" in
      destruct x eqn:E; cbn [bind] in H; [|discriminate H]
  | (if ?c then _ else _) = _ =>
      let E := fresh "E" in
      destruct c eqn:E; [try discriminate H | try discriminate H]
  end.

Section IdFacts.





Lemma id_of_to_json (r : value) (z : Z) :
  id_of r = vint z -> id_of (Json.to_json r) = vint z.
Proof.
  unfold id_of. intros H. rewrite prop_of_to_json by now rewrite H.
  now rewrite H.
Qed.












End IdFacts.




(** ** Updating and deleting *)

Section UpdateFacts.

Lemma map_insert {A B : Type} (f : A -> B) (l : list A) (i : nat) (x : A) :
  List.map f (<[ i := x ]> l) = <[ i := f x ]> (List.map f l).
Proof.
  revert i. induction l as [|y l IH]; intros [|i]; simpl; try reflexivity.
  now rewrite IH.
Qed.

Lemma map_delete {A B : Type} (f : A -> B) (l : list A) (i : nat) :
  List.map f (delete i l) = delete i (List.map f l).
Proof.
  revert i. induction l as [|y l IH]; intros [|i]; simpl; try reflexivity.
  now rewrite IH.
Qed.

Lemma map_lookup {A B : Type} (f : A -> B) (l : list A) (i : nat) (x : A) :
  l !! i = Some x -> List.map f l !! i = Some (f x).
Proof.
  revert i. induction l as [|y l IH]; intros [|i]; simpl; try discriminate.
  - now intros [= ->].
  - apply IH.
Qed.

Lemma prop_of_own_props (k : string) (r : value) :
  Json.is_undefined (prop_of k r) = false ->
  Js.lookup k (Js.own_props r) = prop_of k r.
Proof. destruct r; try discriminate; reflexivity. Qed.

Lemma path_id_defined (p : string) : Json.is_undefined (path_id p) = false.
Proof. reflexivity. Qed.

(** What [findIndex] finds is a record with the identifier of the path,
    owned by the caller. *)
Lemma findIndex_is_record (id userId : value) (l : list value) (i : nat) :
  findIndex (is_record id userId) l = Ok (Some i) ->
  exists old, l !! i = Some old /\ id_of old = id /\ owner_of old = userId.
Proof.
  intros H. destruct (findIndex_some _ _ _ H) as (old & Hold & Hp).
  apply is_record_true in Hp as (_ & Hid & Hown). now exists old.
Qed.

Lemma ascending_delete (zs : list Z) (i : nat) :
  ascending zs -> ascending (delete i zs).
Proof.
  unfold ascending. intros H. rewrite delete_take_drop.
  rewrite <- (take_drop i zs) in H.
  apply StronglySorted_app in H as (H1 & H2 & H3).
  apply StronglySorted_app. split; [|split; [assumption|]].
  - intros x y Hx Hy. apply H1; [assumption|].
    apply (subseteq_drop 1 (drop i zs)). now rewrite drop_drop, Nat.add_1_r.
  - replace (S i) with (i + 1)%nat by lia. rewrite <- drop_drop.
    destruct (drop i zs) as [|z l]; [constructor|].
    simpl. rewrite drop_0. now apply StronglySorted_inv in H3 as [? _].
Qed.

Lemma ascending_NoDup (zs : list Z) : ascending zs -> NoDup zs.
Proof.
  induction 1 as [|z zs _ IH Hz]; constructor; [|assumption].
  intros Hin. rewrite Forall_forall in Hz. specialize (Hz z Hin). lia.
Qed.

Lemma vint_inj (a b : Z) : vint a = vint b -> a = b.
Proof. now intros [= ->]. Qed.

End UpdateFacts.

Section RecordFacts.

Lemma update_record_found (c : collection) (userId : value) (st : store)
  (req : request) (i : nat) (old : value) :
  findIndex (is_record (path_id (pathname req)) userId) (readJson (file_of c st))
  = Ok (Some i) ->
  readJson (file_of c st) !! i = Some old ->
  update_record c userId st req
  = Ok (Json 200 (Js.spread old (parseBody (body req))),
        with_file c
          (writeJson (<[ i := Js.spread old (parseBody (body req)) ]>
                        (readJson (file_of c st)))) st).
Proof.
  intros Hi Hold. unfold update_record. rewrite Hi. cbn [bind].
  now rewrite Hold.
Qed.

Lemma delete_record_found (c : collection) (userId : value) (st : store)
  (req : request) (removed : value) (st' : store) :
  delete_record c userId st req = Ok (Json 200 removed, st') ->
  exists i,
    findIndex (is_record (path_id (pathname req)) userId) (readJson (file_of c st))
    = Ok (Some i)
    /\ readJson (file_of c st) !! i = Some removed
    /\ st' = with_file c (writeJson (delete i (readJson (file_of c st)))) st.
Proof.
  unfold delete_record. intros H.
  destruct (findIndex _ _) as [[i|]|] eqn:Hi; cbn [bind] in H;
    [| destruct c; discriminate H | discriminate H].
  destruct (readJson (file_of c st) !! i) as [x|] eqn:Hx;
    [| destruct c; discriminate H].
  injection H as <- <-. now exists i.
Qed.

Lemma delete_record_missing (c : collection) (userId : value) (st : store)
  (req : request) :
  forallb readable (readJson (file_of c st)) = true ->
  forallb (fun r => negb (targets (path_id (pathname req)) userId r))
          (readJson (file_of c st)) = true ->
  delete_record c userId st req = Ok (not_found c, st).
Proof.
  intros Hr Hn. unfold delete_record.
  rewrite (findIndex_none _ (targets (path_id (pathname req)) userId));
    [reflexivity | | assumption | assumption].
  intros x Hx. now apply is_record_readable.
Qed.

Lemma object_of_id (r : value) (x : number) :
  id_of r = VNum x -> exists props, r = VObj props.
Proof. destruct r; try discriminate. intros _. now eexists. Qed.

(** Two records of a collection with distinct identifiers that carry the
    same identifier are the same record. *)
Lemma same_id_same_record (l : list value) (r r' : value) :
  NoDup (ids l) -> In r l -> In r' l -> id_of r = id_of r' -> r = r'.
Proof.
  unfold ids. induction l as [|x l IH]; simpl; [contradiction|].
  intros Hnd Hr Hr' E. apply NoDup_cons in Hnd as [Hx Hnd].
  destruct Hr as [-> | Hr], Hr' as [-> | Hr'].
  - reflexivity.
  - exfalso. apply Hx. rewrite E. apply list_elem_of_In.
    now apply List.in_map.
  - exfalso. apply Hx. rewrite <- E. apply list_elem_of_In.
    now apply List.in_map.
  - now apply IH.
Qed.

Lemma NoDup_vints (zs : list Z) : NoDup zs -> NoDup (List.map vint zs).
Proof.
  induction 1 as [|z zs Hz _ IH]; simpl; constructor; [|assumption].
  intros Hin. apply Hz. apply list_elem_of_In in Hin.
  apply List.in_map_iff in Hin as (y & Hy & Hin).
  apply vint_inj in Hy. subst y. now apply list_elem_of_In.
Qed.

End RecordFacts.

(** C3.  The claim holds of the creating routes and of the profile update,
    which take named fields off the body, and the updating route misses it:
    it merges the whole body over the record, [id] and [userId] included.
    User 1 and user 2 have one expense each, with the identifiers 1 and 2;
    the PUT of user 1 on its own expense with the body [{"id":2,"userId":2}]
    is answered 200, and the file then holds two records with the
    identifier 2, both owned by user 2. *)
Lemma update_overrides_id_and_owner :
  last_reply_ids_owners
    (serve (Store None None None)
       (List.map
          (fun req => (Env 1700000000000 "2023-11-14T22:13:20.000Z" "", req))
          [ Request "POST" "/api/expenses" (bearer 1700000000000 1)
              (body_of [("category", VStr "food"); ("amount", vint 10)]);
            Request "POST" "/api/expenses" (bearer 1700000000000 2)
              (body_of [("category", VStr "rent"); ("amount", vint 20)]);
            Request "PUT" "/api/expenses/1" (bearer 1700000000000 1)
              (body_of [("id", vint 2); ("userId", vint 2)]) ]))
  = Some (Some (Json 200 (VObj [("id", vint 2); ("userId", vint 2);
                                ("category", VStr "food"); ("amount", vint 10);
                                ("date", VStr "2023-11-14T22:13:20.000Z")])),
          [vint 2; vint 2], [vint 2; vint 2]).
Proof. vm_compute; reflexivity. Qed.

(** C4 (as the code has it).  Over a collection of records (no [null]
    among them): the listing of user A is the records whose owner is
    strictly equal to A, so it holds no record owned by a distinct user B,
    and it leaves the files as they are.  A deletion by A answers not-found,
    and leaves the files as they are, when no record carries the identifier
    of the path together with the owner A; this is so, in particular, when
    the identifiers are pairwise distinct and the identifier is that of a
    record of B.  A deletion that succeeds removes a record of A with that
    identifier and writes the other records back. *)
Theorem per_user_isolation (c : collection) (A : value) (st : store) :
  forallb readable (readJson (file_of c st)) = true ->
  let records := readJson (file_of c st) in
  list_records c A st = Ok (Json 200 (VArr (records_of A records)), st)
  /\ (forall B r,
        Js.strict_eq B A = false -> owner_of r = B ->
        ~ In r (records_of A records))
  /\ (forall req,
        forallb (fun r => negb (targets (path_id (pathname req)) A r)) records
        = true ->
        delete_record c A st req = Ok (not_found c, st))
  /\ (forall req B r zs,
        ids records = List.map vint zs -> NoDup zs ->
        In r records -> id_of r = path_id (pathname req) ->
        owner_of r = B -> Js.strict_eq B A = false ->
        delete_record c A st req = Ok (not_found c, st))
  /\ (forall req removed st',
        delete_record c A st req = Ok (Json 200 removed, st') ->
        owner_of removed = A
        /\ id_of removed = path_id (pathname req)
        /\ exists i,
             records !! i = Some removed
             /\ st' = with_file c (writeJson (delete i records)) st
             /\ readJson (file_of c st')
                = List.map Json.to_json (delete i records)).
Proof.
  intros Hr records. subst records.
  split; [|split; [|split; [|split]]].
  - unfold list_records, records_of.
    rewrite (filter_readable _ (fun r => Js.strict_eq (owner_of r) A));
      [reflexivity | | assumption].
    intros x Hx. now apply owned_by_readable.
  - intros B r HBA Hown Hin. unfold records_of in Hin.
    apply List.filter_In in Hin as [_ Hin]. rewrite Hown in Hin. congruence.
  - intros req Hn. now apply delete_record_missing.
  - intros req B r zs Hids Hnd Hin Hid Hown HBA.
    apply delete_record_missing; [assumption|].
    apply List.forallb_forall. intros r' Hin'. unfold targets.
    destruct (Js.strict_eq (id_of r') (path_id (pathname req))) eqn:E;
      [|reflexivity].
    apply strict_eq_eq in E.
    assert (r' = r) as ->.
    { apply (same_id_same_record (readJson (file_of c st))); try assumption.
      - rewrite Hids. now apply NoDup_vints.
      - now rewrite E, Hid. }
    rewrite Hown, HBA. reflexivity.
  - intros req removed st' Hd.
    destruct (delete_record_found _ _ _ _ _ _ Hd) as (i & Hi & Hrem & ->).
    destruct (findIndex_is_record _ _ _ _ Hi) as (old & Hold & Hid & Hown).
    rewrite Hrem in Hold. injection Hold as <-.
    split; [exact Hown|]. split; [exact Hid|]. exists i.
    split; [exact Hrem|]. split; [reflexivity|].
    now rewrite file_of_with_file, readJson_writeJson.
Qed.

(** User 1 asks for the deletion of the expense 2, which is user 2's: the
    answer is not-found and the files are as before. *)
Lemma per_user_isolation_witness :
  forallb readable
    [VObj [("id", vint 1); ("userId", vint 1)];
     VObj [("id", vint 2); ("userId", vint 2)]] = true
  /\ delete_record Expenses (vint 1)
       (Store None
          (Some (VArr [VObj [("id", vint 1); ("userId", vint 1)];
                       VObj [("id", vint 2); ("userId", vint 2)]])) None)
       (Request "DELETE" "/api/expenses/2" None "")
     = Ok (not_found Expenses,
           Store None
             (Some (VArr [VObj [("id", vint 1); ("userId", vint 1)];
                          VObj [("id", vint 2); ("userId", vint 2)]])) None).
Proof.
  split; [reflexivity|].
  pose proof (per_user_isolation Expenses (vint 1)
    (Store None
       (Some (VArr [VObj [("id", vint 1); ("userId", vint 1)];
                    VObj [("id", vint 2); ("userId", vint 2)]])) None)
    eq_refl) as H.
  cbv zeta in H. destruct H as (_ & _ & _ & H & _).
  apply (H (Request "DELETE" "/api/expenses/2" None "") (vint 2)
           (VObj [("id", vint 2); ("userId", vint 2)]) [1; 2]).
  - reflexivity.
  - apply ascending_NoDup. repeat constructor.
  - right. left. reflexivity.
  - reflexivity.
  - reflexivity.
  - reflexivity.
Defined.

(** C4 as stated fails on a state the API reaches: user 1 and user 2 have
    one expense each, with the identifiers 1 and 2, and user 1 renumbers its
    expense 2 through a PUT.  The deletion by user 1 of the identifier 2,
    which is that of user 2's record, is then not answered not-found: it is
    answered 200 and the file changes (user 1's record is removed; user 2's
    stays). *)
Lemma delete_of_shared_id_succeeds :
  last_reply_ids_owners
    (serve (Store None None None)
       (List.map
          (fun req => (Env 1700000000000 "2023-11-14T22:13:20.000Z" "", req))
          [ Request "POST" "/api/expenses" (bearer 1700000000000 1)
              (body_of [("category", VStr "food"); ("amount", vint 10)]);
            Request "POST" "/api/expenses" (bearer 1700000000000 2)
              (body_of [("category", VStr "rent"); ("amount", vint 20)]);
            Request "PUT" "/api/expenses/1" (bearer 1700000000000 1)
              (body_of [("id", vint 2)]) ]))
  = Some (Some (Json 200 (VObj [("id", vint 2); ("userId", vint 1);
                                ("category", VStr "food"); ("amount", vint 10);
                                ("date", VStr "2023-11-14T22:13:20.000Z")])),
          [vint 2; vint 2], [vint 1; vint 2])
  /\ last_reply_ids_owners
       (serve (Store None None None)
          (List.map
             (fun req => (Env 1700000000000 "2023-11-14T22:13:20.000Z" "", req))
             [ Request "POST" "/api/expenses" (bearer 1700000000000 1)
                 (body_of [("category", VStr "food"); ("amount", vint 10)]);
               Request "POST" "/api/expenses" (bearer 1700000000000 2)
                 (body_of [("category", VStr "rent"); ("amount", vint 20)]);
               Request "PUT" "/api/expenses/1" (bearer 1700000000000 1)
                 (body_of [("id", vint 2)]);
               Request "DELETE" "/api/expenses/2" (bearer 1700000000000 1) "" ]))
     = Some (Some (Json 200 (VObj [("id", vint 2); ("userId", vint 1);
                                   ("category", VStr "food"); ("amount", vint 10);
                                   ("date", VStr "2023-11-14T22:13:20.000Z")])),
             [vint 2], [vint 2]).
Proof. split; vm_compute; reflexivity. Qed.

(** ** Passwords *)

Section PasswordFacts.

(** With a string for the salt, the digest is that of the password's string
    followed by the salt; what the coercion of the password throws is
    thrown. *)
Lemma hashPassword_string_salt (password : value) (salt : string) :
  hashPassword password (VStr salt)
  = (let! s := Js.ToString password in Ok (sha256_hex (s ++ salt))).
Proof.
  unfold hashPassword, Js.add, Js.ToPrimitive.
  destruct password as [| | [|] | n | s | items | props]; try reflexivity.
  - destruct (Js.ToString (VArr items)); reflexivity.
  - destruct (Js.ToString (VObj props)); reflexivity.
Qed.

Lemma hashPassword_strings (password salt : string) :
  hashPassword (VStr password) (VStr salt) = Ok (sha256_hex (password ++ salt)).
Proof. reflexivity. Qed.

Lemma add_defined (a b v : value) :
  Js.add a b = Ok v -> Json.is_undefined v = false.
Proof.
  unfold Js.add. intros H.
  destruct (Js.ToPrimitive a) as [pa|]; cbn [bind] in H; [|discriminate H].
  destruct (Js.ToPrimitive b) as [pb|]; cbn [bind] in H; [|discriminate H].
  destruct pa, pb;
    repeat match type of H with
           | bind ?x _ = _ => destruct x; cbn [bind] in H; [|discriminate H]
           end;
    injection H as <-; reflexivity.
Qed.

Lemma next_id_defined (l : list value) (id : value) :
  next_id l = Ok id -> Json.is_undefined id = false.
Proof.
  unfold next_id. destruct (last l) as [r|]; [|now intros [= <-]].
  destruct (Js.get r "id"); cbn [bind]; [|discriminate].
  apply add_defined.
Qed.

Lemma get_ok (r : value) (k : string) (v : value) :
  Js.get r k = Ok v -> v = prop_of k r /\ readable r = true.
Proof. destruct r; simpl; try discriminate; intros [= <-]; auto. Qed.


End PasswordFacts.

Section LoginFacts.

(** The user that registration appends, as the file holds it. *)
Lemma stored_user (id username : value) (salt hashed : string) (u : string) :
  Json.is_undefined id = false ->
  username = VStr u ->
  Json.to_json (VObj [("id", id); ("username", username);
                      ("salt", VStr salt); ("hashed", VStr hashed)])
  = VObj [("id", Json.to_json id); ("username", VStr u);
          ("salt", VStr salt); ("hashed", VStr hashed)].
Proof. intros Hid ->. rewrite to_json_obj. simpl. now rewrite Hid. Qed.

(** The verdict of login on the user it finds. *)
Lemma login_found (e : env) (st : store) (req : request)
  (user salt stored id : value) (h : string) :
  readable (parseBody (body req)) = true ->
  find (has_username (prop_of "username" (parseBody (body req))))
       (readJson (usersFile st)) = Ok user ->
  Js.truthy user = true ->
  Js.get user "salt" = Ok salt ->
  hashPassword (prop_of "password" (parseBody (body req))) salt = Ok h ->
  Js.get user "hashed" = Ok stored ->
  Js.get user "id" = Ok id ->
  login e st req
  = if Js.strict_eq (VStr h) stored
    then Ok (Json 200 (VObj [("token", VStr (generateToken (now e) id))]), st)
    else Ok (Json 401 (error "Invalid username or password"), st).
Proof.
  intros Hb Hfind Htruthy Hsalt Hhash Hstored Hid. unfold login.
  rewrite !get_prop_of by assumption. cbn [bind].
  rewrite Hfind. cbn [bind]. rewrite Htruthy. cbn [negb].
  rewrite Hsalt. cbn [bind]. rewrite Hhash. cbn [bind].
  rewrite Hstored. cbn [bind].
  destruct (Js.strict_eq (VStr h) stored); cbn [negb]; [|reflexivity].
  rewrite Hid. reflexivity.
Qed.



End LoginFacts.




(* ===================================================================== *)
(** * Part III.  Further properties of the routes                        *)
(* ===================================================================== *)

(** One step through a route, as [route_step], and through the [match] on
    what [findIndex] and the indexing found. *)
Ltac route_case H :=
  first
    [ route_step H
    | match type of H with
      | match ?x with _ => _ end = _ =>
          let E := fresh "E" in destruct x eqn:E; try discriminate H
      end ].

Section Effects.

Lemma not_found_status (c : collection) :
  exists v, not_found c = Json 404 v.
Proof. destruct c; eexists; reflexivity. Qed.

(** What a route behind the gate does to the files, by its outcome. *)
Lemma authenticated_error (e : env) (userId : value) (st st' : store)
  (req : request) (status : Z) (v : value) :
  authenticated e userId st req = Ok (Json status v, st') ->
  400 <= status -> st' = st.
Proof.
  unfold authenticated, list_records, create_expense, create_goal,
    update_record, delete_record, get_profile, put_profile, not_found.
  intros H Hs. repeat route_case H;
    try (injection H as; subst; try reflexivity; try lia);
    try (destruct c; injection H as; subst; reflexivity).
Qed.

Lemma public_error (e : env) (st st' : store) (req : request)
  (status : Z) (v : value) :
  register e st req = Ok (Json status v, st')
  \/ login e st req = Ok (Json status v, st') ->
  400 <= status -> st' = st.
Proof.
  unfold register, login.
  intros [H | H] Hs; repeat route_case H;
    injection H as; subst; try reflexivity; lia.
Qed.

End Effects.

(** X1.  A request that is answered with an error status (400, 401, 404,
    409) has changed none of the three files. *)
Theorem error_replies_change_nothing
  (e : env) (st st' : store) (req : request) (status : Z) (v : value) :
  handleApi e st req = Ok (Some (Json status v), st') ->
  400 <= status ->
  st' = st.
Proof.
  unfold handleApi. intros H Hs.
  destruct (negb (Str.startsWith "/api" (pathname req))); [discriminate H|].
  destruct (String.eqb (method req) "OPTIONS"); [discriminate H|].
  match type of H with
  | bind ?x _ = _ => destruct x as [[r st1]|] eqn:E; cbn [bind] in H;
                     [|discriminate H]
  end.
  injection H as -> ->.
  destruct (_ && _) in E.
  { eapply public_error; [left; exact E | exact Hs]. }
  destruct (_ && _) in E.
  { eapply public_error; [right; exact E | exact Hs]. }
  unfold session_gate in E. destruct (negb _) in E.
  - now injection E as _ <-.
  - destruct (Js.get _ "userId") as [userId|] in E; cbn [bind] in E;
      [|discriminate E].
    eapply authenticated_error; [exact E | exact Hs].
Qed.

Lemma error_replies_change_nothing_witness :
  exists st',
    handleApi (Env 1700000000000 "" "")
      (Store None (Some (VArr [VObj [("id", vint 1); ("userId", vint 2)]])) None)
      (Request "DELETE" "/api/expenses/1" (bearer 1700000000000 1) "")
    = Ok (Some (Json 404 (error "Expense not found")), st')
    /\ 400 <= 404
    /\ st' = Store None
               (Some (VArr [VObj [("id", vint 1); ("userId", vint 2)]])) None.
Proof.
  eexists. split; [vm_compute; reflexivity|]. split; [lia|].
  apply (error_replies_change_nothing (Env 1700000000000 "" "") _ _
           (Request "DELETE" "/api/expenses/1" (bearer 1700000000000 1) "")
           404 (error "Expense not found"));
    [vm_compute; reflexivity | lia].
Defined.

Section Frames.

(** The path facts that the tests of the dispatch leave in the context
    contradict [Hf], which says the path is not one of a file's routes. *)
Ltac off_route Hf :=
  unfold users_route, collection_route in Hf;
  match goal with
  | E : (_ && ?t)%bool = true |- _ =>
      apply andb_true_iff in E as [_ E]; rewrite E in Hf;
      rewrite ?orb_true_r in Hf; discriminate Hf
  end.

Lemma authenticated_frame (e : env) (userId : value) (st st' : store)
  (req : request) (r : reply) :
  authenticated e userId st req = Ok (r, st') ->
  (users_route (pathname req) = false -> usersFile st' = usersFile st)
  /\ (collection_route Expenses (pathname req) = false ->
      expensesFile st' = expensesFile st)
  /\ (collection_route Goals (pathname req) = false ->
      goalsFile st' = goalsFile st).
Proof.
  unfold authenticated, list_records, create_expense, create_goal,
    update_record, delete_record, get_profile, put_profile, not_found.
  intros H. repeat route_case H;
    injection H as; subst; cbn [with_file usersFile expensesFile goalsFile];
    (split; [|split]); intros Hf; try reflexivity; off_route Hf.
Qed.

Lemma authenticated_get (e : env) (userId : value) (st st' : store)
  (req : request) (r : reply) :
  method req = "GET" ->
  authenticated e userId st req = Ok (r, st') -> st' = st.
Proof.
  unfold authenticated, list_records, get_profile. intros Hm H.
  rewrite Hm in H. cbn [String.eqb Ascii.eqb Bool.eqb andb] in H.
  repeat route_case H; injection H as; subst; reflexivity.
Qed.

End Frames.

(** X2.  A GET request writes no file: whatever it is answered, the three
    files are as they were. *)
Theorem get_requests_change_nothing
  (e : env) (st st' : store) (req : request) (r : option reply) :
  method req = "GET" ->
  handleApi e st req = Ok (r, st') ->
  st' = st.
Proof.
  unfold handleApi. intros Hm H. rewrite Hm in H.
  cbn [String.eqb Ascii.eqb Bool.eqb andb] in H.
  destruct (negb (Str.startsWith "/api" (pathname req)));
    [now injection H as _ <-|].
  match type of H with
  | bind ?x _ = _ => destruct x as [[r1 st1]|] eqn:E; cbn [bind] in H;
                     [|discriminate H]
  end.
  injection H as _ <-.
  unfold session_gate in E. destruct (negb _) in E.
  - now injection E as _ <-.
  - destruct (Js.get _ "userId") as [userId|] in E; cbn [bind] in E;
      [|discriminate E].
    now apply (authenticated_get e userId st st1 req r1).
Qed.

Lemma get_requests_change_nothing_witness :
  exists r st',
    method (Request "GET" "/api/expenses" (bearer 1700000000000 1) "") = "GET"
    /\ handleApi (Env 1700000000000 "" "")
         (Store None (Some (VArr [VObj [("id", vint 1); ("userId", vint 1)]])) None)
         (Request "GET" "/api/expenses" (bearer 1700000000000 1) "")
       = Ok (r, st')
    /\ st' = Store None
               (Some (VArr [VObj [("id", vint 1); ("userId", vint 1)]])) None.
Proof.
  do 2 eexists. split; [reflexivity|]. split; [vm_compute; reflexivity|].
  apply (get_requests_change_nothing (Env 1700000000000 "" "") _ _
           (Request "GET" "/api/expenses" (bearer 1700000000000 1) "")
           (Some (Json 200 (VArr [VObj [("id", vint 1); ("userId", vint 1)]]))));
    [reflexivity | vm_compute; reflexivity].
Defined.

(** X3.  A request writes at most the file of its route: the users file
    is written only under [/api/register] and [/api/profile], the expenses
    file only under [/api/expenses], the goals file only under
    [/api/goals]. *)
Theorem routes_write_their_own_file
  (e : env) (st st' : store) (req : request) (r : option reply) :
  handleApi e st req = Ok (r, st') ->
  (users_route (pathname req) = false -> usersFile st' = usersFile st)
  /\ (collection_route Expenses (pathname req) = false ->
      expensesFile st' = expensesFile st)
  /\ (collection_route Goals (pathname req) = false ->
      goalsFile st' = goalsFile st).
Proof.
  unfold handleApi. intros H.
  destruct (negb (Str.startsWith "/api" (pathname req)));
    [injection H as _ <-; auto|].
  destruct (String.eqb (method req) "OPTIONS");
    [injection H as _ <-; auto|].
  match type of H with
  | bind ?x _ = _ => destruct x as [[r1 st1]|] eqn:E; cbn [bind] in H;
                     [|discriminate H]
  end.
  injection H as _ <-.
  destruct (_ && String.eqb (pathname req) "/api/register") eqn:Er in E.
  { apply andb_true_iff in Er as [_ Er]. apply String.eqb_eq in Er.
    unfold register in E. repeat route_case E; injection E as; subst;
      cbn [usersFile expensesFile goalsFile]; (split; [|split]);
      intros Hf; try reflexivity.
    unfold users_route in Hf. rewrite Er in Hf. discriminate Hf. }
  destruct (_ && String.eqb (pathname req) "/api/login") in E.
  { unfold login in E. repeat route_case E; injection E as; subst; auto. }
  unfold session_gate in E. destruct (negb _) in E.
  - injection E as _ <-. auto.
  - destruct (Js.get _ "userId") as [userId|] in E; cbn [bind] in E;
      [|discriminate E].
    now apply (authenticated_frame e userId st st1 req r1).
Qed.

Lemma routes_write_their_own_file_witness :
  exists r st',
    handleApi (Env 1700000000000 "now" "")
      (Store (Some (VArr [VStr "u"])) None (Some (VArr [VStr "g"])))
      (Request "POST" "/api/expenses" (bearer 1700000000000 1)
         (body_of [("category", VStr "food"); ("amount", vint 3)]))
    = Ok (r, st')
    /\ usersFile st' = Some (VArr [VStr "u"])
    /\ goalsFile st' = Some (VArr [VStr "g"]).
Proof.
  do 2 eexists. split; [vm_compute; reflexivity|].
  pose proof (routes_write_their_own_file (Env 1700000000000 "now" "")
    (Store (Some (VArr [VStr "u"])) None (Some (VArr [VStr "g"]))) _
    (Request "POST" "/api/expenses" (bearer 1700000000000 1)
       (body_of [("category", VStr "food"); ("amount", vint 3)])) _
    ltac:(vm_compute; reflexivity)) as (Hu & _ & Hg).
  split; [apply Hu | apply Hg]; reflexivity.
Defined.

(** ** Registration and login *)

Section Accounts.

Lemma some_readable (p : value -> result bool) (q : value -> bool)
  (l : list value) :
  (forall x, readable x = true -> p x = Ok (q x)) ->
  forallb readable l = true ->
  some p l = Ok (existsb q l).
Proof.
  intros Hp. induction l as [|x l IH]; simpl; [reflexivity|].
  intros H. apply andb_true_iff in H as [Hx Hl].
  rewrite (Hp x Hx). cbn [bind]. destruct (q x); [reflexivity|].
  now apply IH.
Qed.

Lemma some_after (p : value -> result bool) (l l' : list value) :
  some p l = Ok false -> some p (l ++ l') = some p l'.
Proof.
  induction l as [|x l IH]; simpl; [reflexivity|].
  destruct (p x) as [[|]|]; cbn [bind]; try discriminate. exact IH.
Qed.

Lemma has_username_named (n x : value) :
  readable x = true -> has_username n x = Ok (named n x).
Proof. apply has_username_readable. Qed.

End Accounts.

(** X4.  The outcomes of registration, for a body that is not [null],
    over stored users that are not [null], the next identifier being
    computed: 400 and no change when the username or the password is falsy;
    409 and no change when a stored user carries the username; a TypeError
    and no change when the password has no string (an object with a
    [toString] property of its own); otherwise 201, and the users file gets
    one more record that carries the identifier, the username, the fresh
    salt and the SHA-256 digest of the password's string followed by that
    salt: the password itself is not stored. *)
Theorem register_outcomes (e : env) (st : store) (req : request) (id : value) :
  readable (parseBody (body req)) = true ->
  forallb readable (readJson (usersFile st)) = true ->
  next_id (readJson (usersFile st)) = Ok id ->
  let username := prop_of "username" (parseBody (body req)) in
  let password := prop_of "password" (parseBody (body req)) in
  let users := readJson (usersFile st) in
  register e st req
  = if negb (Js.truthy username) || negb (Js.truthy password)
    then Ok (Json 400 (error "Username and password are required"), st)
    else if existsb (named username) users
    then Ok (Json 409 (error "Username already exists"), st)
    else
      match Js.ToString password with
      | Throw x => Throw x
      | Ok s =>
          Ok (Json 201 (message "User registered successfully"),
              Store
                (writeJson
                   (users ++
                    [VObj [("id", id); ("username", username);
                           ("salt", VStr (random_salt e));
                           ("hashed", VStr (sha256_hex (s ++ random_salt e)))]]))
                (expensesFile st) (goalsFile st))
      end.
Proof.
  intros Hb Hu Hid username password users. subst username password users.
  unfold register. rewrite !get_prop_of by assumption. cbn [bind].
  destruct (negb _ || negb _); [reflexivity|].
  rewrite (some_readable _ (named (prop_of "username" (parseBody (body req)))))
    by (assumption || apply has_username_named).
  cbn [bind]. destruct (existsb _ _); [reflexivity|].
  rewrite hashPassword_string_salt.
  destruct (Js.ToString _); cbn [bind]; [|reflexivity].
  rewrite Hid. reflexivity.
Qed.

Lemma register_outcomes_witness :
  register (Env 1700000000000 "" "5a17")
    (Store (Some (VArr [VObj [("id", vint 4); ("username", VStr "bob")]])) None None)
    (Request "POST" "/api/register" None
       (body_of [("username", VStr "bob"); ("password", VStr "pw")]))
  = Ok (Json 409 (error "Username already exists"),
        Store (Some (VArr [VObj [("id", vint 4); ("username", VStr "bob")]]))
          None None).
Proof.
  rewrite (register_outcomes _ _ _ (vint 5));
    [vm_compute; reflexivity | vm_compute; reflexivity | reflexivity
    | reflexivity].
Defined.

(** X5.  Once a registration has succeeded for a username (a string, over
    a users file that is a JSON document), every later registration with
    that username, whatever its password, is answered 409 and changes
    nothing. *)
Theorem registered_username_is_taken
  (e e' : env) (st st' : store) (req req' : request) (m : value) (u : string) :
  List.map Json.to_json (readJson (usersFile st)) = readJson (usersFile st) ->
  prop_of "username" (parseBody (body req)) = VStr u ->
  register e st req = Ok (Json 201 m, st') ->
  readable (parseBody (body req')) = true ->
  prop_of "username" (parseBody (body req')) = VStr u ->
  Js.truthy (prop_of "password" (parseBody (body req'))) = true ->
  register e' st' req' = Ok (Json 409 (error "Username already exists"), st').
Proof.
  intros Hclean Hu H Hb' Hu' Hp'. unfold register in H. repeat route_step H.
  injection H as _ <-.
  repeat match goal with
         | G : Js.get _ _ = Ok _ |- _ => apply get_ok in G as [-> ?]
         end.
  rewrite Hu in *.
  match goal with
  | Hs : some _ _ = Ok false |- _ => rename Hs into Hsome
  end.
  match goal with
  | Hn : next_id _ = Ok ?id |- _ =>
      pose proof (next_id_defined _ _ Hn) as Hdef; rename id into a3
  end.
  match goal with
  | Hh : hashPassword _ _ = Ok ?h |- _ => rename h into a2
  end.
  assert (Hne : negb (Js.truthy (VStr u)) = false).
  { match goal with
    | G : (negb (Js.truthy (VStr u)) || _)%bool = false |- _ =>
        now apply orb_false_iff in G as [G _]
    end. }
  unfold register. rewrite !get_prop_of by assumption. cbn [bind].
  rewrite Hu', Hp', Hne. cbn [negb orb].
  cbn [usersFile]. rewrite readJson_writeJson, List.map_app, Hclean.
  rewrite (some_after _ _ _ Hsome). cbn [List.map].
  rewrite (stored_user _ _ _ _ u Hdef eq_refl).
  unfold some, has_username.
  rewrite (get_prop_of (VObj _)) by reflexivity. cbn [bind].
  change (prop_of "username" (VObj _)) with (VStr u).
  cbn [Js.strict_eq]. now rewrite String.eqb_refl.
Qed.

Lemma registered_username_is_taken_witness :
  last_reply
    (serve (Store None None None)
       [(Env 1700000000000 "" "5a17",
         Request "POST" "/api/register" None
           (body_of [("username", VStr "alice"); ("password", VStr "secret123")]));
        (Env 1700000000001 "" "0b0e",
         Request "POST" "/api/register" None
           (body_of [("username", VStr "alice"); ("password", VStr "other")]))])
  = Some (Json 409 (error "Username already exists"))
  /\ exists st',
       register (Env 1700000000000 "" "5a17") (Store None None None)
         (Request "POST" "/api/register" None
            (body_of [("username", VStr "alice"); ("password", VStr "secret123")]))
       = Ok (Json 201 (message "User registered successfully"), st')
       /\ register (Env 1700000000001 "" "0b0e") st'
            (Request "POST" "/api/register" None
               (body_of [("username", VStr "alice"); ("password", VStr "other")]))
          = Ok (Json 409 (error "Username already exists"), st').
Proof.
  split; [vm_compute; reflexivity|].
  eexists. split; [vm_compute; reflexivity|].
  apply (registered_username_is_taken (Env 1700000000000 "" "5a17") _
           (Store None None None) _
           (Request "POST" "/api/register" None
              (body_of [("username", VStr "alice"); ("password", VStr "secret123")]))
           _ (message "User registered successfully") "alice");
    vm_compute; reflexivity.
Defined.



(** ** The profile *)

Section Profile.

Lemma has_id_readable (userId u : value) :
  readable u = true -> has_id userId u = Ok (Js.strict_eq (id_of u) userId).
Proof.
  intros Hu. unfold has_id, id_of. now rewrite get_prop_of by assumption.
Qed.

Lemma prop_of_assign (k k' : string) (v u : value) :
  prop_of k (assign u k' v)
  = match u with
    | VObj _ => if String.eqb k' k then v else prop_of k u
    | _ => prop_of k u
    end.
Proof. destruct u; try reflexivity. apply lookup_set. Qed.

Lemma assign_object (u : value) (k : string) (v : value) :
  (exists props, u = VObj props) -> exists props, assign u k v = VObj props.
Proof. intros [props ->]. eexists. reflexivity. Qed.

Lemma updated_profile_other (salt : string) (b u : value) (k : string) :
  profile_key k = false ->
  prop_of k (updated_profile salt b u) = prop_of k u.
Proof.
  unfold profile_key, updated_profile. intros H.
  apply orb_false_iff in H as [H Hh]. apply orb_false_iff in H as [H Hs].
  apply orb_false_iff in H as [Hf He].
  assert (A : forall x k' v, String.eqb k k' = false ->
                prop_of k (assign x k' v) = prop_of k x).
  { intros x k' v E. rewrite prop_of_assign. destruct x; try reflexivity.
    now rewrite String.eqb_sym, E. }
  destruct (prop_of "password" b); try destruct (negb _);
    destruct (Js.is_string (prop_of "fullName" b));
    destruct (Js.is_string (prop_of "email" b));
    rewrite ?A by assumption; reflexivity.
Qed.

Lemma put_profile_found (e : env) (userId : value) (st : store) (req : request)
  (i : nat) (u : value) :
  readable (parseBody (body req)) = true ->
  findIndex (has_id userId) (readJson (usersFile st)) = Ok (Some i) ->
  readJson (usersFile st) !! i = Some u ->
  put_profile e userId st req
  = Ok (Json 200 (message "Profile updated"),
        Store (writeJson (<[ i := updated_profile (random_salt e)
                                     (parseBody (body req)) u ]>
                            (readJson (usersFile st))))
              (expensesFile st) (goalsFile st)).
Proof.
  intros Hb Hi Hu. unfold put_profile, updated_profile.
  rewrite !get_prop_of by assumption. cbn [bind].
  rewrite Hi. cbn [bind]. rewrite Hu.
  destruct (prop_of "password" (parseBody (body req))); try reflexivity.
  destruct (negb _); [|reflexivity].
  rewrite hashPassword_string_salt. reflexivity.
Qed.

End Profile.

(** X7.  The profile view answers with three properties only, the
    username, the full name and the email (the last two the empty string
    when the user has none): the salt and the digest of the user are never
    part of the reply.  It changes no file. *)
Theorem profile_view_has_three_fields
  (userId : value) (st st' : store) (v : value) :
  get_profile userId st = Ok (Json 200 v, st') ->
  st' = st
  /\ exists user,
       find (has_id userId) (readJson (usersFile st)) = Ok user
       /\ v = VObj [("username", prop_of "username" user);
                    ("fullName", default (prop_of "fullName" user) (VStr ""));
                    ("email", default (prop_of "email" user) (VStr ""))]
       /\ Json.is_undefined (prop_of "salt" v) = true
       /\ Json.is_undefined (prop_of "hashed" v) = true.
Proof.
  unfold get_profile. intros H. repeat route_step H.
  injection H as <- <-.
  repeat match goal with
         | G : Js.get _ _ = Ok _ |- _ => apply get_ok in G as [-> ?]
         end.
  split; [reflexivity|]. eexists. split; [reflexivity|].
  split; [reflexivity|]. split; reflexivity.
Qed.

Lemma profile_view_has_three_fields_witness :
  get_profile (vint 1)
    (Store (Some (VArr [VObj [("id", vint 1); ("username", VStr "alice");
                              ("salt", VStr "5a17"); ("hashed", VStr "d1ge57")]]))
       None None)
  = Ok (Json 200 (VObj [("username", VStr "alice"); ("fullName", VStr "");
                        ("email", VStr "")]),
        Store (Some (VArr [VObj [("id", vint 1); ("username", VStr "alice");
                                 ("salt", VStr "5a17"); ("hashed", VStr "d1ge57")]]))
          None None)
  /\ Store (Some (VArr [VObj [("id", vint 1); ("username", VStr "alice");
                              ("salt", VStr "5a17"); ("hashed", VStr "d1ge57")]]))
       None None
     = Store (Some (VArr [VObj [("id", vint 1); ("username", VStr "alice");
                                ("salt", VStr "5a17"); ("hashed", VStr "d1ge57")]]))
         None None.
Proof.
  split; [reflexivity|].
  apply (profile_view_has_three_fields (vint 1) _ _
           (VObj [("username", VStr "alice"); ("fullName", VStr "");
                  ("email", VStr "")])).
  reflexivity.
Defined.

(** X8.  A profile update rewrites the first stored user whose identifier
    is the caller's, and only that one.  In that record it writes [fullName]
    and [email] when the body gives strings for them, and, when the body
    gives a password that is not blank, a fresh salt and the digest of the
    trimmed password with it; every other property of the record, its
    identifier and its username among them, is as before. *)
Theorem profile_update_writes_four_fields
  (e : env) (userId : value) (st : store) (req : request) (i : nat) (u : value) :
  readable (parseBody (body req)) = true ->
  findIndex (has_id userId) (readJson (usersFile st)) = Ok (Some i) ->
  readJson (usersFile st) !! i = Some u ->
  let b := parseBody (body req) in
  let u' := updated_profile (random_salt e) b u in
  put_profile e userId st req
  = Ok (Json 200 (message "Profile updated"),
        Store (writeJson (<[ i := u' ]> (readJson (usersFile st))))
              (expensesFile st) (goalsFile st))
  /\ (forall k, profile_key k = false -> prop_of k u' = prop_of k u)
  /\ (forall j x, j <> i -> readJson (usersFile st) !! j = Some x ->
        <[ i := u' ]> (readJson (usersFile st)) !! j = Some x)
  /\ (Js.is_string (prop_of "fullName" b) = false ->
      Js.is_string (prop_of "email" b) = false ->
      Js.is_string (prop_of "password" b) = false ->
      u' = u)
  /\ (forall p props,
        prop_of "password" b = VStr p -> Str.trim p <> "" -> u = VObj props ->
        prop_of "salt" u' = VStr (random_salt e)
        /\ prop_of "hashed" u'
           = VStr (sha256_hex (Str.trim p ++ random_salt e))).
Proof.
  intros Hb Hi Hu b u'. subst b u'.
  split; [now apply put_profile_found|].
  split; [intros k Hk; now apply updated_profile_other|].
  split; [intros j x Hj Hx; rewrite list_lookup_insert_ne by auto; exact Hx|].
  split.
  - intros Hf He Hp. unfold updated_profile. rewrite Hf, He.
    destruct (prop_of "password" (parseBody (body req))); try reflexivity.
    discriminate Hp.
  - intros p props Hp Hne ->. unfold updated_profile. rewrite Hp.
    apply String.eqb_neq in Hne. rewrite Hne. cbn [negb].
    rewrite !prop_of_assign.
    destruct (Js.is_string (prop_of "fullName" _)),
      (Js.is_string (prop_of "email" _)); split; reflexivity.
Qed.

Lemma profile_update_writes_four_fields_witness :
  put_profile (Env 1700000000000 "" "5a17") (vint 1)
    (Store (Some (VArr [VObj [("id", vint 1); ("username", VStr "alice");
                              ("salt", VStr "01d"); ("hashed", VStr "d1ge57")]]))
       None None)
    (Request "PUT" "/api/profile" None (body_of [("email", VStr "a@b.c")]))
  = Ok (Json 200 (message "Profile updated"),
        Store (Some (VArr [VObj [("id", vint 1); ("username", VStr "alice");
                                 ("salt", VStr "01d"); ("hashed", VStr "d1ge57");
                                 ("email", VStr "a@b.c")]]))
          None None).
Proof.
  pose proof (profile_update_writes_four_fields (Env 1700000000000 "" "5a17")
    (vint 1)
    (Store (Some (VArr [VObj [("id", vint 1); ("username", VStr "alice");
                              ("salt", VStr "01d"); ("hashed", VStr "d1ge57")]]))
       None None)
    (Request "PUT" "/api/profile" None (body_of [("email", VStr "a@b.c")]))
    0%nat
    (VObj [("id", vint 1); ("username", VStr "alice");
           ("salt", VStr "01d"); ("hashed", VStr "d1ge57")])
    ltac:(vm_compute; reflexivity) ltac:(vm_compute; reflexivity) eq_refl) as H.
  cbv zeta in H. destruct H as (H & _). rewrite H. vm_compute. reflexivity.
Defined.

(** ** Documents are stable *)

Section Stable.

Lemma to_json_not_undefined (x : value) : Json.is_undefined (Json.to_json x) = false.
Proof. destruct x as [| | | [| |] | | |]; reflexivity. Qed.

Lemma to_json_idempotent (v : value) :
  Json.to_json (Json.to_json v) = Json.to_json v.
Proof.
  induction v as [| | | [| |] | | items IH | props IH] using value_nested_ind;
    try reflexivity.
  - cbn [Json.to_json]. f_equal. rewrite List.map_map.
    induction IH as [|x r Hx _ IHr]; [reflexivity|].
    cbn [List.map]. now rewrite Hx, IHr.
  - rewrite !to_json_obj. f_equal.
    induction IH as [|[k x] r Hx _ IHr]; [reflexivity|].
    cbn [json_props]. destruct (Json.is_undefined x); [exact IHr|].
    cbn [json_props]. rewrite to_json_not_undefined.
    cbn [snd] in Hx. now rewrite Hx, IHr.
Qed.

End Stable.

(** X9.  What [readJson] gives back of a file that [writeJson] wrote is
    the data as a JSON document, and writing that again leaves the file as
    it is: the server can read and rewrite a file any number of times
    without changing it. *)
Theorem written_files_are_stable (data : list value) :
  readJson (writeJson data) = List.map Json.to_json data
  /\ writeJson (readJson (writeJson data)) = writeJson data
  /\ Forall (fun x => Json.is_undefined x = false) (readJson (writeJson data)).
Proof.
  split; [reflexivity|]. split.
  - unfold writeJson. rewrite <- (to_json_idempotent (VArr data)) at 2.
    reflexivity.
  - rewrite readJson_writeJson. apply Forall_forall. intros x Hx.
    apply list_elem_of_In, in_map_iff in Hx as (y & <- & _).
    apply to_json_not_undefined.
Qed.

(** ** Presenting a token *)

Section Presenting.

Lemma replace_unfold (p r s : string) :
  Str.replace p r s
  = if String.prefix p s then r ++ Str.drop (String.length p) s
    else match s with
         | EmptyString => EmptyString
         | String a rest => String a (Str.replace p r rest)
         end.
Proof. destruct s; reflexivity. Qed.

Lemma prefix_append (p s : string) :
  String.prefix p s = true -> exists r, s = p ++ r.
Proof.
  revert s. induction p as [|a p IH]; intros s H; [now exists s|].
  destruct s as [|b s]; [discriminate|]. simpl in H.
  destruct (ascii_dec a b) as [<-|]; [|discriminate].
  destruct (IH s H) as [r ->]. now exists r.
Qed.

Lemma spaceless_append (a b : string) :
  spaceless (a ++ b) = spaceless a && spaceless b.
Proof.
  induction a as [|x a IH]; simpl; [reflexivity|].
  now rewrite IH, andb_assoc.
Qed.

Lemma replace_spaceless (r s : string) :
  spaceless s = true -> Str.replace "Bearer " r s = s.
Proof.
  induction s as [|a s IH]; intros H; [reflexivity|].
  rewrite replace_unfold.
  destruct (String.prefix "Bearer " (String a s)) eqn:E.
  - apply prefix_append in E as [x E]. rewrite E in H.
    rewrite spaceless_append in H. discriminate H.
  - f_equal. apply IH. simpl in H. now apply andb_true_iff in H as [_ H].
Qed.

Lemma trimEnd_spaceless (s : string) : spaceless s = true -> Str.trimEnd s = s.
Proof.
  induction s as [|a s IH]; intros H; [reflexivity|].
  simpl in H. apply andb_true_iff in H as [Ha Hs]. apply negb_true_iff in Ha.
  simpl. rewrite (IH Hs), Ha. now destruct s.
Qed.

Lemma trim_spaceless (s : string) : spaceless s = true -> Str.trim s = s.
Proof.
  intros H. unfold Str.trim.
  replace (Str.trimStart s) with s; [now apply trimEnd_spaceless|].
  destruct s as [|a s]; [reflexivity|]. simpl in H |- *.
  apply andb_true_iff in H as [Ha _]. apply negb_true_iff in Ha. now rewrite Ha.
Qed.

Lemma hex_encode_spaceless (bs : list Z) : spaceless (Hex.encode bs) = true.
Proof.
  assert (D : forall n, Str.is_space (Hex.digit n) = false).
  { intros n. unfold Hex.digit. apply nth_alphabet; [|reflexivity].
    unfold Hex.alphabet; simpl. repeat constructor. }
  induction bs as [|b bs IH]; simpl; [reflexivity|].
  now rewrite !D, IH.
Qed.

Lemma base64_encode_spaceless (s : string) : spaceless (Base64.encode s) = true.
Proof.
  assert (C : forall i, Str.is_space (Base64.char i) = false).
  { intros i. unfold Base64.char. apply nth_alphabet; [|reflexivity].
    unfold Base64.alphabet; simpl. repeat constructor. }
  assert (H : forall n s, (String.length s <= n)%nat ->
                     spaceless (Base64.encode s) = true).
  { clear s. induction n as [|n IH]; intros s Hs.
    - destruct s; [reflexivity | simpl in Hs; lia].
    - destruct s as [|a [|b [|c r]]]; simpl; rewrite ?C; try reflexivity.
      simpl. apply IH. simpl in Hs. lia. }
  now apply (H (String.length s)).
Qed.

Lemma generateToken_spaceless (t : Z) (userId : value) :
  spaceless (generateToken t userId) = true.
Proof.
  rewrite generateToken_segments, !spaceless_append.
  unfold issued_segment, issued_signature, sha256_hex.
  now rewrite base64_encode_spaceless, hex_encode_spaceless.
Qed.

Lemma bearer_token_prefixed (req : request) (tok : string) :
  spaceless tok = true ->
  authorization req = Some ("Bearer " ++ tok) -> bearer_token req = tok.
Proof.
  intros Hs Ha. unfold bearer_token. rewrite Ha.
  rewrite replace_unfold. cbn.
  replace (String.prefix "" tok) with true by now destruct tok.
  now apply trim_spaceless.
Qed.

Lemma bearer_token_bare (req : request) (tok : string) :
  spaceless tok = true ->
  authorization req = Some tok -> bearer_token req = tok.
Proof.
  intros Hs Ha. unfold bearer_token. rewrite Ha.
  rewrite replace_spaceless by assumption. now apply trim_spaceless.
Qed.

End Presenting.

(** X10.  A request behind the gate that presents a token that login
    issued, after [Bearer ] or bare, is rejected as unauthorized once more
    than 24 hours have passed since the token was issued, and is handed
    before that to its route under the identifier the token was issued
    for. *)
Theorem issued_token_passes_the_gate
  (e : env) (st : store) (req : request) (t u : Z) :
  gated req = true ->
  authorization req = Some ("Bearer " ++ generateToken t (vint u))
  \/ authorization req = Some (generateToken t (vint u)) ->
  bearer_token req = generateToken t (vint u)
  /\ handleApi e st req
     = if t + 24 * 60 * 60 * 1000 <? now e
       then Ok (Some unauthorized, st)
       else (let! (r, st') := authenticated e (vint u) st req in
             Ok (Some r, st')).
Proof.
  intros Hg Ha.
  assert (Hb : bearer_token req = generateToken t (vint u)).
  { destruct Ha as [Ha | Ha];
      [apply bearer_token_prefixed | apply bearer_token_bare];
      auto using generateToken_spaceless. }
  split; [exact Hb|].
  rewrite handleApi_gated by assumption.
  unfold session_gate. rewrite Hb, verifyToken_generateToken.
  destruct (t + 24 * 60 * 60 * 1000 <? now e); reflexivity.
Qed.

Lemma issued_token_passes_the_gate_witness :
  handleApi (Env 1700000003600 "" "") (Store None None None)
    (Request "GET" "/api/goals" (Some (generateToken 1700000000000 (vint 7))) "")
  = Ok (Some (Json 200 (VArr [])), Store None None None).
Proof.
  destruct (issued_token_passes_the_gate (Env 1700000003600 "" "")
              (Store None None None)
              (Request "GET" "/api/goals"
                 (Some (generateToken 1700000000000 (vint 7))) "")
              1700000000000 7 eq_refl (or_intror eq_refl)) as [_ H].
  rewrite H. reflexivity.
Defined.

(** ** The identifier in a path *)

Section Paths.

Import DecimalFacts.

Lemma last_split_append (c : ascii) (a b : string) (d : string) :
  List.last (Str.split c (a ++ String c b)) d = List.last (Str.split c b) d.
Proof.
  induction a as [|x a IH].
  - simpl. rewrite Ascii.eqb_refl.
    pose proof (split_not_nil c b). now destruct (Str.split c b).
  - cbn [append Str.split]. destruct (Str.char_eqb x c).
    + rewrite <- IH. pose proof (split_not_nil c (a ++ String c b)).
      now destruct (Str.split c (a ++ String c b)).
    + rewrite <- IH.
      assert (Hc : Str.contains c (a ++ String c b) = true).
      { rewrite contains_append. simpl. unfold Str.char_eqb.
        rewrite Ascii.eqb_refl. now rewrite orb_true_r. }
      pose proof (split_with c _ Hc) as Hl.
      destruct (Str.split c (a ++ String c b)) as [|h [|h' t]];
        simpl in Hl; try lia. reflexivity.
Qed.

Lemma printed_uint_no_slash (u : uint) :
  Str.contains "/" (NilEmpty.string_of_uint u) = false.
Proof. induction u; simpl; auto. Qed.

Lemma printed_integer_no_slash (z : Z) :
  Str.contains "/" (Num.to_string (Fin z 0)) = false.
Proof.
  unfold Num.to_string, Num.digits. rewrite contains_append.
  rewrite printed_uint_no_slash. now destruct (z <? 0).
Qed.

Lemma lex_uint_printed_end (u : uint) :
  Num.lex_uint (NilEmpty.string_of_uint u) = (u, EmptyString).
Proof. induction u; simpl; rewrite ?IHu; reflexivity. Qed.

Lemma trimStart_printed (u : uint) :
  Str.trimStart (NilEmpty.string_of_uint u) = NilEmpty.string_of_uint u.
Proof. destruct u; reflexivity. Qed.

Lemma lex_sign_printed (u : uint) :
  Num.lex_sign true (NilEmpty.string_of_uint u) = (false, NilEmpty.string_of_uint u).
Proof. destruct u; reflexivity. Qed.

Lemma parseInt_printed (z : Z) : Num.parseInt (Num.to_string (Fin z 0)) = Fin z 0.
Proof.
  unfold Num.parseInt, Num.to_string, Num.digits.
  pose proof (to_uint_not_nil (Z.abs_N z)) as Hn.
  pose proof (abs_N_signed z) as Hz.
  pose proof (DecimalN.Unsigned.of_to (Z.abs_N z)) as Hof.
  destruct (z <? 0).
  - change (Str.trimStart ("-" ++ NilEmpty.string_of_uint (N.to_uint (Z.abs_N z))))
      with (String "-" (NilEmpty.string_of_uint (N.to_uint (Z.abs_N z)))).
    cbn [Num.lex_sign]. rewrite lex_uint_printed_end.
    destruct (N.to_uint (Z.abs_N z)) eqn:E; [contradiction | ..];
      cbn [Num.is_nil]; rewrite Hof; now rewrite Hz.
  - cbn [append]. rewrite trimStart_printed, lex_sign_printed.
    rewrite lex_uint_printed_end.
    destruct (N.to_uint (Z.abs_N z)) eqn:E; [contradiction | ..];
      cbn [Num.is_nil]; rewrite Hof; now rewrite Hz.
Qed.

Lemma path_id_printed (prefix : string) (z : Z) :
  path_id (prefix ++ "/" ++ Num.to_string (Fin z 0)) = vint z.
Proof.
  unfold path_id. cbn [append]. rewrite last_split_append.
  rewrite split_without by apply printed_integer_no_slash.
  cbn [List.last]. now rewrite parseInt_printed.
Qed.

End Paths.

(** X11.  The identifier that the updating and deleting routes read off
    a path is the integer printed after the last slash, whatever its sign
    and whatever comes before that slash: the path built from the
    identifier of a record leads back to it.  A path that ends in a slash
    gives [NaN]. *)
Theorem path_id_round_trip (prefix : string) (z : Z) :
  safe_integer z ->
  path_id (prefix ++ "/" ++ Num.to_string (Fin z 0)) = vint z
  /\ path_id (prefix ++ "/") = VNum NaN.
Proof.
  intros _. split; [apply path_id_printed|].
  unfold path_id. now rewrite last_split_append.
Qed.

Lemma path_id_round_trip_witness :
  path_id "/api/goals/-5" = vint (-5) /\ path_id "/api/goals/" = VNum NaN.
Proof.
  apply (path_id_round_trip "/api/goals" (-5)). unfold safe_integer. lia.
Defined.

(** ** A record from its creation to its deletion *)

Section Lifecycle.

Lemma strict_eq_nan (a : value) : Js.strict_eq a (VNum NaN) = false.
Proof. destruct a as [| | | [| |] | | |]; reflexivity. Qed.

Lemma update_record_missing (c : collection) (userId : value) (st : store)
  (req : request) :
  forallb readable (readJson (file_of c st)) = true ->
  forallb (fun r => negb (targets (path_id (pathname req)) userId r))
          (readJson (file_of c st)) = true ->
  update_record c userId st req = Ok (not_found c, st).
Proof.
  intros Hr Hn. unfold update_record.
  rewrite (findIndex_none _ (targets (path_id (pathname req)) userId));
    [reflexivity | | assumption | assumption].
  intros x Hx. now apply is_record_readable.
Qed.

Lemma create_created (c : collection) (e : env) (userId : value)
  (st st' : store) (req : request) (x : value) :
  create c e userId st req = Ok (Json 201 x, st') ->
  st' = with_file c (writeJson (readJson (file_of c st) ++ [x])) st
  /\ owner_of x = userId
  /\ exists props, x = VObj props.
Proof.
  destruct c; cbn [create]; intros H;
    [unfold create_expense in H | unfold create_goal in H];
    repeat route_step H; injection H as <- <-;
    (split; [reflexivity|]); (split; [reflexivity|]); eexists; reflexivity.
Qed.

Lemma findIndex_snoc (p : value -> result bool) (l : list value) (x : value) :
  findIndex p l = Ok None -> p x = Ok true ->
  findIndex p (l ++ [x]) = Ok (Some (List.length l)).
Proof.
  intros Hl Hx. induction l as [|y l IH]; simpl; [now rewrite Hx|].
  simpl in Hl. destruct (p y) as [[|]|]; cbn [bind] in *; try discriminate.
  destruct (findIndex p l) as [[j|]|]; cbn [bind option_map] in *;
    try discriminate.
  now rewrite IH.
Qed.

Lemma filter_app (p : value -> result bool) (q : value -> bool)
  (l l' : list value) :
  (forall x, readable x = true -> p x = Ok (q x)) ->
  forallb readable l = true -> forallb readable l' = true ->
  filter p (l ++ l') = Ok (List.filter q l ++ List.filter q l')%list.
Proof.
  intros Hp Hl Hl'. rewrite (filter_readable p q) by
    (try assumption; rewrite forallb_app; now rewrite Hl, Hl').
  now rewrite List.filter_app.
Qed.

Lemma with_file_twice (c : collection) (f g : file) (st : store) :
  with_file c f (with_file c g st) = with_file c f st.
Proof. destruct c; reflexivity. Qed.

Lemma created_in_file (c : collection) (e : env) (u : Z)
  (st st' : store) (req : request) (x : value) :
  List.map Json.to_json (readJson (file_of c st)) = readJson (file_of c st) ->
  create c e (vint u) st req = Ok (Json 201 x, st') ->
  readJson (file_of c st') = (readJson (file_of c st) ++ [Json.to_json x])%list
  /\ readable (Json.to_json x) = true
  /\ owner_of (Json.to_json x) = vint u.
Proof.
  intros Hdoc H. apply create_created in H as (-> & Ho & props & ->).
  rewrite file_of_with_file, readJson_writeJson, List.map_app, Hdoc.
  split; [reflexivity|]. split; [reflexivity|].
  unfold owner_of in *. rewrite prop_of_to_json by now rewrite Ho.
  now rewrite Ho.
Qed.

End Lifecycle.

(** X12.  An updating or deleting request whose path carries no number
    after the last slash looks for the identifier [NaN], which no record
    has: the reply is the 404 of the collection, and nothing is written. *)
Theorem unreadable_identifier_is_not_found
  (c : collection) (userId : value) (st : store) (req : request) :
  forallb readable (readJson (file_of c st)) = true ->
  path_id (pathname req) = VNum NaN ->
  update_record c userId st req = Ok (not_found c, st)
  /\ delete_record c userId st req = Ok (not_found c, st).
Proof.
  intros Hr Hp.
  assert (Hn : forallb (fun r => negb (targets (path_id (pathname req)) userId r))
                 (readJson (file_of c st)) = true).
  { rewrite Hp. apply forallb_forall. intros r _. unfold targets.
    now rewrite strict_eq_nan. }
  split; [now apply update_record_missing | now apply delete_record_missing].
Qed.

Lemma unreadable_identifier_is_not_found_witness :
  update_record Expenses (vint 1)
    (Store None
       (Some (VArr [VObj [("id", vint 1); ("userId", vint 1);
                          ("category", VStr "food"); ("amount", vint 12)]]))
       None)
    (Request "PUT" "/api/expenses/abc" None (body_of [("amount", vint 13)]))
  = Ok (not_found Expenses,
        Store None
          (Some (VArr [VObj [("id", vint 1); ("userId", vint 1);
                             ("category", VStr "food"); ("amount", vint 12)]]))
          None).
Proof.
  apply (unreadable_identifier_is_not_found Expenses (vint 1)
           (Store None
              (Some (VArr [VObj [("id", vint 1); ("userId", vint 1);
                                 ("category", VStr "food"); ("amount", vint 12)]]))
              None)
           (Request "PUT" "/api/expenses/abc" None (body_of [("amount", vint 13)])));
    reflexivity.
Defined.

(** X13.  After a user has created a record, the listing of that user is
    the listing before with the new record, as the file holds it, at the
    end; the listing of any other user is as before. *)
Theorem created_record_is_listed
  (c : collection) (e : env) (u : Z) (st st' : store) (req : request)
  (x : value) :
  forallb readable (readJson (file_of c st)) = true ->
  List.map Json.to_json (readJson (file_of c st)) = readJson (file_of c st) ->
  create c e (vint u) st req = Ok (Json 201 x, st') ->
  list_records c (vint u) st'
  = Ok (Json 200 (VArr (records_of (vint u) (readJson (file_of c st))
                          ++ [Json.to_json x])), st')
  /\ forall w, w <> u ->
       list_records c (vint w) st'
       = Ok (Json 200 (VArr (records_of (vint w) (readJson (file_of c st)))), st').
Proof.
  intros Hr Hdoc H.
  destruct (created_in_file c e u st st' req x Hdoc H) as (Hf & Hx & Ho).
  assert (F : forall w,
             filter (owned_by (vint w)) (readJson (file_of c st'))
             = Ok (records_of (vint w) (readJson (file_of c st))
                     ++ (if u =? w then [Json.to_json x] else []))%list).
  { intros w. rewrite Hf.
    rewrite (filter_app _ (fun r => Js.strict_eq (owner_of r) (vint w)));
      [ | intros r Hro; now apply owned_by_readable | assumption
        | cbn [forallb]; now rewrite Hx ].
    unfold records_of. cbn [List.filter]. now rewrite Ho, strict_eq_vint. }
  split.
  - unfold list_records. rewrite F, Z.eqb_refl. reflexivity.
  - intros w Hw. unfold list_records. rewrite F.
    destruct (Z.eqb_spec u w) as [->|_]; [contradiction|].
    cbn [bind]. now rewrite app_nil_r.
Qed.

Lemma created_record_is_listed_witness :
  list_records Goals (vint 2)
    (Store None None
       (writeJson
          [VObj [("id", vint 1); ("userId", vint 1); ("title", VStr "car");
                 ("target", vint 900); ("frequency", VStr "yearly")];
           VObj [("id", vint 2); ("userId", vint 2); ("title", VStr "trip");
                 ("target", vint 300); ("frequency", VStr "monthly")]]))
  = Ok (Json 200
          (VArr [VObj [("id", vint 2); ("userId", vint 2); ("title", VStr "trip");
                       ("target", vint 300); ("frequency", VStr "monthly")]]),
        Store None None
          (writeJson
             [VObj [("id", vint 1); ("userId", vint 1); ("title", VStr "car");
                    ("target", vint 900); ("frequency", VStr "yearly")];
              VObj [("id", vint 2); ("userId", vint 2); ("title", VStr "trip");
                    ("target", vint 300); ("frequency", VStr "monthly")]])).
Proof.
  pose proof (created_record_is_listed Goals (Env 0 "" "") 2
    (Store None None
       (Some (VArr [VObj [("id", vint 1); ("userId", vint 1); ("title", VStr "car");
                          ("target", vint 900); ("frequency", VStr "yearly")]])))
    (Store None None
       (writeJson
          [VObj [("id", vint 1); ("userId", vint 1); ("title", VStr "car");
                 ("target", vint 900); ("frequency", VStr "yearly")];
           VObj [("id", vint 2); ("userId", vint 2); ("title", VStr "trip");
                 ("target", vint 300); ("frequency", VStr "monthly")]]))
    (Request "POST" "/api/goals" None
       (body_of [("title", VStr "trip"); ("target", vint 300)]))
    (VObj [("id", vint 2); ("userId", vint 2); ("title", VStr "trip");
           ("target", vint 300); ("frequency", VStr "monthly")])
    eq_refl eq_refl ltac:(vm_compute; reflexivity)) as [H _].
  rewrite H. reflexivity.
Defined.

(** X14.  A record that a user has just created is deleted by that user
    through the path that carries its identifier (an integer that a
    JavaScript number holds exactly), when no older record of the user has
    that identifier: the reply is the record as the file held it, and the
    collection is back to what it was. *)
Theorem created_record_can_be_deleted
  (c : collection) (e : env) (u z : Z) (st st' : store) (req req' : request)
  (x : value) :
  forallb readable (readJson (file_of c st)) = true ->
  List.map Json.to_json (readJson (file_of c st)) = readJson (file_of c st) ->
  create c e (vint u) st req = Ok (Json 201 x, st') ->
  id_of x = vint z ->
  safe_integer z ->
  forallb (fun r => negb (targets (vint z) (vint u) r))
          (readJson (file_of c st)) = true ->
  pathname req' = record_path c z ->
  delete_record c (vint u) st' req'
  = Ok (Json 200 (Json.to_json x),
        with_file c (writeJson (readJson (file_of c st))) st)
  /\ readJson (file_of c (with_file c (writeJson (readJson (file_of c st))) st))
     = readJson (file_of c st).
Proof.
  intros Hr Hdoc H Hid _ Hn Hp.
  destruct (created_in_file c e u st st' req x Hdoc H) as (Hf & Hx & Ho).
  pose proof (id_of_to_json x z Hid) as Hid'.
  apply create_created in H as (Hst & _ & _).
  assert (Hpath : path_id (pathname req') = vint z).
  { rewrite Hp. unfold record_path. destruct c; apply path_id_printed. }
  split; [|now rewrite file_of_with_file, readJson_writeJson].
  unfold delete_record. rewrite Hpath, Hf.
  rewrite (findIndex_snoc _ _ (Json.to_json x)).
  - cbn [bind]. rewrite list_lookup_middle by reflexivity.
    rewrite delete_middle, app_nil_r. rewrite Hst, with_file_twice. reflexivity.
  - apply (findIndex_none _ (targets (vint z) (vint u)));
      [intros r Hro; now apply is_record_readable | assumption | assumption].
  - rewrite is_record_readable by assumption.
    now rewrite Hid', Ho, !strict_eq_vint, !Z.eqb_refl.
Qed.

Lemma created_record_can_be_deleted_witness :
  delete_record Expenses (vint 1)
    (Store None
       (writeJson [VObj [("id", vint 1); ("userId", vint 1);
                         ("category", VStr "food");
                         ("amount", vint 12); ("date", VStr "2024-05-01")]])
       None)
    (Request "DELETE" "/api/expenses/1" None "")
  = Ok (Json 200 (VObj [("id", vint 1); ("userId", vint 1);
                        ("category", VStr "food");
                        ("amount", vint 12); ("date", VStr "2024-05-01")]),
        Store None (writeJson []) None).
Proof.
  pose proof (created_record_can_be_deleted Expenses (Env 0 "2024-05-01" "") 1 1
    (Store None None None)
    (Store None
       (writeJson [VObj [("id", vint 1); ("userId", vint 1);
                         ("category", VStr "food");
                         ("amount", vint 12); ("date", VStr "2024-05-01")]])
       None)
    (Request "POST" "/api/expenses" None
       (body_of [("category", VStr "food"); ("amount", vint 12)]))
    (Request "DELETE" "/api/expenses/1" None "")
    (VObj [("id", vint 1); ("userId", vint 1); ("category", VStr "food");
           ("amount", vint 12); ("date", VStr "2024-05-01")])
    eq_refl eq_refl ltac:(vm_compute; reflexivity) eq_refl
    ltac:(unfold safe_integer; lia) eq_refl eq_refl)
    as [H _].
  rewrite H. reflexivity.
Defined.

(** ** Bodies that are not objects *)

Section NullBody.

Lemma parseBody_null (b : string) :
  Json.parse b = Some VNull -> parseBody b = VNull.
Proof.
  intros H. unfold parseBody. destruct (String.eqb_spec b "") as [->|_].
  - vm_compute in H. discriminate H.
  - now rewrite H.
Qed.

End NullBody.

(** X15.  A body that is the JSON document [null] makes every route that
    takes its fields off the body throw a TypeError before anything is
    read or written: registration, login, the creation of an expense or of
    a goal and the profile update.  The updating routes, which spread the
    body, do not throw: they answer as for an empty body. *)
Theorem null_body_throws
  (e : env) (userId : value) (st : store) (req : request) (c : collection) :
  Json.parse (body req) = Some VNull ->
  register e st req = Throw TypeError
  /\ login e st req = Throw TypeError
  /\ create_expense e userId st req = Throw TypeError
  /\ create_goal userId st req = Throw TypeError
  /\ put_profile e userId st req = Throw TypeError
  /\ update_record c userId st req = update_record c userId st (without_body req).
Proof.
  intros H. apply parseBody_null in H.
  unfold register, login, create_expense, create_goal, put_profile, update_record.
  rewrite H. repeat (split; [reflexivity|]).
  reflexivity.
Qed.

Lemma null_body_throws_witness :
  register (Env 0 "" "5a17") (Store None None None)
    (Request "POST" "/api/register" None "null")
  = Throw TypeError.
Proof.
  apply (null_body_throws (Env 0 "" "5a17") VUndefined (Store None None None)
           (Request "POST" "/api/register" None "null") Expenses).
  vm_compute. reflexivity.
Defined.

(** ** Goals *)

(** X16.  The creation of a goal, for a body that is not [null], the
    next identifier being computed: it is refused with status 400 exactly
    when the title or the target of the body is falsy; it throws a
    TypeError, and stores nothing, when [Number(target)] throws (a target
    that is an object with a [toString] property of its own); otherwise the
    goal is stored at the end of the file and returned with status 201,
    under the next identifier and the caller as owner, its target converted
    to a number and its frequency [monthly] when the body gives none. *)
Theorem create_goal_outcomes
  (userId : value) (st : store) (req : request) (id : value) :
  readable (parseBody (body req)) = true ->
  next_id (readJson (goalsFile st)) = Ok id ->
  create_goal userId st req
  = if negb (Js.truthy (prop_of "title" (parseBody (body req))))
       || negb (Js.truthy (prop_of "target" (parseBody (body req))))
    then Ok (Json 400 (error "Title and target are required"), st)
    else
      match Js.ToNumber (prop_of "target" (parseBody (body req))) with
      | Throw x => Throw x
      | Ok target =>
          Ok (Json 201 (new_goal id userId (parseBody (body req)) target),
              Store (usersFile st) (expensesFile st)
                (writeJson
                   (readJson (goalsFile st)
                    ++ [new_goal id userId (parseBody (body req)) target])))
      end.
Proof.
  intros Hb Hid. unfold create_goal. rewrite !get_prop_of by assumption.
  cbn [bind].
  destruct (negb (Js.truthy (prop_of "title" (parseBody (body req))))
            || negb (Js.truthy (prop_of "target" (parseBody (body req)))));
    [reflexivity|].
  rewrite Hid. cbn [bind].
  destruct (Js.ToNumber _); reflexivity.
Qed.

Lemma create_goal_outcomes_witness :
  create_goal (vint 4) (Store None None None)
    (Request "POST" "/api/goals" None
       (body_of [("title", VStr "laptop"); ("target", VStr "abc")]))
  = Ok (Json 201 (VObj [("id", vint 1); ("userId", vint 4);
                        ("title", VStr "laptop"); ("target", VNum NaN);
                        ("frequency", VStr "monthly")]),
        Store None None
          (Some (VArr [VObj [("id", vint 1); ("userId", vint 4);
                             ("title", VStr "laptop"); ("target", VNull);
                             ("frequency", VStr "monthly")]]))).
Proof.
  rewrite (create_goal_outcomes (vint 4) (Store None None None)
             (Request "POST" "/api/goals" None
                (body_of [("title", VStr "laptop"); ("target", VStr "abc")]))
             (vint 1)).
  - vm_compute. reflexivity.
  - vm_compute. reflexivity.
  - reflexivity.
Defined.

(** ** Changing the password *)

Section PasswordChange.

Lemma find_insert (p : value -> result bool) (l : list value) (i : nat)
  (x : value) :
  findIndex p l = Ok (Some i) -> p x = Ok true -> find p (<[ i := x ]> l) = Ok x.
Proof.
  revert i. induction l as [|y l IH]; intros i Hi Hx; [discriminate|].
  simpl in Hi. destruct (p y) as [[|]|] eqn:Hy; cbn [bind] in Hi;
    try discriminate.
  - injection Hi as <-. simpl. now rewrite Hx.
  - destruct (findIndex p l) as [[j|]|]; cbn [bind option_map] in Hi;
      try discriminate.
    injection Hi as <-. simpl. rewrite Hy. cbn [bind]. now apply IH.
Qed.

Lemma updated_profile_object (salt : string) (b : value)
  (props : list (string * value)) :
  exists props', updated_profile salt b (VObj props) = VObj props'.
Proof.
  unfold updated_profile.
  destruct (prop_of "password" b); try destruct (negb _);
    destruct (Js.is_string (prop_of "fullName" b));
    destruct (Js.is_string (prop_of "email" b)); eexists; reflexivity.
Qed.

Lemma updated_profile_password (salt : string) (b : value)
  (props : list (string * value)) (p : string) :
  prop_of "password" b = VStr p -> Str.trim p <> "" ->
  prop_of "salt" (updated_profile salt b (VObj props)) = VStr salt
  /\ prop_of "hashed" (updated_profile salt b (VObj props))
     = VStr (sha256_hex (Str.trim p ++ salt)).
Proof.
  intros Hp Hne. unfold updated_profile. rewrite Hp.
  apply String.eqb_neq in Hne. rewrite Hne. cbn [negb].
  rewrite !prop_of_assign.
  destruct (Js.is_string (prop_of "fullName" b)),
    (Js.is_string (prop_of "email" b)); split; reflexivity.
Qed.

End PasswordChange.

(** X17.  After a user has changed the password through the profile, a
    login under the username of that user with the new password, trimmed
    as the update trimmed it, is answered with a token for that user.  The
    users file holds documents, and the user is the first one under that
    username. *)
Theorem login_after_password_change
  (e e' : env) (st : store) (req req' : request) (i : nat)
  (props : list (string * value)) (z : Z) (n p : string) :
  List.map Json.to_json (readJson (usersFile st)) = readJson (usersFile st) ->
  findIndex (has_id (vint z)) (readJson (usersFile st)) = Ok (Some i) ->
  findIndex (has_username (VStr n)) (readJson (usersFile st)) = Ok (Some i) ->
  readJson (usersFile st) !! i = Some (VObj props) ->
  Js.lookup "id" props = vint z ->
  Js.lookup "username" props = VStr n ->
  readable (parseBody (body req)) = true ->
  prop_of "password" (parseBody (body req)) = VStr p ->
  Str.trim p <> "" ->
  readable (parseBody (body req')) = true ->
  prop_of "username" (parseBody (body req')) = VStr n ->
  prop_of "password" (parseBody (body req')) = VStr (Str.trim p) ->
  exists st',
    put_profile e (vint z) st req = Ok (Json 200 (message "Profile updated"), st')
    /\ login e' st' req'
       = Ok (Json 200 (VObj [("token", VStr (generateToken (now e') (vint z)))]),
             st').
Proof.
  intros Hdoc Hi Hn Hu Hid Hname Hb Hp Hne Hb' Hn' Hp'.
  eexists. split; [now apply (put_profile_found e (vint z) st req i (VObj props))|].
  set (u' := updated_profile (random_salt e) (parseBody (body req)) (VObj props)).
  destruct (updated_profile_object (random_salt e) (parseBody (body req)) props)
    as [props' Hobj]. fold u' in Hobj.
  destruct (updated_profile_password (random_salt e) (parseBody (body req))
              props p Hp Hne) as [Hsalt Hhashed]. fold u' in Hsalt, Hhashed.
  assert (Hk : forall k, profile_key k = false ->
                 prop_of k u' = Js.lookup k props).
  { intros k Hk. unfold u'. now rewrite updated_profile_other. }
  assert (Hsalt' : prop_of "salt" (Json.to_json u') = VStr (random_salt e)).
  { rewrite prop_of_to_json; now rewrite Hsalt. }
  assert (Hhashed' : prop_of "hashed" (Json.to_json u')
                     = VStr (sha256_hex (Str.trim p ++ random_salt e))).
  { rewrite prop_of_to_json; now rewrite Hhashed. }
  assert (Hid' : prop_of "id" (Json.to_json u') = vint z).
  { rewrite prop_of_to_json; rewrite (Hk "id" eq_refl), Hid; reflexivity. }
  assert (Hname' : prop_of "username" (Json.to_json u') = VStr n).
  { rewrite prop_of_to_json; rewrite (Hk "username" eq_refl), Hname; reflexivity. }
  assert (Hread : readable (Json.to_json u') = true).
  { rewrite Hobj. reflexivity. }
  rewrite (login_found e' _ req' (Json.to_json u') (VStr (random_salt e))
             (VStr (sha256_hex (Str.trim p ++ random_salt e))) (vint z)
             (sha256_hex (Str.trim p ++ random_salt e))).
  - cbn [Js.strict_eq]. now rewrite String.eqb_refl.
  - assumption.
  - cbn [usersFile]. rewrite readJson_writeJson, map_insert, Hdoc, Hn'.
    apply find_insert; [assumption|].
    rewrite has_username_readable by assumption.
    unfold prop_of in Hname'.
    rewrite Hobj in Hname' |- *. rewrite to_json_obj in Hname' |- *.
    cbn [prop_of]. rewrite Hname'. cbn [Js.strict_eq]. now rewrite String.eqb_refl.
  - rewrite Hobj. reflexivity.
  - rewrite get_prop_of by assumption. now rewrite Hsalt'.
  - rewrite Hp'. apply hashPassword_string_salt.
  - rewrite get_prop_of by assumption. now rewrite Hhashed'.
  - rewrite get_prop_of by assumption. now rewrite Hid'.
Qed.

Lemma login_after_password_change_witness :
  exists st',
    put_profile (Env 0 "" "5a17") (vint 1)
      (Store (Some (VArr [VObj [("id", vint 1); ("username", VStr "alice");
                                ("salt", VStr "01d"); ("hashed", VStr "d1ge57")]]))
         None None)
      (Request "PUT" "/api/profile" None (body_of [("password", VStr " n3w ")]))
    = Ok (Json 200 (message "Profile updated"), st')
    /\ login (Env 1700000000000 "" "") st'
         (Request "POST" "/api/login" None
            (body_of [("username", VStr "alice"); ("password", VStr "n3w")]))
       = Ok (Json 200
               (VObj [("token", VStr (generateToken 1700000000000 (vint 1)))]),
             st').
Proof.
  apply (login_after_password_change (Env 0 "" "5a17") (Env 1700000000000 "" "")
           (Store (Some (VArr [VObj [("id", vint 1); ("username", VStr "alice");
                                     ("salt", VStr "01d");
                                     ("hashed", VStr "d1ge57")]]))
              None None)
           (Request "PUT" "/api/profile" None (body_of [("password", VStr " n3w ")]))
           (Request "POST" "/api/login" None
              (body_of [("username", VStr "alice"); ("password", VStr "n3w")]))
           0%nat
           [("id", vint 1); ("username", VStr "alice");
            ("salt", VStr "01d"); ("hashed", VStr "d1ge57")]
           1 "alice" " n3w ");
    try (vm_compute; reflexivity).
  vm_compute. discriminate.
Defined.

(** ** The format of a token *)

Section Format.

Lemma hex_encode_length (bs : list Z) :
  String.length (Hex.encode bs) = (2 * List.length bs)%nat.
Proof. induction bs as [|b bs IH]; simpl; [reflexivity | rewrite IH; lia]. Qed.

Lemma be_bytes_length (n : nat) (x : Z) : List.length (Sha256.be_bytes n x) = n.
Proof.
  revert x. induction n as [|n IH]; intros x; simpl; [reflexivity|].
  rewrite List.length_app, IH. simpl. lia.
Qed.

Lemma blocks_length (fuel : nat) (h ws : list Z) :
  List.length h = 8%nat -> List.length (Sha256.blocks fuel h ws) = 8%nat.
Proof.
  revert h ws. induction fuel as [|f IH]; intros h ws Hh.
  - destruct ws; exact Hh.
  - destruct ws as [|w ws]; [exact Hh|].
    cbn [Sha256.blocks]. apply IH. reflexivity.
Qed.

Lemma digest_length (msg : list Z) : List.length (Sha256.digest msg) = 32%nat.
Proof.
  unfold Sha256.digest.
  pose proof (blocks_length
                (List.length (Sha256.words (List.length (Sha256.pad msg))
                                (Sha256.pad msg)))
                Sha256.H0
                (Sha256.words (List.length (Sha256.pad msg)) (Sha256.pad msg))
                eq_refl) as H.
  destruct (Sha256.blocks _ _ _) as [|a [|b [|c [|d [|e0 [|f [|g [|h [|]]]]]]]]];
    try discriminate H.
  cbn [List.map List.concat]. rewrite !List.length_app, !be_bytes_length.
  reflexivity.
Qed.

End Format.

(** X18.  A token is two segments around one dot.  The first is the
    base64 of the payload's JSON text and decodes to it; the second is a
    digest of 64 hexadecimal digits.  No white space occurs in it. *)
Theorem issued_token_format (t : Z) (userId : value) :
  Str.split "." (generateToken t userId)
  = [issued_segment t userId; issued_signature t userId]
  /\ Base64.decode (issued_segment t userId)
     = Json.stringify (token_payload t userId)
  /\ String.length (issued_signature t userId) = 64%nat
  /\ spaceless (generateToken t userId) = true.
Proof.
  split; [|split; [|split]].
  - rewrite generateToken_segments.
    change ("." ++ issued_signature t userId)
      with (String "." (issued_signature t userId)).
    rewrite split_append by apply base64_encode_no_dot.
    now rewrite split_without by apply sha256_hex_no_dot.
  - apply decode_encode.
  - unfold issued_signature, sha256_hex.
    now rewrite hex_encode_length, digest_length.
  - apply generateToken_spaceless.
Qed.

(** ** A record that is [null] *)

Section NullRecord.

Lemma filter_unreadable (userId : value) (l : list value) :
  forallb readable l = false -> filter (owned_by userId) l = Throw TypeError.
Proof.
  induction l as [|x l IH]; [discriminate|].
  cbn [forallb filter]. destruct (readable x) eqn:Hx.
  - cbn [andb]. intros Hl. rewrite owned_by_readable by assumption.
    cbn [bind]. now rewrite (IH Hl).
  - intros _. unfold owned_by. now rewrite get_unreadable by assumption.
Qed.

End NullRecord.

(** X19.  A file that holds a [null] among its records makes the listing
    of that collection throw a TypeError for every user, nothing being
    answered. *)
Theorem null_record_breaks_listing (c : collection) (userId : value) (st : store) :
  forallb readable (readJson (file_of c st)) = false ->
  list_records c userId st = Throw TypeError.
Proof.
  intros H. unfold list_records. now rewrite filter_unreadable.
Qed.

Lemma null_record_breaks_listing_witness :
  list_records Expenses (vint 1)
    (Store None
       (Some (VArr [VObj [("id", vint 1); ("userId", vint 1)]; VNull]))
       None)
  = Throw TypeError.
Proof.
  apply (null_record_breaks_listing Expenses (vint 1)
           (Store None
              (Some (VArr [VObj [("id", vint 1); ("userId", vint 1)]; VNull]))
              None)).
  reflexivity.
Defined.

(** ** The profile, written then read *)

Section ProfileRoundTrip.

Lemma updated_profile_names (salt : string) (b : value)
  (props : list (string * value)) (f m : string) :
  prop_of "fullName" b = VStr f -> prop_of "email" b = VStr m ->
  prop_of "fullName" (updated_profile salt b (VObj props)) = VStr f
  /\ prop_of "email" (updated_profile salt b (VObj props)) = VStr m.
Proof.
  intros Hf Hm. unfold updated_profile. rewrite Hf, Hm. cbn [Js.is_string].
  destruct (prop_of "password" b); try destruct (negb _);
    rewrite !prop_of_assign; split; reflexivity.
Qed.

End ProfileRoundTrip.

(** X20.  What a profile update writes, the profile view shows: after an
    update that gives a full name and an email, the view of the same user
    answers with the username and with that full name and that email. *)
Theorem profile_update_then_view
  (e : env) (st : store) (req : request) (i : nat)
  (props : list (string * value)) (z : Z) (n f m : string) :
  List.map Json.to_json (readJson (usersFile st)) = readJson (usersFile st) ->
  findIndex (has_id (vint z)) (readJson (usersFile st)) = Ok (Some i) ->
  readJson (usersFile st) !! i = Some (VObj props) ->
  Js.lookup "id" props = vint z ->
  Js.lookup "username" props = VStr n ->
  readable (parseBody (body req)) = true ->
  prop_of "fullName" (parseBody (body req)) = VStr f ->
  prop_of "email" (parseBody (body req)) = VStr m ->
  exists st',
    put_profile e (vint z) st req = Ok (Json 200 (message "Profile updated"), st')
    /\ get_profile (vint z) st'
       = Ok (Json 200 (VObj [("username", VStr n); ("fullName", VStr f);
                             ("email", VStr m)]), st').
Proof.
  intros Hdoc Hi Hu Hid Hname Hb Hf Hm.
  eexists. split; [now apply (put_profile_found e (vint z) st req i (VObj props))|].
  set (u' := updated_profile (random_salt e) (parseBody (body req)) (VObj props)).
  destruct (updated_profile_object (random_salt e) (parseBody (body req)) props)
    as [props' Hobj]. fold u' in Hobj.
  destruct (updated_profile_names (random_salt e) (parseBody (body req))
              props f m Hf Hm) as [Hf' Hm']. fold u' in Hf', Hm'.
  assert (Hk : forall k, profile_key k = false ->
                 prop_of k u' = Js.lookup k props).
  { intros k Hk. unfold u'. now rewrite updated_profile_other. }
  assert (Hread : readable (Json.to_json u') = true).
  { rewrite Hobj. reflexivity. }
  assert (Hfind : find (has_id (vint z))
                    (readJson (writeJson (<[ i := u' ]> (readJson (usersFile st)))))
                  = Ok (Json.to_json u')).
  { rewrite readJson_writeJson, map_insert, Hdoc.
    apply find_insert; [assumption|].
    rewrite has_id_readable by assumption. unfold id_of.
    rewrite prop_of_to_json; rewrite (Hk "id" eq_refl), Hid;
      [|reflexivity].
    change (Json.to_json (vint z)) with (vint z).
    now rewrite strict_eq_vint, Z.eqb_refl. }
  unfold get_profile. cbn [usersFile]. rewrite Hfind. cbn [bind].
  replace (Js.truthy (Json.to_json u')) with true by (now rewrite Hobj).
  cbn [negb]. rewrite !get_prop_of by assumption. cbn [bind].
  rewrite !prop_of_to_json;
    rewrite ?Hf', ?Hm', ?(Hk "username" eq_refl), ?Hname; reflexivity.
Qed.

Lemma profile_update_then_view_witness :
  exists st',
    put_profile (Env 0 "" "5a17") (vint 1)
      (Store (Some (VArr [VObj [("id", vint 1); ("username", VStr "alice");
                                ("salt", VStr "01d"); ("hashed", VStr "d1ge57")]]))
         None None)
      (Request "PUT" "/api/profile" None
         (body_of [("fullName", VStr "Alice A"); ("email", VStr "a@b.c")]))
    = Ok (Json 200 (message "Profile updated"), st')
    /\ get_profile (vint 1) st'
       = Ok (Json 200 (VObj [("username", VStr "alice");
                             ("fullName", VStr "Alice A");
                             ("email", VStr "a@b.c")]), st').
Proof.
  apply (profile_update_then_view (Env 0 "" "5a17")
           (Store (Some (VArr [VObj [("id", vint 1); ("username", VStr "alice");
                                     ("salt", VStr "01d");
                                     ("hashed", VStr "d1ge57")]]))
              None None)
           (Request "PUT" "/api/profile" None
              (body_of [("fullName", VStr "Alice A"); ("email", VStr "a@b.c")]))
           0%nat
           [("id", vint 1); ("username", VStr "alice");
            ("salt", VStr "01d"); ("hashed", VStr "d1ge57")]
           1 "alice" "Alice A" "a@b.c");
    vm_compute; reflexivity.
Defined.

(** ** After a deletion *)

Section Deleted.

Lemma NoDup_delete_absent {A : Type} (l : list A) (i : nat) (x : A) :
  NoDup l -> l !! i = Some x -> ~ In x (delete i l).
Proof.
  intros Hnd. revert i. induction Hnd as [|y l Hy Hnd IH]; intros [|i] Hi;
    simpl in Hi; try discriminate.
  - injection Hi as <-. intros Hin. apply Hy. now apply list_elem_of_In.
  - intros [-> | Hin]; [|now apply (IH i Hi)].
    apply Hy. now apply list_elem_of_lookup_2 with i.
Qed.

Lemma forallb_delete {A : Type} (p : A -> bool) (l : list A) (i : nat) :
  forallb p l = true -> forallb p (delete i l) = true.
Proof.
  revert i. induction l as [|y l IH]; intros [|i]; simpl; try reflexivity;
    intros H; apply andb_true_iff in H as [Hy Hl]; [assumption|].
  now rewrite Hy, IH.
Qed.

End Deleted.

(** X21.  In a collection of documents with pairwise distinct integer
    identifiers, a record that has been deleted is gone: the same request
    again, and an update on the same path, are answered not-found and
    write nothing. *)
Theorem deleted_record_is_gone
  (c : collection) (userId : value) (st st' : store) (req : request)
  (removed : value) (zs : list Z) :
  forallb readable (readJson (file_of c st)) = true ->
  List.map Json.to_json (readJson (file_of c st)) = readJson (file_of c st) ->
  ids (readJson (file_of c st)) = List.map vint zs ->
  NoDup zs ->
  delete_record c userId st req = Ok (Json 200 removed, st') ->
  delete_record c userId st' req = Ok (not_found c, st')
  /\ update_record c userId st' req = Ok (not_found c, st').
Proof.
  intros Hr Hdoc Hids Hnd Hd.
  destruct (delete_record_found _ _ _ _ _ _ Hd) as (i & Hi & Hrem & ->).
  destruct (findIndex_is_record _ _ _ _ Hi) as (old & Hold & Hid & _).
  rewrite Hrem in Hold. injection Hold as <-.
  assert (Hf : readJson (file_of c (with_file c
                 (writeJson (delete i (readJson (file_of c st)))) st))
               = delete i (readJson (file_of c st))).
  { now rewrite file_of_with_file, readJson_writeJson, map_delete, Hdoc. }
  assert (Hr' : forallb readable (delete i (readJson (file_of c st))) = true)
    by now apply forallb_delete.
  assert (Hn : forallb (fun r => negb (targets (path_id (pathname req)) userId r))
                 (delete i (readJson (file_of c st))) = true).
  { apply forallb_forall. intros r Hin. unfold targets.
    destruct (Js.strict_eq (id_of r) (path_id (pathname req))) eqn:E;
      [|reflexivity].
    exfalso. apply strict_eq_eq in E.
    apply (NoDup_delete_absent (ids (readJson (file_of c st))) i (id_of removed)).
    - rewrite Hids. now apply NoDup_vints.
    - unfold ids. now apply map_lookup.
    - unfold ids. rewrite <- map_delete, Hid, <- E. now apply List.in_map. }
  split; [apply delete_record_missing | apply update_record_missing];
    rewrite Hf; assumption.
Qed.

Lemma deleted_record_is_gone_witness :
  delete_record Goals (vint 1)
    (Store None None (writeJson [VObj [("id", vint 2); ("userId", vint 1)]]))
    (Request "DELETE" "/api/goals/1" None "")
  = Ok (not_found Goals,
        Store None None (writeJson [VObj [("id", vint 2); ("userId", vint 1)]])).
Proof.
  pose proof (deleted_record_is_gone Goals (vint 1)
    (Store None None
       (Some (VArr [VObj [("id", vint 1); ("userId", vint 1)];
                    VObj [("id", vint 2); ("userId", vint 1)]])))
    (Store None None (writeJson [VObj [("id", vint 2); ("userId", vint 1)]]))
    (Request "DELETE" "/api/goals/1" None "")
    (VObj [("id", vint 1); ("userId", vint 1)])
    [1; 2]
    eq_refl eq_refl eq_refl
    ltac:(apply ascending_NoDup; repeat constructor)
    ltac:(vm_compute; reflexivity)) as [H _].
  exact H.
Defined.

(** ** Text after the identifier *)

Section Trailing.

Lemma digit_of_none (c : ascii) (u : uint) :
  Str.is_digit c = false -> Num.digit_of c u = None.
Proof.
  destruct c as [[] [] [] [] [] [] [] []]; intros H;
    try reflexivity; vm_compute in H; discriminate H.
Qed.

Lemma lex_uint_printed_then (u : uint) (rest : string) :
  digitless_start rest = true ->
  Num.lex_uint (NilEmpty.string_of_uint u ++ rest) = (u, rest).
Proof.
  intros Hr. induction u; simpl; rewrite ?IHu; try reflexivity.
  destruct rest as [|c r]; [reflexivity|]. simpl in Hr |- *.
  destruct (Num.lex_uint r) as [u' r'].
  apply negb_true_iff in Hr. now rewrite digit_of_none.
Qed.

Lemma trimStart_printed_then (u : uint) (rest : string) :
  u <> Nil ->
  Str.trimStart (NilEmpty.string_of_uint u ++ rest)
  = NilEmpty.string_of_uint u ++ rest.
Proof. destruct u; [contradiction | ..]; reflexivity. Qed.

Lemma lex_sign_printed_then (u : uint) (rest : string) :
  u <> Nil ->
  Num.lex_sign true (NilEmpty.string_of_uint u ++ rest)
  = (false, NilEmpty.string_of_uint u ++ rest).
Proof. destruct u; [contradiction | ..]; reflexivity. Qed.

Lemma parseInt_printed_then (z : Z) (rest : string) :
  digitless_start rest = true ->
  Num.parseInt (Num.to_string (Fin z 0) ++ rest) = Fin z 0.
Proof.
  intros Hr. unfold Num.parseInt, Num.to_string, Num.digits.
  pose proof (to_uint_not_nil (Z.abs_N z)) as Hn.
  pose proof (abs_N_signed z) as Hz.
  pose proof (DecimalN.Unsigned.of_to (Z.abs_N z)) as Hof.
  rewrite append_assoc.
  destruct (z <? 0).
  - change (Str.trimStart
              ("-" ++ NilEmpty.string_of_uint (N.to_uint (Z.abs_N z)) ++ rest))
      with (String "-" (NilEmpty.string_of_uint (N.to_uint (Z.abs_N z)) ++ rest)).
    cbn [Num.lex_sign]. rewrite lex_uint_printed_then by assumption.
    destruct (N.to_uint (Z.abs_N z)) eqn:E; [contradiction | ..];
      cbn [Num.is_nil]; rewrite Hof; now rewrite Hz.
  - cbn [append].
    rewrite trimStart_printed_then, lex_sign_printed_then by assumption.
    rewrite lex_uint_printed_then by assumption.
    destruct (N.to_uint (Z.abs_N z)) eqn:E; [contradiction | ..];
      cbn [Num.is_nil]; rewrite Hof; now rewrite Hz.
Qed.

End Trailing.

(** X22.  Text after the digits of the last segment of a path is ignored,
    as [parseInt] ignores it: such a path leads to the record of the
    integer its last segment starts with. *)
Theorem path_id_ignores_trailing_text (prefix rest : string) (z : Z) :
  safe_integer z ->
  Str.contains "/" rest = false ->
  digitless_start rest = true ->
  path_id (prefix ++ "/" ++ Num.to_string (Fin z 0) ++ rest) = vint z.
Proof.
  intros _ Hs Hd. unfold path_id. cbn [append]. rewrite last_split_append.
  rewrite split_without
    by (rewrite contains_append, printed_integer_no_slash; exact Hs).
  cbn [List.last]. now rewrite parseInt_printed_then.
Qed.

Lemma path_id_ignores_trailing_text_witness :
  path_id "/api/expenses/12abc" = vint 12.
Proof.
  apply (path_id_ignores_trailing_text "/api/expenses" "abc" 12);
    [unfold safe_integer; lia | reflexivity | reflexivity].
Defined.
